(** * Cognitive-complexity analyzers of code-metrics: a shallow embedding

The development follows the three TypeScript modules of the analysis
core: [languages/csharpAnalyzer.ts], [languages/goAnalyzer.ts] and
[metricsAnalyzerFactory.ts].

Conventions of the embedding:
- JavaScript numbers that the analyzers compute with (nesting,
  complexity, increments, detail positions) are integers [Z];
  Tree-sitter offsets, rows and columns are unsigned, hence [nat].
- A JavaScript string is a [string]; a code unit is an [ascii].
- A [Parser.SyntaxNode] is a rose tree; [node.parent] and
  [parent.children.indexOf(node)] are read off the path of
  (ancestor, child index) frames under which the node is reached.
- The mutable fields [nesting], [complexity] and [details] of an analyzer
  instance are threaded explicitly as a [State]. *)

From Stdlib Require Import ZArith List String Ascii Bool Lia.
Import ListNotations.

Local Open Scope string_scope.
Local Open Scope Z_scope.

(* ===================================================================== *)
(** ** JavaScript strings and regular expressions                         *)
(* ===================================================================== *)

Module Js.

(** [s.substring(a, b)]: the indices are swapped when [a > b] and clamped
    to the length of [s]. *)
Definition substring (s : string) (a b : nat) : string :=
  String.substring (Nat.min a b) (Nat.max a b - Nat.min a b) s.

(** [s.startsWith(p)]. *)
Definition startsWith (s p : string) : bool := String.prefix p s.

(** [s.includes(p)]. *)
Fixpoint includes (s p : string) : bool :=
  String.prefix p s ||
  match s with
  | EmptyString => false
  | String _ s' => includes s' p
  end.

(** Character classes of the regular expressions used by the analyzers. *)
Definition code (c : ascii) : nat := nat_of_ascii c.

Definition between (lo hi : nat) (c : ascii) : bool :=
  (Nat.leb lo (code c) && Nat.leb (code c) hi)%bool.

(** [\w] is [[A-Za-z0-9_]]. *)
Definition is_word (c : ascii) : bool :=
  (between 65 90 c || between 97 122 c || between 48 57 c
   || Nat.eqb (code c) 95)%bool.

(** [\s] over one-byte code units: TAB, LF, VT, FF, CR, space and NBSP. *)
Definition is_space (c : ascii) : bool :=
  (between 9 13 c || Nat.eqb (code c) 32 || Nat.eqb (code c) 160)%bool.

Definition is_char (a c : ascii) : bool := Ascii.eqb a c.
Definition is_not (l : list ascii) (c : ascii) : bool :=
  negb (existsb (Ascii.eqb c) l).

(** Regular expressions (no anchors, groups or back-references occur in
    the analyzers), matched with Brzozowski derivatives. *)
Inductive regex : Type :=
| Void : regex
| Eps : regex
| Cls : (ascii -> bool) -> regex
| Cat : regex -> regex -> regex
| Alt : regex -> regex -> regex
| Star : regex -> regex.

Definition Plus (r : regex) : regex := Cat r (Star r).

Fixpoint Lit (s : string) : regex :=
  match s with
  | EmptyString => Eps
  | String c s' => Cat (Cls (is_char c)) (Lit s')
  end.

Fixpoint nullable (r : regex) : bool :=
  match r with
  | Void => false
  | Eps => true
  | Cls _ => false
  | Cat r1 r2 => nullable r1 && nullable r2
  | Alt r1 r2 => nullable r1 || nullable r2
  | Star _ => true
  end.

Fixpoint deriv (c : ascii) (r : regex) : regex :=
  match r with
  | Void => Void
  | Eps => Void
  | Cls p => if p c then Eps else Void
  | Cat r1 r2 =>
      if nullable r1
      then Alt (Cat (deriv c r1) r2) (deriv c r2)
      else Cat (deriv c r1) r2
  | Alt r1 r2 => Alt (deriv c r1) (deriv c r2)
  | Star r1 => Cat (deriv c r1) (Star r1)
  end.

(** Some prefix of [s] belongs to the language of [r]. *)
Fixpoint matches_prefix (r : regex) (s : string) : bool :=
  nullable r ||
  match s with
  | EmptyString => false
  | String c s' => matches_prefix (deriv c r) s'
  end.

(** [/r/.test(s)]: a match may start at any position of [s]. *)
Fixpoint test (r : regex) (s : string) : bool :=
  matches_prefix r s ||
  match s with
  | EmptyString => false
  | String _ s' => test r s'
  end.

(** The assertion [\b] between the code unit before a position (none at
    the start of the string) and the rest of the string. *)
Definition word_boundary (prev : option ascii) (s : string) : bool :=
  xorb (match prev with Some c => is_word c | None => false end)
       (match s with String c _ => is_word c | EmptyString => false end).

(** [/\br/.test(s)], scanning [s] with the previous code unit at hand. *)
Fixpoint test_wb_from (prev : option ascii) (r : regex) (s : string) : bool :=
  (word_boundary prev s && matches_prefix r s) ||
  match s with
  | EmptyString => false
  | String c s' => test_wb_from (Some c) r s'
  end.

Definition test_wb (r : regex) (s : string) : bool := test_wb_from None r s.

(** [s.match(/&&|\|\|/g)]: the successive non-overlapping matches, scanned
    from the left; [null] (no match) is the empty list here, and only the
    number of matches is used by the callers. *)
Fixpoint match_logical_ops (s : string) : list string :=
  match s with
  | EmptyString => []
  | String a s1 =>
      match s1 with
      | EmptyString => []
      | String b s2 =>
          if (Ascii.eqb a "&" && Ascii.eqb b "&")%bool then "&&" :: match_logical_ops s2
          else if (Ascii.eqb a "|" && Ascii.eqb b "|")%bool then "||" :: match_logical_ops s2
          else match_logical_ops s1
      end
  end.

(** The code units, all 256 of them. *)
Definition units : list ascii := map ascii_of_nat (List.seq 0 256).

(** A sufficient condition for every word of the language of [r] to
    contain the code unit [c]. *)
Fixpoint requires (c : ascii) (r : regex) : bool :=
  match r with
  | Void => true
  | Eps => false
  | Cls p => forallb (fun a => implb (p a) (Ascii.eqb a c)) units
  | Cat r1 r2 => requires c r1 || requires c r2
  | Alt r1 r2 => requires c r1 && requires c r2
  | Star _ => false
  end.

(** The code unit [c] occurs in [s]. *)
Fixpoint occurs (c : ascii) (s : string) : bool :=
  match s with
  | EmptyString => false
  | String a s' => Ascii.eqb a c || occurs c s'
  end.

End Js.

(* ===================================================================== *)
(** ** Tree-sitter syntax trees                                           *)
(* ===================================================================== *)

Module TreeSitter.

Record Point : Type := mkPoint { row : nat; column : nat }.

(** A [Parser.SyntaxNode]: its [type], [startIndex], [endIndex],
    [startPosition], [endPosition] and [children]. *)
#[local] Unset Elimination Schemes.
Inductive SyntaxNode : Type :=
| Node : string -> nat -> nat -> Point -> Point -> list SyntaxNode -> SyntaxNode.
#[local] Set Elimination Schemes.

Definition type (n : SyntaxNode) : string :=
  match n with Node t _ _ _ _ _ => t end.
Definition startIndex (n : SyntaxNode) : nat :=
  match n with Node _ i _ _ _ _ => i end.
Definition endIndex (n : SyntaxNode) : nat :=
  match n with Node _ _ j _ _ _ => j end.
Definition startPosition (n : SyntaxNode) : Point :=
  match n with Node _ _ _ p _ _ => p end.
Definition endPosition (n : SyntaxNode) : Point :=
  match n with Node _ _ _ _ q _ => q end.
Definition children (n : SyntaxNode) : list SyntaxNode :=
  match n with Node _ _ _ _ _ cs => cs end.

(** The way a node is reached from the root: for each ancestor, nearest
    first, the ancestor and the index of the child the path goes through.
    [node.parent] is the head of the path; the root has the empty path. *)
Definition Path : Type := list (SyntaxNode * nat).

(** [sourceText.substring(node.startIndex, node.endIndex)]. *)
Definition text (sourceText : string) (n : SyntaxNode) : string :=
  Js.substring sourceText (startIndex n) (endIndex n).

(** [node.type === t]. *)
Definition hasType (n : SyntaxNode) (t : string) : bool := String.eqb (type n) t.

(** [node.type] is one of the labels of a [case] group. *)
Definition isOneOf (n : SyntaxNode) (ts : list string) : bool :=
  existsb (String.eqb (type n)) ts.

(** [children.find(p)], together with the index of the child found. *)
Fixpoint findFrom (p : SyntaxNode -> bool) (i : nat) (cs : list SyntaxNode)
  : option (nat * SyntaxNode) :=
  match cs with
  | [] => None
  | c :: cs' => if p c then Some (i, c) else findFrom p (S i) cs'
  end.

Definition findChild (p : SyntaxNode -> bool) (n : SyntaxNode)
  : option (nat * SyntaxNode) :=
  findFrom p 0 (children n).

(** [for (const child of children) body(child)] over a threaded state,
    the body being told the index of the child. *)
Section ForEach.
Context {S : Type} (body : nat -> SyntaxNode -> S -> S).

Fixpoint forEachFrom (i : nat) (cs : list SyntaxNode) (s : S) : S :=
  match cs with
  | [] => s
  | c :: cs' => forEachFrom (Datatypes.S i) cs' (body i c s)
  end.
End ForEach.

(** Induction over a syntax tree, with the hypothesis on every child. *)
Section NodeInd.
Variable P : SyntaxNode -> Prop.
Hypothesis step :
  forall t i j p q cs, Forall P cs -> P (Node t i j p q cs).

Fixpoint SyntaxNode_forall_ind (n : SyntaxNode) : P n :=
  match n with
  | Node t i j p q cs =>
      step t i j p q cs
        ((fix all (l : list SyntaxNode) : Forall P l :=
            match l with
            | [] => Forall_nil P
            | c :: l' => Forall_cons c (SyntaxNode_forall_ind c) (all l')
            end) cs)
  end.
End NodeInd.

(** The nodes of a tree in pre-order, each with its path. *)
Fixpoint preorder (ctx : Path) (n : SyntaxNode) : list (Path * SyntaxNode) :=
  match n with
  | Node _ _ _ _ _ cs =>
      (ctx, n) ::
      forEachFrom (fun i c acc => (acc ++ preorder ((n, i) :: ctx) c)%list) 0 cs []
  end.

(** *** What a node shows of itself without its subtrees *)

(** The type and the span of a node: all that the analyzers read of the
    children of a node and of the children of its ancestors. *)
Definition shallow (n : SyntaxNode) : string * nat * nat :=
  (type n, startIndex n, endIndex n).

(** Two nodes that differ at most below their children. *)
Definition sim_node (n n' : SyntaxNode) : Prop :=
  shallow n = shallow n' /\
  startPosition n = startPosition n' /\
  map shallow (children n) = map shallow (children n').

(** Two paths whose frames differ at most below the children of the
    ancestors. *)
Definition sim_frame (a b : SyntaxNode * nat) : Prop :=
  snd a = snd b /\
  type (fst a) = type (fst b) /\
  map shallow (children (fst a)) = map shallow (children (fst b)).

Definition sim_path (ctx ctx' : Path) : Prop := Forall2 sim_frame ctx ctx'.

End TreeSitter.

(* ===================================================================== *)
(** ** Analysis results                                                   *)
(* ===================================================================== *)

(** The interfaces [CSharpMetricsDetail], [GoMetricsDetail] and
    [UnifiedMetricsDetail] (resp. [...FunctionMetrics]) declare the same
    fields; TypeScript's structural typing identifies them. *)
Module Metrics.

Record Detail : Type := mkDetail {
  increment : Z;
  reason : string;
  line : Z;
  column : Z;
  nesting : Z
}.

Record FunctionMetrics : Type := mkFunctionMetrics {
  name : string;
  complexity : Z;
  details : list Detail;
  startLine : Z;
  endLine : Z;
  startColumn : Z;
  endColumn : Z
}.

(** The sum of the increments of a list of details. *)
Definition total (ds : list Detail) : Z :=
  fold_right (fun d acc => increment d + acc) 0 ds.

(** A detail with [di] added to its increment and [dn] to its nesting. *)
Definition raise (di dn : Z) (d : Detail) : Detail :=
  {| increment := increment d + di;
     reason := reason d;
     line := line d;
     column := column d;
     nesting := nesting d + dn |}.

End Metrics.

(* ===================================================================== *)
(** ** languages/csharpAnalyzer.ts                                        *)
(* ===================================================================== *)

Module CSharp.
Import TreeSitter.

(** The fields [nesting], [complexity] and [details] of a
    [CSharpMetricsAnalyzer]. *)
Record State : Type := mkState {
  nesting : Z;
  complexity : Z;
  details : list Metrics.Detail
}.

Definition isFunctionDeclaration (node : SyntaxNode) : bool :=
  hasType node "method_declaration" ||
  hasType node "constructor_declaration" ||
  hasType node "destructor_declaration" ||
  hasType node "operator_declaration" ||
  hasType node "conversion_operator_declaration" ||
  hasType node "accessor_declaration" ||
  hasType node "local_function_statement".

Definition getFunctionName (sourceText : string) (ctx : Path) (node : SyntaxNode)
  : string :=
  if hasType node "constructor_declaration" then
    (* the nearest enclosing class_declaration, if any *)
    match find (fun a => hasType (fst a) "class_declaration") ctx with
    | Some (cls, _) =>
        match findChild (fun child => hasType child "identifier") cls with
        | Some (_, classNameNode) => text sourceText classNameNode ++ " (constructor)"
        | None => "<constructor>"
        end
    | None => "<constructor>"
    end
  else if hasType node "destructor_declaration" then "~<destructor>"
  else
    match findChild (fun child => hasType child "identifier") node with
    | Some (_, nameNode) => text sourceText nameNode
    | None => "<anonymous>"
    end.

(** The body is returned unchanged. *)
Definition createSyntheticBodyFromPreprocessor (preprocessorNode : Path * SyntaxNode)
  : Path * SyntaxNode := preprocessorNode.

(** The loop of [getFunctionBody] over the siblings after the method;
    [i] is the index of the head of [siblings] among the children of
    [parentNode], whose own path is [up]. *)
Fixpoint searchSiblings (up : Path) (parentNode : SyntaxNode) (i : nat)
         (siblings : list SyntaxNode) : option (Path * SyntaxNode) :=
  match siblings with
  | [] => None
  | sibling :: rest =>
      if hasType sibling "preproc_if" then
        Some (createSyntheticBodyFromPreprocessor ((parentNode, i) :: up, sibling))
      else if isFunctionDeclaration sibling ||
              hasType sibling "class_declaration" ||
              hasType sibling "interface_declaration" then None
      else searchSiblings up parentNode (S i) rest
  end.

(** The body of a declaration and the path under which it is reached, or
    [None] for the [null] of a declaration without a body. *)
Definition getFunctionBody (ctx : Path) (node : SyntaxNode)
  : option (Path * SyntaxNode) :=
  match findChild (fun child => hasType child "block" ||
                                hasType child "arrow_expression_clause") node with
  | Some (i, directBody) => Some ((node, i) :: ctx, directBody)
  | None =>
      match nth_error (children node) (List.length (children node) - 1) with
      | Some lastChild =>
          if hasType lastChild ";" then
            match ctx with
            | (parentNode, methodIndex) :: up =>
                searchSiblings up parentNode (S methodIndex)
                               (skipn (S methodIndex) (children parentNode))
            | [] => None
            end
          else None
      | None => None
      end
  end.

(** The regular expressions of the recovery heuristics. *)
Fixpoint seq (rs : list Js.regex) : Js.regex :=
  match rs with
  | [] => Js.Eps
  | r :: rs' => Js.Cat r (seq rs')
  end.

Definition chr (c : ascii) : Js.regex := Js.Cls (Js.is_char c).
Definition spaces : Js.regex := Js.Star (Js.Cls Js.is_space).

(** [/\bif\s*\(/], [/\bwhile\s*\(/], [/\bfor\s*\(/], [/\bforeach\s*\(/],
    [/\btry\s*\{/] and [/\bcatch\s*\(/], each behind its [\b]. *)
Definition keyword (kw : string) (opening : ascii) : Js.regex :=
  seq [Js.Lit kw; spaces; chr opening].
Definition re_if := keyword "if" "(".
Definition re_while := keyword "while" "(".
Definition re_for := keyword "for" "(".
Definition re_foreach := keyword "foreach" "(".
Definition re_try := keyword "try" "{".
Definition re_catch := keyword "catch" "(".

(** [/&&|\|\|/]. *)
Definition re_logical : Js.regex := Js.Alt (Js.Lit "&&") (Js.Lit "||").
(** [/\?[^?]*:/]. *)
Definition re_ternary : Js.regex :=
  seq [chr "?"; Js.Star (Js.Cls (Js.is_not ["?"%char])); chr ":"].
(** [/\?/]. *)
Definition re_question : Js.regex := chr "?".
(** [/\w+\s*\?\s*[^?]+\s*:\s*[^:;]+/]. *)
Definition re_declared_ternary : Js.regex :=
  seq [Js.Plus (Js.Cls Js.is_word); spaces; chr "?"; spaces;
       Js.Plus (Js.Cls (Js.is_not ["?"%char])); spaces; chr ":"; spaces;
       Js.Plus (Js.Cls (Js.is_not [":"%char; ";"%char]))].

Definition hasMatchingColonInSiblings (sourceText : string) (ctx : Path) : bool :=
  match ctx with
  | [] => false
  | (parentNode, errorIndex) :: _ =>
      (* i = errorIndex + 1, errorIndex + 2, while below children.length *)
      existsb (fun sibling =>
                 let siblingText := text sourceText sibling in
                 Js.includes siblingText ":" && negb (Js.includes siblingText "::"))
              (firstn 2 (skipn (S errorIndex) (children parentNode)))
  end.

Definition isInPreprocessorBlock (ctx : Path) : bool :=
  existsb (fun a => Js.startsWith (type (fst a)) "preproc_") ctx.

Definition count (b : bool) : Z := if b then 1 else 0.

Definition getComplexityFromErrorNode (sourceText : string) (ctx : Path)
           (errorNode : SyntaxNode) : Z :=
  let text := text sourceText errorNode in
  let complexity := 0 in
  let complexity := complexity + count (Js.test_wb re_if text) in
  let complexity := complexity + count (Js.test_wb re_while text) in
  let complexity := complexity + count (Js.test_wb re_for text) in
  let complexity := complexity + count (Js.test_wb re_foreach text) in
  let complexity := complexity + Z.of_nat (List.length (Js.match_logical_ops text)) in
  let complexity :=
    complexity +
    count (Js.test re_ternary text ||
           (Js.test re_question text && hasMatchingColonInSiblings sourceText ctx)) in
  let complexity := complexity + count (Js.test_wb re_try text) in
  let complexity := complexity + count (Js.test_wb re_catch text) in
  complexity.

Definition getComplexityFromMalformedDeclaration (sourceText : string) (ctx : Path)
           (declarationNode : SyntaxNode) : Z :=
  if negb (isInPreprocessorBlock ctx) then 0
  else
    let text := text sourceText declarationNode in
    let complexity := 0 in
    let complexity := complexity + count (Js.test re_declared_ternary text) in
    let complexity := complexity + Z.of_nat (List.length (Js.match_logical_ops text)) in
    complexity.

Definition getComplexityReasonFromErrorNode (sourceText : string) (ctx : Path)
           (errorNode : SyntaxNode) : string :=
  let text := text sourceText errorNode in
  if Js.test_wb re_if text then "if statement (in preprocessor block)"
  else if Js.test_wb re_while text then "while loop (in preprocessor block)"
  else if Js.test_wb re_for text then "for loop (in preprocessor block)"
  else if Js.test_wb re_foreach text then "foreach loop (in preprocessor block)"
  else if Js.test re_logical text then "logical operator (in preprocessor block)"
  else if Js.test re_ternary text ||
          (Js.test re_question text && hasMatchingColonInSiblings sourceText ctx)
       then "ternary operator (in preprocessor block)"
  else if Js.test_wb re_try text then "try statement (in preprocessor block)"
  else if Js.test_wb re_catch text then "catch clause (in preprocessor block)"
  else "complexity pattern (in preprocessor block)".

Definition getComplexityReasonFromMalformedDeclaration (sourceText : string)
           (ctx : Path) (declarationNode : SyntaxNode) : string :=
  if negb (isInPreprocessorBlock ctx) then "complexity in declaration"
  else
    let text := text sourceText declarationNode in
    if Js.test re_declared_ternary text then "ternary operator (in preprocessor block)"
    else if Js.test re_logical text then "logical operator (in preprocessor block)"
    else "complexity pattern in declaration (preprocessor block)".

(** The operator text, or [None] for [null]. *)
Definition getBinaryOperator (sourceText : string) (node : SyntaxNode)
  : option string :=
  match findChild (fun child => hasType child "&&" ||
                                hasType child "||" ||
                                hasType child "binary_operator") node with
  | Some (_, operatorNode) => Some (text sourceText operatorNode)
  | None => None
  end.

Definition isLogical (operator : option string) : bool :=
  match operator with
  | Some op => String.eqb op "&&" || String.eqb op "||"
  | None => false
  end.

(** [this.nesting] is read by the lambda and jump cases. *)
Definition getComplexityIncrement (sourceText : string) (ctx : Path)
           (nesting : Z) (node : SyntaxNode) : Z :=
  if isOneOf node ["if_statement"; "while_statement"; "for_statement";
                   "foreach_statement"; "switch_statement"; "switch_expression"]
  then 1
  else if isOneOf node ["try_statement"; "catch_clause"] then 1
  else if hasType node "binary_expression" then
    let operator := getBinaryOperator sourceText node in
    if isLogical operator then 1 else 0
  else if hasType node "conditional_expression" then 1
  else if isOneOf node ["lambda_expression"; "anonymous_method_expression"] then
    if 0 <? nesting then 1 else 0
  else if isOneOf node ["continue_statement"; "break_statement"] then
    if 0 <? nesting then 1 else 0
  else if hasType node "goto_statement" then 1
  else if hasType node "ERROR" then getComplexityFromErrorNode sourceText ctx node
  else if isOneOf node ["field_declaration"; "variable_declaration"] then
    getComplexityFromMalformedDeclaration sourceText ctx node
  else 0.

Definition getComplexityReason (sourceText : string) (ctx : Path)
           (node : SyntaxNode) : string :=
  if hasType node "if_statement" then "if statement"
  else if hasType node "while_statement" then "while loop"
  else if hasType node "for_statement" then "for loop"
  else if hasType node "foreach_statement" then "foreach loop"
  else if hasType node "switch_statement" then "switch statement"
  else if hasType node "switch_expression" then "switch expression"
  else if hasType node "try_statement" then "try statement"
  else if hasType node "catch_clause" then "catch clause"
  else if hasType node "binary_expression" then
    (* the template literal prints a null operator as "null" *)
    let operator := match getBinaryOperator sourceText node with
                    | Some op => op
                    | None => "null"
                    end in
    "binary " ++ operator ++ " operator"
  else if hasType node "conditional_expression" then "ternary operator"
  else if hasType node "lambda_expression" then "lambda expression (nested)"
  else if hasType node "anonymous_method_expression" then "anonymous method (nested)"
  else if hasType node "continue_statement" then "continue statement (nested)"
  else if hasType node "break_statement" then "break statement (nested)"
  else if hasType node "goto_statement" then "goto statement"
  else if hasType node "ERROR" then getComplexityReasonFromErrorNode sourceText ctx node
  else if isOneOf node ["field_declaration"; "variable_declaration"] then
    getComplexityReasonFromMalformedDeclaration sourceText ctx node
  else "unknown complexity source".

Definition increasesNesting (node : SyntaxNode) : bool :=
  hasType node "if_statement" ||
  hasType node "while_statement" ||
  hasType node "for_statement" ||
  hasType node "foreach_statement" ||
  hasType node "switch_statement" ||
  hasType node "try_statement" ||
  hasType node "catch_clause" ||
  hasType node "lambda_expression" ||
  hasType node "anonymous_method_expression".

(** The first statement of [visit]: when the base increment is positive,
    the nesting level is added to it, the sum goes to [complexity] and a
    detail is pushed. *)
Definition record (sourceText : string) (ctx : Path) (node : SyntaxNode)
           (st : State) : State :=
  let baseIncrement := getComplexityIncrement sourceText ctx (nesting st) node in
  if 0 <? baseIncrement then
    let increment := baseIncrement + nesting st in
    let reason := getComplexityReason sourceText ctx node in
    {| nesting := nesting st;
       complexity := complexity st + increment;
       details := (details st ++
                   [ {| Metrics.increment := increment;
                        Metrics.reason := reason;
                        Metrics.line := Z.of_nat (row (startPosition node));
                        Metrics.column := Z.of_nat (column (startPosition node));
                        Metrics.nesting := nesting st |} ])%list |}
  else st.

Definition setNesting (k : Z) (st : State) : State :=
  {| nesting := k; complexity := complexity st; details := details st |}.

Fixpoint visit (sourceText : string) (ctx : Path) (node : SyntaxNode) (st : State)
         {struct node} : State :=
  match node with
  | Node _ _ _ _ _ cs =>
      let st := record sourceText ctx node st in
      (* both branches run the same loop over the children *)
      let loop :=
        forEachFrom
          (fun i child s =>
             if negb (isFunctionDeclaration child)
             then visit sourceText ((node, i) :: ctx) child s
             else s) 0%nat cs in
      if increasesNesting node then
        let st := setNesting (nesting st + 1) st in
        let st := loop st in
        setNesting (nesting st - 1) st
      else loop st
  end.

Definition analyzeFunction (sourceText : string) (ctx : Path) (node : SyntaxNode)
           (st : State) : option Metrics.FunctionMetrics * State :=
  let st := {| nesting := 0; complexity := 0; details := [] |} in
  let functionName := getFunctionName sourceText ctx node in
  match getFunctionBody ctx node with
  | None => (None, st)
  | Some (bodyCtx, body) =>
      let st := visit sourceText bodyCtx body st in
      (Some {| Metrics.name := functionName;
               Metrics.complexity := complexity st;
               Metrics.details := details st;
               Metrics.startLine := Z.of_nat (row (startPosition node));
               Metrics.endLine := Z.of_nat (row (endPosition node));
               Metrics.startColumn := Z.of_nat (column (startPosition node));
               Metrics.endColumn := Z.of_nat (column (endPosition node)) |},
       st)
  end.

(** The arrow function [visit] local to [analyzeFunctions]; the pair
    threads the analyzer fields and the [functions] array. *)
Fixpoint analyzeFunctions_visit (sourceText : string) (ctx : Path)
         (node : SyntaxNode) (acc : State * list Metrics.FunctionMetrics)
         {struct node} : State * list Metrics.FunctionMetrics :=
  match node with
  | Node _ _ _ _ _ cs =>
      let acc :=
        if isFunctionDeclaration node then
          match analyzeFunction sourceText ctx node (fst acc) with
          | (Some result, st) => (st, (snd acc ++ [result])%list)
          | (None, st) => (st, snd acc)
          end
        else acc in
      forEachFrom
        (fun i child a => analyzeFunctions_visit sourceText ((node, i) :: ctx) child a)
        0%nat cs acc
  end.

Section Parser.
  (** [this.parser.parse(sourceText).rootNode] for the C# grammar. *)
Variable parse : string -> SyntaxNode.

Definition analyzeFunctions (sourceText : string) (st : State)
  : list Metrics.FunctionMetrics :=
  let tree := parse sourceText in
  snd (analyzeFunctions_visit sourceText [] tree (st, [])).

(** [new CSharpMetricsAnalyzer()] and its field initialisers. *)
Definition newAnalyzer : State :=
  {| nesting := 0; complexity := 0; details := [] |}.

Definition analyzeFile (sourceText : string) : list Metrics.FunctionMetrics :=
  analyzeFunctions sourceText newAnalyzer.
End Parser.

(** *** The walk, stated without the mutable counter

    These definitions follow the words of the specification, to be compared
    with [visit]: the nesting level of a construct is the level at which
    the walk starts plus the number of nesting-increasing constructs that
    enclose it, and a nested function declaration is never entered. *)

(** A state after more details have been pushed at the same nesting. *)
Definition extend (st : State) (news : list Metrics.Detail) : State :=
  {| nesting := nesting st;
     complexity := complexity st + Metrics.total news;
     details := (details st ++ news)%list |}.

(** A node that contributes nothing, wherever and whenever it is visited. *)
Definition inert (sourceText : string) (node : SyntaxNode) : Prop :=
  forall ctx st, visit sourceText ctx node st = st.

(** One visit: the path of the node, the node and the nesting level. *)
Definition Visit : Type := (Path * SyntaxNode * Z)%type.

(** The visits made at and below [node], in order, when [node] is visited
    at nesting level [k]. *)
Fixpoint spec_visits (ctx : Path) (node : SyntaxNode) (k : Z) {struct node}
  : list Visit :=
  match node with
  | Node _ _ _ _ _ cs =>
      (ctx, node, k) ::
      forEachFrom
        (fun i child acc =>
           (acc ++ if negb (isFunctionDeclaration child)
                   then spec_visits ((node, i) :: ctx) child
                                    (if increasesNesting node then k + 1 else k)
                   else [])%list) 0%nat cs []
  end.

(** The detail a visit records, if any: base weight plus nesting level. *)
Definition spec_detail (sourceText : string) (v : Visit) : list Metrics.Detail :=
  let '(ctx, node, k) := v in
  let baseWeight := getComplexityIncrement sourceText ctx k node in
  if 0 <? baseWeight then
    [ {| Metrics.increment := baseWeight + k;
         Metrics.reason := getComplexityReason sourceText ctx node;
         Metrics.line := Z.of_nat (row (startPosition node));
         Metrics.column := Z.of_nat (column (startPosition node));
         Metrics.nesting := k |} ]
  else [].

(** The kinds of the rule table, as opposed to the nodes scored by the
    text heuristics of the recovery (ERROR nodes and declarations inside a
    preprocessor block). *)
Definition isHeuristicKind (node : SyntaxNode) : bool :=
  isOneOf node ["ERROR"; "field_declaration"; "variable_declaration"].

(** A node without its children. *)
Definition emptied (node : SyntaxNode) : SyntaxNode :=
  match node with Node t i j p q _ => Node t i j p q [] end.

(** A subtree in which every nested function declaration is emptied. *)
Fixpoint prune (node : SyntaxNode) : SyntaxNode :=
  match node with
  | Node t i j p q cs =>
      Node t i j p q
           (map (fun child => if isFunctionDeclaration child
                              then emptied child else prune child) cs)
  end.

(** What the top-level traversal reports for one node of the tree. *)
Definition report (sourceText : string) (loc : Path * SyntaxNode)
  : list Metrics.FunctionMetrics :=
  if isFunctionDeclaration (snd loc) then
    match fst (analyzeFunction sourceText (fst loc) (snd loc) newAnalyzer) with
    | Some result => [result]
    | None => []
    end
  else [].

(** The nesting level of a visit. *)
Definition level (v : Visit) : Z := snd v.

(** [visit] pushes what the specification's walk records, in its order,
    and leaves the nesting counter as it found it. *)
Definition refines (src : string) (node : SyntaxNode) : Prop :=
  forall ctx st,
    visit src ctx node st =
    extend st (flat_map (spec_detail src) (spec_visits ctx node (nesting st))).

(** What [prune] makes of a child. *)
Definition pruneChild (child : SyntaxNode) : SyntaxNode :=
  if isFunctionDeclaration child then emptied child else prune child.

(** The traversal appends the reports of the nodes in pre-order. *)
Definition collects (src : string) (node : SyntaxNode) : Prop :=
  forall ctx acc,
    snd (analyzeFunctions_visit src ctx node acc) =
    (snd acc ++ flat_map (report src) (preorder ctx node))%list.

(** *** The walk, in terms of the tree *)

(** The number of nesting-increasing nodes among the frames of a path. *)
Definition enclosing (frames : Path) : nat :=
  List.length (filter (fun f => increasesNesting (fst f)) frames).

(** [frames], nearest ancestor first, lead from [root] down to [node], and
    no node entered on the way, nor [node] itself unless it is [root], is a
    function declaration. *)
Fixpoint walkable (root : SyntaxNode) (frames : Path) (node : SyntaxNode) : Prop :=
  match frames with
  | [] => node = root
  | (p, i) :: rest =>
      nth_error (children p) i = Some node /\
      isFunctionDeclaration node = false /\
      walkable root rest p
  end.

(** The reasons that a recorded detail can carry. *)
Definition recordedReasons : list string :=
  [ "if statement"; "while loop"; "for loop"; "foreach loop";
    "switch statement"; "switch expression"; "try statement"; "catch clause";
    "binary && operator"; "binary || operator"; "ternary operator";
    "lambda expression (nested)"; "anonymous method (nested)";
    "continue statement (nested)"; "break statement (nested)"; "goto statement";
    "if statement (in preprocessor block)"; "while loop (in preprocessor block)";
    "for loop (in preprocessor block)"; "foreach loop (in preprocessor block)";
    "logical operator (in preprocessor block)";
    "ternary operator (in preprocessor block)";
    "try statement (in preprocessor block)";
    "catch clause (in preprocessor block)" ].

(** The reasons that say that the construct is nested. *)
Definition nestedReasons : list string :=
  [ "lambda expression (nested)"; "anonymous method (nested)";
    "continue statement (nested)"; "break statement (nested)" ].

(** A declaration that the traversal reports: a function declaration for
    which a body is found. *)
Definition reported (loc : Path * SyntaxNode) : bool :=
  isFunctionDeclaration (snd loc) &&
  match getFunctionBody (fst loc) (snd loc) with Some _ => true | None => false end.

(** The kinds at which the search for a substitute body stops. *)
Definition isBoundary (sibling : SyntaxNode) : bool :=
  isFunctionDeclaration sibling ||
  hasType sibling "class_declaration" ||
  hasType sibling "interface_declaration".

(** The kinds of a body that is a child of its declaration. *)
Definition isDirectBody (child : SyntaxNode) : bool :=
  hasType child "block" || hasType child "arrow_expression_clause".

(** A visit one level deeper. *)
Definition deeper (v : Visit) : Visit := (fst v, snd v + 1).

End CSharp.

(* ===================================================================== *)
(** ** languages/goAnalyzer.ts                                            *)
(* ===================================================================== *)

Module Go.
Import TreeSitter.

(** The fields [nesting], [complexity] and [details] of a
    [GoMetricsAnalyzer]. *)
Record State : Type := mkState {
  nesting : Z;
  complexity : Z;
  details : list Metrics.Detail
}.

Definition isFunctionDeclaration (node : SyntaxNode) : bool :=
  hasType node "function_declaration" ||
  hasType node "method_declaration".

(** The loop of [findTypeInParameterList] over the children. *)
Fixpoint findTypeIn (cs : list SyntaxNode) : option SyntaxNode :=
  match cs with
  | [] => None
  | child :: rest =>
      if hasType child "parameter_declaration" then
        match findChild (fun c => hasType c "type_identifier" ||
                                  hasType c "pointer_type" ||
                                  hasType c "qualified_type") child with
        | Some (_, typeNode) => Some typeNode
        | None => findTypeIn rest
        end
      else findTypeIn rest
  end.

Definition findTypeInParameterList (parameterList : SyntaxNode) : option SyntaxNode :=
  findTypeIn (children parameterList).

(** The tail of [getFunctionName], for regular function declarations. *)
Definition getPlainName (sourceText : string) (node : SyntaxNode) : string :=
  match findChild (fun child => hasType child "identifier") node with
  | Some (_, nameNode) => text sourceText nameNode
  | None => "<anonymous>"
  end.

Definition getFunctionName (sourceText : string) (node : SyntaxNode) : string :=
  if hasType node "method_declaration" then
    let receiver := findChild (fun child => hasType child "parameter_list") node in
    let nameNode := findChild (fun child => hasType child "field_identifier") node in
    let receiverType :=
      match receiver with
      | Some (_, r) =>
          match findTypeInParameterList r with
          | Some typeNode => text sourceText typeNode
          | None => EmptyString
          end
      | None => EmptyString
      end in
    match nameNode with
    | Some (_, nm) =>
        let methodName := text sourceText nm in
        (* a non-empty string is truthy *)
        if negb (String.eqb receiverType EmptyString)
        then receiverType ++ "." ++ methodName
        else methodName
    | None => getPlainName sourceText node
    end
  else getPlainName sourceText node.

Definition getFunctionBody (node : SyntaxNode) : option SyntaxNode :=
  match findChild (fun child => hasType child "block") node with
  | Some (_, body) => Some body
  | None => None
  end.

Definition isRecoverCall (sourceText : string) (node : SyntaxNode) : bool :=
  match findChild (fun child => hasType child "identifier") node with
  | Some (_, funcNode) => String.eqb (text sourceText funcNode) "recover"
  | None => false
  end.

(** The loop of [getBinaryOperator] over the children. *)
Fixpoint findOperator (sourceText : string) (cs : list SyntaxNode) : option string :=
  match cs with
  | [] => None
  | child :: rest =>
      let text := text sourceText child in
      if String.eqb text "&&" || String.eqb text "||" then Some text
      else findOperator sourceText rest
  end.

Definition getBinaryOperator (sourceText : string) (node : SyntaxNode)
  : option string :=
  findOperator sourceText (children node).

Definition isLogical (operator : option string) : bool :=
  match operator with
  | Some op => String.eqb op "&&" || String.eqb op "||"
  | None => false
  end.

(** [node.children.some(child => child.type === "label_name")]. *)
Definition hasLabel (node : SyntaxNode) : bool :=
  existsb (fun child => hasType child "label_name") (children node).

Definition getComplexityIncrement (sourceText : string) (nesting : Z)
           (node : SyntaxNode) : Z :=
  if isOneOf node ["if_statement"; "for_statement"; "expression_switch_statement";
                   "type_switch_statement"; "select_statement"] then 1
  else if hasType node "binary_expression" then
    let operator := getBinaryOperator sourceText node in
    if isLogical operator then 1 else 0
  else if hasType node "func_literal" then
    if 0 <? nesting then 1 else 0
  else if isOneOf node ["break_statement"; "continue_statement"] then
    if hasLabel node then 1
    else if 0 <? nesting then 1 else 0
  else if hasType node "goto_statement" then 1
  else if hasType node "call_expression" then
    if isRecoverCall sourceText node then 1 else 0
  else 0.

Definition getComplexityReason (sourceText : string) (node : SyntaxNode) : string :=
  if hasType node "if_statement" then "if statement"
  else if hasType node "for_statement" then "for loop"
  else if hasType node "expression_switch_statement" then "switch statement"
  else if hasType node "type_switch_statement" then "type switch statement"
  else if hasType node "select_statement" then "select statement"
  else if hasType node "binary_expression" then
    let operator := match getBinaryOperator sourceText node with
                    | Some op => op
                    | None => "null"
                    end in
    "binary " ++ operator ++ " operator"
  else if hasType node "func_literal" then "function literal (nested)"
  else if hasType node "break_statement" then
    if hasLabel node then "labeled break statement" else "break statement (nested)"
  else if hasType node "continue_statement" then
    if hasLabel node then "labeled continue statement" else "continue statement (nested)"
  else if hasType node "goto_statement" then "goto statement"
  else if hasType node "call_expression" then
    if isRecoverCall sourceText node then "recover call" else "call expression"
  else "unknown complexity source".

Definition increasesNesting (node : SyntaxNode) : bool :=
  hasType node "if_statement" ||
  hasType node "for_statement" ||
  hasType node "expression_switch_statement" ||
  hasType node "type_switch_statement" ||
  hasType node "select_statement" ||
  hasType node "func_literal".

(** The first statement of [visit]: a positive increment goes to
    [complexity] as it is and a detail is pushed. *)
Definition record (sourceText : string) (node : SyntaxNode) (st : State) : State :=
  let increment := getComplexityIncrement sourceText (nesting st) node in
  if 0 <? increment then
    let reason := getComplexityReason sourceText node in
    {| nesting := nesting st;
       complexity := complexity st + increment;
       details := (details st ++
                   [ {| Metrics.increment := increment;
                        Metrics.reason := reason;
                        Metrics.line := Z.of_nat (row (startPosition node));
                        Metrics.column := Z.of_nat (column (startPosition node));
                        Metrics.nesting := nesting st |} ])%list |}
  else st.

Definition setNesting (k : Z) (st : State) : State :=
  {| nesting := k; complexity := complexity st; details := details st |}.

Fixpoint visit (sourceText : string) (node : SyntaxNode) (st : State)
         {struct node} : State :=
  match node with
  | Node _ _ _ _ _ cs =>
      let st := record sourceText node st in
      let loop :=
        forEachFrom
          (fun (_ : nat) child s =>
             if negb (isFunctionDeclaration child)
             then visit sourceText child s
             else s) 0%nat cs in
      if increasesNesting node then
        let st := setNesting (nesting st + 1) st in
        let st := loop st in
        setNesting (nesting st - 1) st
      else loop st
  end.

Definition analyzeFunction (sourceText : string) (node : SyntaxNode) (st : State)
  : option Metrics.FunctionMetrics * State :=
  let st := {| nesting := 0; complexity := 0; details := [] |} in
  let functionName := getFunctionName sourceText node in
  match getFunctionBody node with
  | None => (None, st)
  | Some body =>
      let st := visit sourceText body st in
      (Some {| Metrics.name := functionName;
               Metrics.complexity := complexity st;
               Metrics.details := details st;
               Metrics.startLine := Z.of_nat (row (startPosition node));
               Metrics.endLine := Z.of_nat (row (endPosition node));
               Metrics.startColumn := Z.of_nat (column (startPosition node));
               Metrics.endColumn := Z.of_nat (column (endPosition node)) |},
       st)
  end.

(** The arrow function [visit] local to [analyzeFunctions]. *)
Fixpoint analyzeFunctions_visit (sourceText : string) (node : SyntaxNode)
         (acc : State * list Metrics.FunctionMetrics)
         {struct node} : State * list Metrics.FunctionMetrics :=
  match node with
  | Node _ _ _ _ _ cs =>
      let acc :=
        if isFunctionDeclaration node then
          match analyzeFunction sourceText node (fst acc) with
          | (Some result, st) => (st, (snd acc ++ [result])%list)
          | (None, st) => (st, snd acc)
          end
        else acc in
      forEachFrom
        (fun (_ : nat) child a => analyzeFunctions_visit sourceText child a)
        0%nat cs acc
  end.

Section Parser.
  (** [this.parser.parse(sourceText).rootNode] for the Go grammar. *)
Variable parse : string -> SyntaxNode.

Definition analyzeFunctions (sourceText : string) (st : State)
  : list Metrics.FunctionMetrics :=
  let tree := parse sourceText in
  snd (analyzeFunctions_visit sourceText tree (st, [])).

Definition newAnalyzer : State :=
  {| nesting := 0; complexity := 0; details := [] |}.

Definition analyzeFile (sourceText : string) : list Metrics.FunctionMetrics :=
  analyzeFunctions sourceText newAnalyzer.
End Parser.

(** *** The walk, stated without the mutable counter *)

(** A state after more details have been pushed at the same nesting. *)
Definition extend (st : State) (news : list Metrics.Detail) : State :=
  {| nesting := nesting st;
     complexity := complexity st + Metrics.total news;
     details := (details st ++ news)%list |}.

(** One visit: the node and the nesting level. *)
Definition Visit : Type := (SyntaxNode * Z)%type.

Fixpoint spec_visits (node : SyntaxNode) (k : Z) {struct node} : list Visit :=
  match node with
  | Node _ _ _ _ _ cs =>
      (node, k) ::
      forEachFrom
        (fun (_ : nat) child acc =>
           (acc ++ if negb (isFunctionDeclaration child)
                   then spec_visits child (if increasesNesting node then k + 1 else k)
                   else [])%list) 0%nat cs []
  end.

(** The detail a visit records, if any: the base weight alone. *)
Definition spec_detail (sourceText : string) (v : Visit) : list Metrics.Detail :=
  let '(node, k) := v in
  let baseWeight := getComplexityIncrement sourceText k node in
  if 0 <? baseWeight then
    [ {| Metrics.increment := baseWeight;
         Metrics.reason := getComplexityReason sourceText node;
         Metrics.line := Z.of_nat (row (startPosition node));
         Metrics.column := Z.of_nat (column (startPosition node));
         Metrics.nesting := k |} ]
  else [].

Definition emptied (node : SyntaxNode) : SyntaxNode :=
  match node with Node t i j p q _ => Node t i j p q [] end.

Fixpoint prune (node : SyntaxNode) : SyntaxNode :=
  match node with
  | Node t i j p q cs =>
      Node t i j p q
           (map (fun child => if isFunctionDeclaration child
                              then emptied child else prune child) cs)
  end.

(** What the top-level traversal reports for one node of the tree. *)
Definition report (sourceText : string) (node : SyntaxNode)
  : list Metrics.FunctionMetrics :=
  if isFunctionDeclaration node then
    match fst (analyzeFunction sourceText node newAnalyzer) with
    | Some result => [result]
    | None => []
    end
  else [].

(** The nesting level of a visit. *)
Definition level (v : Visit) : Z := snd v.

(** [visit] pushes what the specification's walk records, in its order,
    and leaves the nesting counter as it found it. *)
Definition refines (src : string) (node : SyntaxNode) : Prop :=
  forall st,
    visit src node st =
    extend st (flat_map (spec_detail src) (spec_visits node (nesting st))).

(** What [prune] makes of a child. *)
Definition pruneChild (child : SyntaxNode) : SyntaxNode :=
  if isFunctionDeclaration child then emptied child else prune child.

(** The nodes of the tree in pre-order, without their paths. *)
Definition nodes (ctx : Path) (node : SyntaxNode) : list SyntaxNode :=
  map snd (preorder ctx node).

(** The traversal appends the reports of the nodes in pre-order. *)
Definition collects (src : string) (node : SyntaxNode) : Prop :=
  forall ctx acc,
    snd (analyzeFunctions_visit src node acc) =
    (snd acc ++ flat_map (report src) (nodes ctx node))%list.

(** The reasons that a recorded detail can carry. *)
Definition recordedReasons : list string :=
  [ "if statement"; "for loop"; "switch statement"; "type switch statement";
    "select statement"; "binary && operator"; "binary || operator";
    "function literal (nested)";
    "labeled break statement"; "break statement (nested)";
    "labeled continue statement"; "continue statement (nested)";
    "goto statement"; "recover call" ].

(** The reasons that say that the construct is nested. *)
Definition nestedReasons : list string :=
  [ "function literal (nested)"; "break statement (nested)";
    "continue statement (nested)" ].

(** A declaration that the traversal reports. *)
Definition reported (node : SyntaxNode) : bool :=
  isFunctionDeclaration node &&
  match getFunctionBody node with Some _ => true | None => false end.

(** The number of nesting-increasing nodes among the frames of a path. *)
Definition enclosing (frames : Path) : nat :=
  List.length (filter (fun f => increasesNesting (fst f)) frames).

(** [frames], nearest ancestor first, lead from [root] down to [node], and
    no node entered on the way, nor [node] itself unless it is [root], is a
    function declaration. *)
Fixpoint walkable (root : SyntaxNode) (frames : Path) (node : SyntaxNode) : Prop :=
  match frames with
  | [] => node = root
  | (p, i) :: rest =>
      nth_error (children p) i = Some node /\
      isFunctionDeclaration node = false /\
      walkable root rest p
  end.

(** A visit one level deeper. *)
Definition deeper (v : Visit) : Visit := (fst v, snd v + 1).

End Go.

(* ===================================================================== *)
(** ** metricsAnalyzerFactory.ts                                          *)
(* ===================================================================== *)

Module Factory.
Import TreeSitter.

(** What a call of [analyzeFile] can come to. The declared result is an
    array of metrics; the other cases arise from properties that the
    object literal [languageAnalyzers] inherits from [Object.prototype].
    An exception raised by a parser, or by the recursion of a walk on a
    tree that is too deep, has no case here: the parsers are total
    functions of the embedding, and what is stated of [csharp] and [go] is
    stated of the calls in which the parser returns a tree and the walk
    returns. *)
Inductive JsValue : Type :=
| VString : string -> JsValue          (* a primitive string *)
| VBoolean : bool -> JsValue           (* a primitive boolean *)
| VStringObject : string -> JsValue.   (* a String wrapper object *)

Inductive Outcome : Type :=
| Returns : list Metrics.FunctionMetrics -> Outcome
| ReturnsValue : JsValue -> Outcome
| ThrowsTypeError : Outcome.

(** The properties of [Object.prototype]. *)
Inductive Inherited : Type :=
| constructor | hasOwnProperty | isPrototypeOf | propertyIsEnumerable
| toLocaleString | toString | valueOf
| defineGetter | defineSetter | lookupGetter | lookupSetter
| proto.

Definition objectPrototype : list (string * Inherited) :=
  [ ("constructor", constructor);
    ("__defineGetter__", defineGetter);
    ("__defineSetter__", defineSetter);
    ("hasOwnProperty", hasOwnProperty);
    ("__lookupGetter__", lookupGetter);
    ("__lookupSetter__", lookupSetter);
    ("isPrototypeOf", isPrototypeOf);
    ("propertyIsEnumerable", propertyIsEnumerable);
    ("toString", toString);
    ("valueOf", valueOf);
    ("__proto__", proto);
    ("toLocaleString", toLocaleString) ].

(** [analyzer(sourceText)] for an inherited property: a plain call, so the
    built-in function runs with [this] undefined and one string argument.
    [Object(s)] wraps the string, [toString] prints the class of
    [undefined], [isPrototypeOf] answers [false] for a primitive argument;
    the others fail on [ToObject(undefined)]; the value of [__proto__] is
    the prototype object itself, which is not callable. *)
Definition callInherited (p : Inherited) (sourceText : string) : Outcome :=
  match p with
  | constructor => ReturnsValue (VStringObject sourceText)
  | toString => ReturnsValue (VString "[object Undefined]")
  | isPrototypeOf => ReturnsValue (VBoolean false)
  | hasOwnProperty | propertyIsEnumerable | toLocaleString | valueOf
  | defineGetter | defineSetter | lookupGetter | lookupSetter
  | proto => ThrowsTypeError
  end.

(** The value of a property read [obj[key]]. *)
Inductive Property : Type :=
| Own : (string -> list Metrics.FunctionMetrics) -> Property
| FromPrototype : Inherited -> Property.

(** A [languageId] as the callers may pass it ([null as any] included),
    and its conversion to a property key. *)
Inductive LanguageId : Type :=
| Str : string -> LanguageId
| Null : LanguageId
| Undefined : LanguageId.

Definition toPropertyKey (languageId : LanguageId) : string :=
  match languageId with
  | Str s => s
  | Null => "null"
  | Undefined => "undefined"
  end.

Fixpoint assoc {A : Type} (key : string) (l : list (string * A)) : option A :=
  match l with
  | [] => None
  | (k, v) :: l' => if String.eqb k key then Some v else assoc key l'
  end.

Section Parsers.
Variables parseCSharp parseGo : string -> SyntaxNode.

Definition createCSharpAnalyzer : string -> list Metrics.FunctionMetrics :=
  fun sourceText =>
    let functions := CSharp.analyzeFile parseCSharp sourceText in
    map (fun func =>
           {| Metrics.name := Metrics.name func;
              Metrics.complexity := Metrics.complexity func;
              Metrics.details :=
                map (fun detail =>
                       {| Metrics.increment := Metrics.increment detail;
                          Metrics.reason := Metrics.reason detail;
                          Metrics.line := Metrics.line detail + 1;
                          Metrics.column := Metrics.column detail + 1;
                          Metrics.nesting := Metrics.nesting detail |})
                    (Metrics.details func);
              Metrics.startLine := Metrics.startLine func;
              Metrics.endLine := Metrics.endLine func;
              Metrics.startColumn := Metrics.startColumn func;
              Metrics.endColumn := Metrics.endColumn func |})
        functions.

Definition createGoAnalyzer : string -> list Metrics.FunctionMetrics :=
  fun sourceText =>
    let functions := Go.analyzeFile parseGo sourceText in
    map (fun func =>
           {| Metrics.name := Metrics.name func;
              Metrics.complexity := Metrics.complexity func;
              Metrics.details :=
                map (fun detail =>
                       {| Metrics.increment := Metrics.increment detail;
                          Metrics.reason := Metrics.reason detail;
                          Metrics.line := Metrics.line detail + 1;
                          Metrics.column := Metrics.column detail + 1;
                          Metrics.nesting := Metrics.nesting detail |})
                    (Metrics.details func);
              Metrics.startLine := Metrics.startLine func;
              Metrics.endLine := Metrics.endLine func;
              Metrics.startColumn := Metrics.startColumn func;
              Metrics.endColumn := Metrics.endColumn func |})
        functions.

(** The own properties of the object literal, in insertion order. *)
Definition languageAnalyzers
  : list (string * (string -> list Metrics.FunctionMetrics)) :=
  [ ("csharp", createCSharpAnalyzer);
    ("go", createGoAnalyzer) ].

(** [languageAnalyzers[languageId]]: an own property, else one found on
    the prototype, else [undefined] ([None]). *)
Definition getProperty (languageId : LanguageId) : option Property :=
  let key := toPropertyKey languageId in
  match assoc key languageAnalyzers with
  | Some analyzer => Some (Own analyzer)
  | None =>
      match assoc key objectPrototype with
      | Some p => Some (FromPrototype p)
      | None => None
      end
  end.

(** [Object.keys(languageAnalyzers)]. *)
Definition getSupportedLanguages : list string := map fst languageAnalyzers.

Definition analyzeFile (sourceText : string) (languageId : LanguageId) : Outcome :=
  match getProperty languageId with
  | Some (Own analyzer) => Returns (analyzer sourceText)
  | Some (FromPrototype p) => callInherited p sourceText  (* truthy as well *)
  | None => Returns []
  end.
End Parsers.

(** *** The normalizer and the invariants of its results, as specified *)

(** A detail and its normalized version: both positions one higher, the
    rest unchanged. *)
Definition detail_shifted (d d' : Metrics.Detail) : Prop :=
  Metrics.increment d' = Metrics.increment d /\
  Metrics.reason d' = Metrics.reason d /\
  Metrics.line d' = Metrics.line d + 1 /\
  Metrics.column d' = Metrics.column d + 1 /\
  Metrics.nesting d' = Metrics.nesting d.

(** A function and its normalized version: the details shifted one by one,
    the name, the complexity and the span unchanged. *)
Definition function_normalized (f f' : Metrics.FunctionMetrics) : Prop :=
  Metrics.name f' = Metrics.name f /\
  Metrics.complexity f' = Metrics.complexity f /\
  Forall2 detail_shifted (Metrics.details f) (Metrics.details f') /\
  Metrics.startLine f' = Metrics.startLine f /\
  Metrics.endLine f' = Metrics.endLine f /\
  Metrics.startColumn f' = Metrics.startColumn f /\
  Metrics.endColumn f' = Metrics.endColumn f.

(** The invariant of a normalized detail. *)
Definition detail_ok (d : Metrics.Detail) : Prop :=
  0 < Metrics.increment d /\
  Metrics.reason d <> EmptyString /\
  0 <= Metrics.nesting d /\
  1 <= Metrics.line d /\
  1 <= Metrics.column d.

(** The invariant of a reported function. *)
Definition function_ok (f : Metrics.FunctionMetrics) : Prop :=
  Metrics.complexity f = Metrics.total (Metrics.details f) /\
  Forall detail_ok (Metrics.details f).

(** The names under which [languageAnalyzers[languageId]] finds something
    on the prototype rather than nothing. *)
Definition inheritedName (key : string) : bool :=
  existsb (fun entry => String.eqb (fst entry) key) objectPrototype.

(** The detail invariant before normalization: positions from 0. *)
Definition raw_ok (d : Metrics.Detail) : Prop :=
  0 < Metrics.increment d /\
  Metrics.reason d <> EmptyString /\
  0 <= Metrics.nesting d /\
  0 <= Metrics.line d /\
  0 <= Metrics.column d.

Definition raw_function_ok (f : Metrics.FunctionMetrics) : Prop :=
  Metrics.complexity f = Metrics.total (Metrics.details f) /\
  Forall raw_ok (Metrics.details f).

(** The function that both wrappers map over the analyzer's results. *)
Definition normalize (func : Metrics.FunctionMetrics) : Metrics.FunctionMetrics :=
  {| Metrics.name := Metrics.name func;
     Metrics.complexity := Metrics.complexity func;
     Metrics.details :=
       map (fun detail =>
              {| Metrics.increment := Metrics.increment detail;
                 Metrics.reason := Metrics.reason detail;
                 Metrics.line := Metrics.line detail + 1;
                 Metrics.column := Metrics.column detail + 1;
                 Metrics.nesting := Metrics.nesting detail |})
           (Metrics.details func);
     Metrics.startLine := Metrics.startLine func;
     Metrics.endLine := Metrics.endLine func;
     Metrics.startColumn := Metrics.startColumn func;
     Metrics.endColumn := Metrics.endColumn func |}.

End Factory.

(* ===================================================================== *)
(** ** Sample syntax trees                                                *)
(* ===================================================================== *)

(** Trees as the grammars produce them for one-line sources; a node of a
    one-line source starts at row 0 and at the column of its offset. The
    offset [o] is where the fragment starts in the source text. *)
Module Samples.
Import TreeSitter.

Definition nd (o : nat) (t : string) (i j : nat) (cs : list SyntaxNode) : SyntaxNode :=
  Node t (o + i) (o + j) (mkPoint 0 (o + i)) (mkPoint 0 (o + j)) cs.

Definition tk (o : nat) (t : string) (i j : nat) : SyntaxNode := nd o t i j [].

(** [void M(){try{}catch(T e){}catch(U e){}}] *)
Definition tryCatchText : string := "void M(){try{}catch(T e){}catch(U e){}}".

Definition catchClause (o i : nat) : SyntaxNode :=
  nd o "catch_clause" i (i + 12)
     [ tk o "catch" i (i + 5);
       nd o "catch_declaration" (i + 5) (i + 10)
          [ tk o "(" (i + 5) (i + 6); tk o "identifier" (i + 6) (i + 7);
            tk o "identifier" (i + 8) (i + 9); tk o ")" (i + 9) (i + 10) ];
       nd o "block" (i + 10) (i + 12)
          [ tk o "{" (i + 10) (i + 11); tk o "}" (i + 11) (i + 12) ] ].

Definition tryStatement (o : nat) : SyntaxNode :=
  nd o "try_statement" 9 38
     [ tk o "try" 9 12;
       nd o "block" 12 14 [ tk o "{" 12 13; tk o "}" 13 14 ];
       catchClause o 14;
       catchClause o 26 ].

Definition tryCatchBody (o : nat) : SyntaxNode :=
  nd o "block" 8 39 [ tk o "{" 8 9; tryStatement o; tk o "}" 38 39 ].

Definition tryCatchMethod (o : nat) : SyntaxNode :=
  nd o "method_declaration" 0 39
     [ tk o "predefined_type" 0 4;
       tk o "identifier" 5 6;
       nd o "parameter_list" 6 8 [ tk o "(" 6 7; tk o ")" 7 8 ];
       tryCatchBody o ].

(** [class C{void M(){try{}catch(T e){}catch(U e){}}}] *)
Definition tryCatchFileText : string := "class C{" ++ tryCatchText ++ "}".

Definition tryCatchFile : SyntaxNode :=
  nd 0 "compilation_unit" 0 48
     [ nd 0 "class_declaration" 0 48
          [ tk 0 "class" 0 5;
            tk 0 "identifier" 6 7;
            nd 0 "declaration_list" 7 48
               [ tk 0 "{" 7 8; tryCatchMethod 8; tk 0 "}" 47 48 ] ] ].

(** A body in which the parser left two ERROR nodes:
    [{if(x){if (a && b while(y){if (c }}}] *)
Definition brokenText : string := "{if(x){if (a && b while(y){if (c }}}".

Definition brokenBody : SyntaxNode :=
  nd 0 "block" 0 36
     [ tk 0 "{" 0 1;
       nd 0 "if_statement" 1 35
          [ tk 0 "if" 1 3; tk 0 "(" 3 4; tk 0 "identifier" 4 5; tk 0 ")" 5 6;
            nd 0 "block" 6 35
               [ tk 0 "{" 6 7;
                 tk 0 "ERROR" 7 17;
                 nd 0 "while_statement" 18 34
                    [ tk 0 "while" 18 23; tk 0 "(" 23 24; tk 0 "identifier" 24 25;
                      tk 0 ")" 25 26;
                      nd 0 "block" 26 34
                         [ tk 0 "{" 26 27; tk 0 "ERROR" 27 32; tk 0 "}" 33 34 ] ];
                 tk 0 "}" 34 35 ] ];
       tk 0 "}" 35 36 ].

(** [{if(a){if(b){}}}] *)
Definition nestedIfText : string := "{if(a){if(b){}}}".

Definition innerIf : SyntaxNode :=
  nd 0 "if_statement" 7 14
     [ tk 0 "if" 7 9; tk 0 "(" 9 10; tk 0 "identifier" 10 11; tk 0 ")" 11 12;
       nd 0 "block" 12 14 [ tk 0 "{" 12 13; tk 0 "}" 13 14 ] ].

Definition outerIfBlock : SyntaxNode :=
  nd 0 "block" 6 15 [ tk 0 "{" 6 7; innerIf; tk 0 "}" 14 15 ].

Definition outerIf : SyntaxNode :=
  nd 0 "if_statement" 1 15
     [ tk 0 "if" 1 3; tk 0 "(" 3 4; tk 0 "identifier" 4 5; tk 0 ")" 5 6;
       outerIfBlock ].

Definition nestedIfBody : SyntaxNode :=
  nd 0 "block" 0 16 [ tk 0 "{" 0 1; outerIf; tk 0 "}" 15 16 ].

Definition outerIfPath : Path := [ (nestedIfBody, 1%nat) ].
Definition innerIfPath : Path := (outerIfBlock, 1%nat) :: (outerIf, 4%nat) :: outerIfPath.

(** [{return v switch{1=>a?b:c,_=>d};}] *)
Definition switchText : string := "{return v switch{1=>a?b:c,_=>d};}".

Definition ternary : SyntaxNode :=
  nd 0 "conditional_expression" 20 25
     [ tk 0 "identifier" 20 21; tk 0 "?" 21 22; tk 0 "identifier" 22 23;
       tk 0 ":" 23 24; tk 0 "identifier" 24 25 ].

Definition switchExpression : SyntaxNode :=
  nd 0 "switch_expression" 8 31
     [ tk 0 "identifier" 8 9; tk 0 "switch" 10 16; tk 0 "{" 16 17;
       nd 0 "switch_expression_arm" 17 25
          [ nd 0 "constant_pattern" 17 18 [ tk 0 "integer_literal" 17 18 ];
            tk 0 "=>" 18 20;
            ternary ];
       tk 0 "," 25 26;
       nd 0 "switch_expression_arm" 26 30
          [ tk 0 "discard" 26 27; tk 0 "=>" 27 29; tk 0 "identifier" 29 30 ];
       tk 0 "}" 30 31 ].

Definition switchBody : SyntaxNode :=
  nd 0 "block" 0 33
     [ tk 0 "{" 0 1;
       nd 0 "return_statement" 1 32
          [ tk 0 "return" 1 7; switchExpression; tk 0 ";" 31 32 ];
       tk 0 "}" 32 33 ].

(** [void Outer(){if(c){L();}void L(){for(;;){}}}] *)
Definition nestedText : string := "void Outer(){if(c){L();}void L(){for(;;){}}}".

Definition localFunction : SyntaxNode :=
  nd 0 "local_function_statement" 24 43
     [ tk 0 "predefined_type" 24 28;
       tk 0 "identifier" 29 30;
       nd 0 "parameter_list" 30 32 [ tk 0 "(" 30 31; tk 0 ")" 31 32 ];
       nd 0 "block" 32 43
          [ tk 0 "{" 32 33;
            nd 0 "for_statement" 33 42
               [ tk 0 "for" 33 36; tk 0 "(" 36 37; tk 0 ";" 37 38; tk 0 ";" 38 39;
                 tk 0 ")" 39 40;
                 nd 0 "block" 40 42 [ tk 0 "{" 40 41; tk 0 "}" 41 42 ] ];
            tk 0 "}" 42 43 ] ].

Definition outerBody : SyntaxNode :=
  nd 0 "block" 12 44
     [ tk 0 "{" 12 13;
       nd 0 "if_statement" 13 24
          [ tk 0 "if" 13 15; tk 0 "(" 15 16; tk 0 "identifier" 16 17; tk 0 ")" 17 18;
            nd 0 "block" 18 24
               [ tk 0 "{" 18 19;
                 nd 0 "expression_statement" 19 23
                    [ nd 0 "invocation_expression" 19 22
                         [ tk 0 "identifier" 19 20;
                           nd 0 "argument_list" 20 22 [ tk 0 "(" 20 21; tk 0 ")" 21 22 ] ];
                      tk 0 ";" 22 23 ];
                 tk 0 "}" 23 24 ] ];
       localFunction;
       tk 0 "}" 43 44 ].

Definition outerMethod : SyntaxNode :=
  nd 0 "method_declaration" 0 44
     [ tk 0 "predefined_type" 0 4;
       tk 0 "identifier" 5 10;
       nd 0 "parameter_list" 10 12 [ tk 0 "(" 10 11; tk 0 ")" 11 12 ];
       outerBody ].

Definition nestedFile : SyntaxNode :=
  nd 0 "compilation_unit" 0 44 [ outerMethod ].

(** [interface I{void F();}] *)
Definition interfaceText : string := "interface I{void F();}".

Definition interfaceMethod : SyntaxNode :=
  nd 0 "method_declaration" 12 21
     [ tk 0 "predefined_type" 12 16;
       tk 0 "identifier" 17 18;
       nd 0 "parameter_list" 18 20 [ tk 0 "(" 18 19; tk 0 ")" 19 20 ];
       tk 0 ";" 20 21 ].

Definition interfaceMembers : SyntaxNode :=
  nd 0 "declaration_list" 11 22 [ tk 0 "{" 11 12; interfaceMethod; tk 0 "}" 21 22 ].

Definition interfaceDeclaration : SyntaxNode :=
  nd 0 "interface_declaration" 0 22
     [ tk 0 "interface" 0 9; tk 0 "identifier" 10 11; interfaceMembers ].

Definition interfaceFile : SyntaxNode :=
  nd 0 "compilation_unit" 0 22 [ interfaceDeclaration ].

(** The path of [interfaceMethod] in [interfaceFile]. *)
Definition interfaceMethodPath : Path :=
  [ (interfaceMembers, 1%nat); (interfaceDeclaration, 2%nat); (interfaceFile, 0%nat) ].

(** Go: [func Max(a,b int)int{for{if a>b&&b>0{return a}};return b}] *)
Definition goText : string :=
  "func Max(a,b int)int{for{if a>b&&b>0{return a}};return b}".

Definition goCondition : SyntaxNode :=
  nd 0 "binary_expression" 28 36
     [ nd 0 "binary_expression" 28 31
          [ tk 0 "identifier" 28 29; tk 0 ">" 29 30; tk 0 "identifier" 30 31 ];
       tk 0 "&&" 31 33;
       nd 0 "binary_expression" 33 36
          [ tk 0 "identifier" 33 34; tk 0 ">" 34 35; tk 0 "int_literal" 35 36 ] ].

Definition goIf : SyntaxNode :=
  nd 0 "if_statement" 25 46
     [ tk 0 "if" 25 27;
       goCondition;
       nd 0 "block" 36 46
          [ tk 0 "{" 36 37;
            nd 0 "return_statement" 37 45
               [ tk 0 "return" 37 43;
                 nd 0 "expression_list" 44 45 [ tk 0 "identifier" 44 45 ] ];
            tk 0 "}" 45 46 ] ].

Definition goBody : SyntaxNode :=
  nd 0 "block" 20 57
     [ tk 0 "{" 20 21;
       nd 0 "for_statement" 21 47
          [ tk 0 "for" 21 24;
            nd 0 "block" 24 47 [ tk 0 "{" 24 25; goIf; tk 0 "}" 46 47 ] ];
       tk 0 ";" 47 48;
       nd 0 "return_statement" 48 56
          [ tk 0 "return" 48 54;
            nd 0 "expression_list" 55 56 [ tk 0 "identifier" 55 56 ] ];
       tk 0 "}" 56 57 ].

Definition goFunction : SyntaxNode :=
  nd 0 "function_declaration" 0 57
     [ tk 0 "func" 0 4;
       tk 0 "identifier" 5 8;
       nd 0 "parameter_list" 8 17
          [ tk 0 "(" 8 9;
            nd 0 "parameter_declaration" 9 16
               [ tk 0 "identifier" 9 10; tk 0 "," 10 11; tk 0 "identifier" 11 12;
                 tk 0 "type_identifier" 13 16 ];
            tk 0 ")" 16 17 ];
       tk 0 "type_identifier" 17 20;
       goBody ].

Definition goFile : SyntaxNode := nd 0 "source_file" 0 57 [ goFunction ].

(** Go: a function declared without a body, [func F()]. *)
Definition goExternal : SyntaxNode :=
  nd 0 "function_declaration" 0 8
     [ tk 0 "func" 0 4; tk 0 "identifier" 5 6;
       nd 0 "parameter_list" 6 8 [ tk 0 "(" 6 7; tk 0 ")" 7 8 ] ].

(** What the factory reports for [tryCatchFile]. *)
Definition tryCatchReport : list Metrics.FunctionMetrics :=
  [ {| Metrics.name := "M";
       Metrics.complexity := 5;
       Metrics.details :=
         [ Metrics.mkDetail 1 "try statement" 1 18 0;
           Metrics.mkDetail 2 "catch clause" 1 23 1;
           Metrics.mkDetail 2 "catch clause" 1 35 1 ];
       Metrics.startLine := 0;
       Metrics.endLine := 0;
       Metrics.startColumn := 8;
       Metrics.endColumn := 47 |} ].

(** The parts of [tryStatement 0] and of the body around it that the walk
    passes without recording anything. *)
Definition tryCatchParts : list SyntaxNode :=
  [ tk 0 "{" 8 9; tk 0 "try" 9 12;
    nd 0 "block" 12 14 [ tk 0 "{" 12 13; tk 0 "}" 13 14 ];
    tk 0 "catch" 14 19;
    nd 0 "catch_declaration" 19 24
       [ tk 0 "(" 19 20; tk 0 "identifier" 20 21;
         tk 0 "identifier" 22 23; tk 0 ")" 23 24 ];
    nd 0 "block" 24 26 [ tk 0 "{" 24 25; tk 0 "}" 25 26 ];
    tk 0 "catch" 26 31;
    nd 0 "catch_declaration" 31 36
       [ tk 0 "(" 31 32; tk 0 "identifier" 32 33;
         tk 0 "identifier" 34 35; tk 0 ")" 35 36 ];
    nd 0 "block" 36 38 [ tk 0 "{" 36 37; tk 0 "}" 37 38 ];
    tk 0 "}" 38 39 ].

(** A line feed. *)
Definition newline : string := String (ascii_of_nat 10) EmptyString.

(** A node on one line: row [r], which starts at offset [o]. *)
Definition ln (r o : nat) (t : string) (i j : nat) (cs : list SyntaxNode) : SyntaxNode :=
  Node t (o + i) (o + j) (mkPoint r i) (mkPoint r j) cs.

(** A constructor of a struct declared inside a class:
    [class A{struct S{S(){}}}] *)
Definition structText : string := "class A{struct S{S(){}}}".

Definition structConstructor : SyntaxNode :=
  nd 0 "constructor_declaration" 17 22
     [ tk 0 "identifier" 17 18;
       nd 0 "parameter_list" 18 20 [ tk 0 "(" 18 19; tk 0 ")" 19 20 ];
       nd 0 "block" 20 22 [ tk 0 "{" 20 21; tk 0 "}" 21 22 ] ].

Definition structMembers : SyntaxNode :=
  nd 0 "declaration_list" 16 23 [ tk 0 "{" 16 17; structConstructor; tk 0 "}" 22 23 ].

Definition structDeclaration : SyntaxNode :=
  nd 0 "struct_declaration" 8 23
     [ tk 0 "struct" 8 14; tk 0 "identifier" 15 16; structMembers ].

Definition structOwnerMembers : SyntaxNode :=
  nd 0 "declaration_list" 7 24 [ tk 0 "{" 7 8; structDeclaration; tk 0 "}" 23 24 ].

Definition structOwner : SyntaxNode :=
  nd 0 "class_declaration" 0 24
     [ tk 0 "class" 0 5; tk 0 "identifier" 6 7; structOwnerMembers ].

(** A local declaration inside a preprocessor block of a method body: the
    lines [void M(){], [#if D], [bool f=a&&b;], [#endif] and [}]. *)
Definition flaggedText : string :=
  "void M(){" ++ newline ++ "#if D" ++ newline ++ "bool f=a&&b;" ++ newline ++
  "#endif" ++ newline ++ "}".

Definition flaggedCondition : SyntaxNode :=
  ln 2 16 "binary_expression" 7 11
     [ ln 2 16 "identifier" 7 8 []; ln 2 16 "&&" 8 10 []; ln 2 16 "identifier" 10 11 [] ].

Definition flaggedDeclaration : SyntaxNode :=
  ln 2 16 "variable_declaration" 0 11
     [ ln 2 16 "predefined_type" 0 4 [];
       ln 2 16 "variable_declarator" 5 11
          [ ln 2 16 "identifier" 5 6 []; ln 2 16 "=" 6 7 []; flaggedCondition ] ].

Definition flaggedStatement : SyntaxNode :=
  ln 2 16 "local_declaration_statement" 0 12
     [ flaggedDeclaration; ln 2 16 ";" 11 12 [] ].

Definition flaggedBlock : SyntaxNode :=
  Node "preproc_if" 10 35 (mkPoint 1 0) (mkPoint 3 6)
       [ ln 1 10 "#if" 0 3 []; ln 1 10 "identifier" 4 5 [];
         flaggedStatement; ln 3 29 "#endif" 0 6 [] ].

Definition flaggedBody : SyntaxNode :=
  Node "block" 8 37 (mkPoint 0 8) (mkPoint 4 1)
       [ ln 0 0 "{" 8 9 []; flaggedBlock; ln 4 36 "}" 0 1 [] ].

Definition flaggedMethod : SyntaxNode :=
  Node "method_declaration" 0 37 (mkPoint 0 0) (mkPoint 4 1)
       [ ln 0 0 "predefined_type" 0 4 [];
         ln 0 0 "identifier" 5 6 [];
         ln 0 0 "parameter_list" 6 8 [ ln 0 0 "(" 6 7 []; ln 0 0 ")" 7 8 [] ];
         flaggedBody ].

Definition flaggedFile : SyntaxNode :=
  Node "compilation_unit" 0 37 (mkPoint 0 0) (mkPoint 4 1) [ flaggedMethod ].

(** The path of [flaggedDeclaration] in [flaggedFile]. *)
Definition flaggedDeclarationPath : Path :=
  [ (flaggedStatement, 0%nat); (flaggedBlock, 2%nat); (flaggedBody, 1%nat);
    (flaggedMethod, 3%nat); (flaggedFile, 0%nat) ].

(** A local function inside a lambda of a declaration that stands in a
    preprocessor block of a method body: the lines [class C{void M(){],
    [#if D], [F f=()=>{bool L(){return a&&b;}return L();};], [#endif] and
    [}}]. The operator of the local function is a parameter: with [==] in
    the place of [&&] the text is the same outside the local function. *)
Definition hostText (op : string) : string :=
  "class C{void M(){" ++ newline ++ "#if D" ++ newline ++
  "F f=()=>{bool L(){return a" ++ op ++ "b;}return L();};" ++ newline ++
  "#endif" ++ newline ++ "}}".

Definition hostCondition (op : string) : SyntaxNode :=
  ln 2 24 "binary_expression" 25 29
     [ ln 2 24 "identifier" 25 26 []; ln 2 24 op 26 28 []; ln 2 24 "identifier" 28 29 [] ].

Definition hostLocal (op : string) : SyntaxNode :=
  ln 2 24 "local_function_statement" 9 31
     [ ln 2 24 "predefined_type" 9 13 [];
       ln 2 24 "identifier" 14 15 [];
       ln 2 24 "parameter_list" 15 17 [ ln 2 24 "(" 15 16 []; ln 2 24 ")" 16 17 [] ];
       ln 2 24 "block" 17 31
          [ ln 2 24 "{" 17 18 [];
            ln 2 24 "return_statement" 18 30
               [ ln 2 24 "return" 18 24 []; hostCondition op; ln 2 24 ";" 29 30 [] ];
            ln 2 24 "}" 30 31 [] ] ].

Definition hostLambda (op : string) : SyntaxNode :=
  ln 2 24 "lambda_expression" 4 43
     [ ln 2 24 "parameter_list" 4 6 [ ln 2 24 "(" 4 5 []; ln 2 24 ")" 5 6 [] ];
       ln 2 24 "=>" 6 8 [];
       ln 2 24 "block" 8 43
          [ ln 2 24 "{" 8 9 [];
            hostLocal op;
            ln 2 24 "return_statement" 31 42
               [ ln 2 24 "return" 31 37 [];
                 ln 2 24 "invocation_expression" 38 41
                    [ ln 2 24 "identifier" 38 39 [];
                      ln 2 24 "argument_list" 39 41
                         [ ln 2 24 "(" 39 40 []; ln 2 24 ")" 40 41 [] ] ];
                 ln 2 24 ";" 41 42 [] ];
            ln 2 24 "}" 42 43 [] ] ].

Definition hostDeclaration (op : string) : SyntaxNode :=
  ln 2 24 "variable_declaration" 0 43
     [ ln 2 24 "identifier" 0 1 [];
       ln 2 24 "variable_declarator" 2 43
          [ ln 2 24 "identifier" 2 3 []; ln 2 24 "=" 3 4 []; hostLambda op ] ].

Definition hostStatement (op : string) : SyntaxNode :=
  ln 2 24 "local_declaration_statement" 0 44
     [ hostDeclaration op; ln 2 24 ";" 43 44 [] ].

Definition hostBlock (op : string) : SyntaxNode :=
  Node "preproc_if" 18 75 (mkPoint 1 0) (mkPoint 3 6)
       [ ln 1 18 "#if" 0 3 []; ln 1 18 "identifier" 4 5 [];
         hostStatement op; ln 3 69 "#endif" 0 6 [] ].

Definition hostBody (op : string) : SyntaxNode :=
  Node "block" 16 77 (mkPoint 0 16) (mkPoint 4 1)
       [ ln 0 0 "{" 16 17 []; hostBlock op; ln 4 76 "}" 0 1 [] ].

Definition hostMethod (op : string) : SyntaxNode :=
  Node "method_declaration" 8 77 (mkPoint 0 8) (mkPoint 4 1)
       [ ln 0 0 "predefined_type" 8 12 [];
         ln 0 0 "identifier" 13 14 [];
         ln 0 0 "parameter_list" 14 16 [ ln 0 0 "(" 14 15 []; ln 0 0 ")" 15 16 [] ];
         hostBody op ].

Definition hostMembers (op : string) : SyntaxNode :=
  Node "declaration_list" 7 78 (mkPoint 0 7) (mkPoint 4 2)
       [ ln 0 0 "{" 7 8 []; hostMethod op; ln 4 76 "}" 1 2 [] ].

Definition hostClass (op : string) : SyntaxNode :=
  Node "class_declaration" 0 78 (mkPoint 0 0) (mkPoint 4 2)
       [ ln 0 0 "class" 0 5 []; ln 0 0 "identifier" 6 7 []; hostMembers op ].

Definition hostFile (op : string) : SyntaxNode :=
  Node "compilation_unit" 0 78 (mkPoint 0 0) (mkPoint 4 2) [ hostClass op ].

End Samples.


(* ===================================================================== *)
(** ** The regular expressions at work                                    *)
(* ===================================================================== *)

Module JsFacts.
Import CSharp.

Example if_keyword_matches :
  map (Js.test_wb re_if) ["if (x"; "x.if("; "if" ++ String "010" "  ("; "} if(a"] =
  [true; true; true; true].
Proof. reflexivity. Qed.

Example if_keyword_needs_boundary_and_parenthesis :
  map (Js.test_wb re_if) ["elif (x"; "iff("; "if x"; "_if("; EmptyString] =
  [false; false; false; false; false].
Proof. reflexivity. Qed.

Example for_is_not_foreach :
  (Js.test_wb re_for "foreach (var x in xs)", Js.test_wb re_foreach "foreach (var x in xs)",
   Js.test_wb re_for "for(;;)", Js.test_wb re_try "try {", Js.test_wb re_try "try (",
   Js.test_wb re_catch "} catch (E e)", Js.test_wb re_while "while(true)") =
  (false, true, true, true, false, true, true).
Proof. reflexivity. Qed.

Example ternary_pattern :
  map (Js.test re_ternary) ["a ? b : c"; "?:"; "? ? :"; "a ? b"; "a : b ? c"; "a ? b ? c"] =
  [true; true; true; false; false; false].
Proof. reflexivity. Qed.

Example declared_ternary_pattern :
  map (Js.test re_declared_ternary)
      ["x ? 1 : 2"; "flag?a:b"; "x ? : 2"; "x ? 1 : ;";
       "? 1 : 2"; "x?:2"; "x ? 1 :"; "x ? 1 :;"; "x ? 1 ? 2"] =
  [true; true; true; true; false; false; false; false; false].
Proof. reflexivity. Qed.

Example logical_operator_matches :
  map Js.match_logical_ops ["a && b || c"; "&&&&"; "&&&"; "|||"; "a & b | c"; "&|&|"] =
  [ ["&&"; "||"]; ["&&"; "&&"]; ["&&"]; ["||"]; []; [] ].
Proof. reflexivity. Qed.

Example substring_clamps_and_swaps :
  (Js.substring "abcdef" 2 4, Js.substring "abcdef" 4 2, Js.substring "abcdef" 4 10,
   Js.substring "abcdef" 7 9, Js.includes "a::b" "::", Js.includes "a:b" "::") =
  ("cd", "cd", "ef", EmptyString, true, false).
Proof. reflexivity. Qed.

End JsFacts.

(* ===================================================================== *)
(** ** Facts about loops over children                                    *)
(* ===================================================================== *)

Module TreeFacts.
Import TreeSitter.

Lemma total_app (a b : list Metrics.Detail) :
  Metrics.total (a ++ b) = Metrics.total a + Metrics.total b.
Proof.
  induction a as [|d a IH]; simpl; [reflexivity|]. rewrite IH. lia.
Qed.

(** A loop that appends to a list can start from the empty list. *)
Lemma forEachFrom_acc {A : Type} (f : nat -> SyntaxNode -> list A)
      (cs : list SyntaxNode) :
  forall i acc,
    forEachFrom (fun i c a => (a ++ f i c)%list) i cs acc =
    (acc ++ forEachFrom (fun i c a => (a ++ f i c)%list) i cs [])%list.
Proof.
  induction cs as [|c cs IH]; intros i acc; simpl.
  - now rewrite app_nil_r.
  - rewrite (IH (S i) (acc ++ f i c)%list), (IH (S i) (f i c)).
    now rewrite app_assoc.
Qed.

(** Two loop bodies that agree on the children run the same loop. *)
Lemma forEachFrom_ext {S : Type} (f g : nat -> SyntaxNode -> S -> S)
      (cs : list SyntaxNode) :
  Forall (fun c => forall i s, f i c s = g i c s) cs ->
  forall i s, forEachFrom f i cs s = forEachFrom g i cs s.
Proof.
  induction 1 as [|c cs Hc _ IH]; intros i s; simpl; [reflexivity|].
  now rewrite Hc, IH.
Qed.

(** A loop whose body does nothing on every child does nothing. *)
Lemma forEachFrom_id {S : Type} (f : nat -> SyntaxNode -> S -> S)
      (cs : list SyntaxNode) :
  Forall (fun c => forall i s, f i c s = s) cs ->
  forall i s, forEachFrom f i cs s = s.
Proof.
  induction 1 as [|c cs Hc _ IH]; intros i s; simpl; [reflexivity|].
  now rewrite Hc, IH.
Qed.

(** A property of everything a loop appends holds of what it returns. *)
Lemma forEachFrom_Forall {A : Type} (Q : A -> Prop)
      (f : nat -> SyntaxNode -> list A) (cs : list SyntaxNode) :
  Forall (fun c => forall i, Forall Q (f i c)) cs ->
  forall i, Forall Q (forEachFrom (fun i c a => (a ++ f i c)%list) i cs []).
Proof.
  induction 1 as [|c cs Hc _ IH]; intros i; simpl; [constructor|].
  rewrite forEachFrom_acc. apply Forall_app; split; [apply Hc | apply IH].
Qed.

(** What the loop appends for the child at index [n] is in what it returns. *)
Lemma forEachFrom_incl {A : Type} (f : nat -> SyntaxNode -> list A)
      (cs : list SyntaxNode) :
  forall i n c,
    nth_error cs n = Some c ->
    incl (f (i + n)%nat c) (forEachFrom (fun i c a => (a ++ f i c)%list) i cs []).
Proof.
  induction cs as [|c0 cs IH]; intros i n c Hn.
  - destruct n; discriminate.
  - simpl. rewrite forEachFrom_acc. destruct n as [|n]; simpl in Hn.
    + injection Hn as ->. rewrite Nat.add_0_r. now apply incl_appl, incl_refl.
    + apply incl_appr. replace (i + S n)%nat with (S i + n)%nat by lia.
      now apply IH.
Qed.

Lemma forEachFrom_map {S : Type} (g : nat -> SyntaxNode -> S -> S)
      (h : SyntaxNode -> SyntaxNode) (cs : list SyntaxNode) :
  forall i s,
    forEachFrom g i (map h cs) s = forEachFrom (fun i c s => g i (h c) s) i cs s.
Proof.
  induction cs as [|c cs IH]; intros i s; simpl; [reflexivity|apply IH].
Qed.

(** *** What a node shows of itself without its subtrees *)

Lemma shallow_type (c c' : SyntaxNode) : shallow c = shallow c' -> type c = type c'.
Proof. unfold shallow; congruence. Qed.

Lemma shallow_text (src : string) (c c' : SyntaxNode) :
  shallow c = shallow c' -> text src c = text src c'.
Proof. unfold shallow, text; intros H; injection H as _ -> ->; reflexivity. Qed.

Lemma shallow_hasType (c c' : SyntaxNode) (t : string) :
  shallow c = shallow c' -> hasType c t = hasType c' t.
Proof. intros H; unfold hasType; now rewrite (shallow_type _ _ H). Qed.

Lemma shallow_isOneOf (c c' : SyntaxNode) (ts : list string) :
  shallow c = shallow c' -> isOneOf c ts = isOneOf c' ts.
Proof. intros H; unfold isOneOf; now rewrite (shallow_type _ _ H). Qed.

Lemma sim_path_refl (ctx : Path) : sim_path ctx ctx.
Proof. induction ctx; constructor; [repeat split | assumption]. Qed.

Lemma map_cons_inv {A B : Type} (f : A -> B) (a b : A) (l l' : list A) :
  map f (a :: l) = map f (b :: l') -> f a = f b /\ map f l = map f l'.
Proof. simpl; intros H; injection H; auto. Qed.

Lemma findFrom_sim (p : SyntaxNode -> bool) :
  (forall c c', shallow c = shallow c' -> p c = p c') ->
  forall l l' i,
    map shallow l = map shallow l' ->
    match findFrom p i l, findFrom p i l' with
    | Some (a, c), Some (a', c') => a = a' /\ shallow c = shallow c'
    | None, None => True
    | _, _ => False
    end.
Proof.
  intros Hp. induction l as [|c l IH]; intros [|c' l'] i H; try discriminate; simpl.
  - exact I.
  - apply map_cons_inv in H as [Hc Hl]. rewrite (Hp c c' Hc).
    destruct (p c'); [now split | now apply IH].
Qed.

Lemma existsb_sim (f : SyntaxNode -> bool) :
  (forall c c', shallow c = shallow c' -> f c = f c') ->
  forall l l', map shallow l = map shallow l' -> existsb f l = existsb f l'.
Proof.
  intros Hf. induction l as [|c l IH]; intros [|c' l'] H; try discriminate; simpl.
  - reflexivity.
  - apply map_cons_inv in H as [Hc Hl]. now rewrite (Hf c c' Hc), (IH l' Hl).
Qed.

Lemma forEachFrom_children_incl {A : Type} (f : nat -> SyntaxNode -> list A)
      (cs : list SyntaxNode) (n : nat) (c : SyntaxNode) :
  nth_error cs n = Some c ->
  incl (f n c) (forEachFrom (fun i c a => (a ++ f i c)%list) 0%nat cs []).
Proof. intros H. exact (forEachFrom_incl f cs 0%nat n c H). Qed.

(** The pre-order of a child is part of the pre-order of its parent. *)
Lemma preorder_child (ctx : Path) (node : SyntaxNode) (n : nat) (c : SyntaxNode) :
  nth_error (children node) n = Some c ->
  incl (preorder ((node, n) :: ctx) c) (preorder ctx node).
Proof.
  intros H. destruct node as [t i j p q cs]; simpl in H.
  change (preorder ctx (Node t i j p q cs))
    with ((ctx, Node t i j p q cs) ::
          forEachFrom
            (fun i0 c0 acc => (acc ++ preorder ((Node t i j p q cs, i0) :: ctx) c0)%list)
            0%nat cs []).
  apply incl_tl.
  exact (forEachFrom_children_incl
           (fun i0 c0 => preorder ((Node t i j p q cs, i0) :: ctx) c0) cs n c H).
Qed.

End TreeFacts.

(* ===================================================================== *)
(** ** The C# walk                                                        *)
(* ===================================================================== *)

Module CSharpFacts.
Import TreeSitter TreeFacts CSharp.

Lemma cs_extend_nil (st : State) : extend st [] = st.
Proof.
  destruct st as [k c ds]; unfold extend; simpl.
  f_equal; [lia | apply app_nil_r].
Qed.

Lemma cs_extend_extend (st : State) (a b : list Metrics.Detail) :
  extend (extend st a) b = extend st (a ++ b).
Proof.
  unfold extend; simpl. f_equal; [rewrite total_app; lia | now rewrite app_assoc].
Qed.

Lemma cs_record_spec (src : string) (ctx : Path) (node : SyntaxNode) (st : State) :
  record src ctx node st = extend st (spec_detail src (ctx, node, nesting st)).
Proof.
  unfold record, spec_detail.
  destruct (0 <? getComplexityIncrement src ctx (nesting st) node).
  - unfold extend; simpl. f_equal. lia.
  - symmetry; apply cs_extend_nil.
Qed.

(** The body of the loop of [visit] over the children of [node]. *)
Lemma cs_visit_unfold (src : string) (ctx : Path) (node : SyntaxNode) (st : State) :
  visit src ctx node st =
  let st1 := record src ctx node st in
  let loop :=
    forEachFrom (fun i child s =>
                   if negb (isFunctionDeclaration child)
                   then visit src ((node, i) :: ctx) child s else s)
                0%nat (children node) in
  if increasesNesting node
  then let st2 := loop (setNesting (nesting st1 + 1) st1) in
       setNesting (nesting st2 - 1) st2
  else loop st1.
Proof. destruct node; reflexivity. Qed.

Lemma cs_spec_visits_unfold (ctx : Path) (node : SyntaxNode) (k : Z) :
  spec_visits ctx node k =
  (ctx, node, k) ::
  forEachFrom
    (fun i child acc =>
       (acc ++ if negb (isFunctionDeclaration child)
               then spec_visits ((node, i) :: ctx) child
                                (if increasesNesting node then k + 1 else k)
               else [])%list) 0%nat (children node) [].
Proof. destruct node; reflexivity. Qed.

Lemma cs_spec_visits_children (ctx : Path) (node : SyntaxNode) (k : Z) :
  spec_visits ctx node k =
  let inner := if increasesNesting node then k + 1 else k in
  (ctx, node, k) ::
  forEachFrom
    (fun i child acc =>
       (acc ++ if negb (isFunctionDeclaration child)
               then spec_visits ((node, i) :: ctx) child inner
               else [])%list) 0%nat (children node) [].
Proof. destruct node; reflexivity. Qed.

Section Refinement.
Variable src : string.

Lemma cs_loop_refines (p : SyntaxNode) (ctx : Path) (k : Z) (cs : list SyntaxNode) :
  Forall (refines src) cs ->
  forall i s,
    nesting s = k ->
    forEachFrom (fun i child s =>
                   if negb (isFunctionDeclaration child)
                   then visit src ((p, i) :: ctx) child s else s) i cs s =
    extend s
      (flat_map (spec_detail src)
         (forEachFrom
            (fun i child acc =>
               (acc ++ if negb (isFunctionDeclaration child)
                       then spec_visits ((p, i) :: ctx) child k else [])%list)
            i cs [])).
Proof.
  induction 1 as [|c cs Hc _ IH]; intros i s Hk; simpl.
  - now rewrite cs_extend_nil.
  - rewrite forEachFrom_acc, flat_map_app, <- cs_extend_extend.
    destruct (isFunctionDeclaration c); simpl.
    + rewrite cs_extend_nil. now apply IH.
    + rewrite (Hc ((p, i) :: ctx) s), Hk. now apply IH.
Qed.

Lemma cs_visit_refines (node : SyntaxNode) : refines src node.
Proof.
  induction node as [t i j p q cs IH] using SyntaxNode_forall_ind.
  intros ctx st. rewrite cs_visit_unfold, cs_spec_visits_unfold. cbn zeta.
  set (node := Node t i j p q cs).
  change (children node) with cs.
  rewrite cs_record_spec.
  set (d0 := spec_detail src (ctx, node, nesting st)).
  simpl flat_map. fold d0.
  destruct (increasesNesting node).
  - rewrite (cs_loop_refines node ctx (nesting st + 1) cs IH 0%nat
               (setNesting (nesting (extend st d0) + 1) (extend st d0)))
      by reflexivity.
    unfold setNesting, extend; simpl. f_equal.
    + apply Z.add_simpl_r.
    + rewrite total_app, Z.add_assoc. reflexivity.
    + rewrite app_assoc. reflexivity.
  - rewrite (cs_loop_refines node ctx (nesting st) cs IH 0%nat (extend st d0))
      by reflexivity.
    now rewrite cs_extend_extend.
Qed.

End Refinement.

(** *** Levels, weights and reasons *)

Lemma cs_spec_visits_level (node : SyntaxNode) :
  forall ctx k, Forall (fun v => k <= level v) (spec_visits ctx node k).
Proof.
  induction node as [t i j p q cs IH] using SyntaxNode_forall_ind.
  intros ctx k. rewrite cs_spec_visits_unfold. constructor.
  - unfold level; simpl; lia.
  - apply forEachFrom_Forall.
    eapply Forall_impl; [|exact IH]. intros c Hc n.
    destruct (negb (isFunctionDeclaration c)); [|constructor].
    eapply Forall_impl; [|apply Hc]. intros v Hv.
    destruct (increasesNesting _); lia.
Qed.

Lemma cs_heuristic_kinds (node : SyntaxNode) :
  isHeuristicKind node = false ->
  hasType node "ERROR" = false /\
  isOneOf node ["field_declaration"; "variable_declaration"] = false.
Proof.
  unfold isHeuristicKind, isOneOf, hasType; simpl.
  intros H. apply orb_false_elim in H as [H1 H2]. now rewrite H1, H2.
Qed.

(** Every kind of the rule table has base weight 0 or 1. *)
Lemma cs_rule_table_weight (src : string) (ctx : Path) (k : Z) (node : SyntaxNode) :
  isHeuristicKind node = false ->
  getComplexityIncrement src ctx k node = 0 \/
  getComplexityIncrement src ctx k node = 1.
Proof.
  intros H. apply cs_heuristic_kinds in H as [HE HD].
  unfold getComplexityIncrement. rewrite HE, HD.
  repeat match goal with
         | |- context [if ?b then _ else _] => destruct b
         end; auto.
Qed.

Lemma cs_reason_nonempty (src : string) (ctx : Path) (node : SyntaxNode) :
  getComplexityReason src ctx node <> EmptyString.
Proof.
  unfold getComplexityReason, getComplexityReasonFromErrorNode,
    getComplexityReasonFromMalformedDeclaration.
  repeat match goal with
         | |- context [if ?b then _ else _] => destruct b
         end; simpl; discriminate.
Qed.

(** What a recorded detail says about the visit it comes from. *)
Lemma cs_spec_detail_inv (src : string) (ctx : Path) (node : SyntaxNode) (k : Z)
      (d : Metrics.Detail) :
  In d (spec_detail src (ctx, node, k)) ->
  0 < getComplexityIncrement src ctx k node /\
  Metrics.increment d = getComplexityIncrement src ctx k node + k /\
  Metrics.reason d = getComplexityReason src ctx node /\
  Metrics.line d = Z.of_nat (row (startPosition node)) /\
  Metrics.column d = Z.of_nat (column (startPosition node)) /\
  Metrics.nesting d = k.
Proof.
  unfold spec_detail.
  destruct (0 <? getComplexityIncrement src ctx k node) eqn:E; simpl; [|tauto].
  intros [<-|[]]; simpl. apply Z.ltb_lt in E. tauto.
Qed.

(** *** The walk reads a node, its children and its ancestors shallowly *)

Section Shallow.
Variable src : string.

Lemma cs_getBinaryOperator_sim (n n' : SyntaxNode) :
  sim_node n n' -> getBinaryOperator src n = getBinaryOperator src n'.
Proof.
  intros (_ & _ & Hcs). unfold getBinaryOperator, findChild.
  pose proof (findFrom_sim
                (fun child => hasType child "&&" || hasType child "||" ||
                              hasType child "binary_operator")) as H.
  specialize (H ltac:(intros c c' E; cbv beta;
                      now rewrite !(shallow_hasType c c' _ E))
                (children n) (children n') 0%nat Hcs).
  destruct (findFrom _ 0 (children n)) as [[a c]|],
           (findFrom _ 0 (children n')) as [[a' c']|]; try contradiction.
  - destruct H as [_ E]. now rewrite (shallow_text src c c' E).
  - reflexivity.
Qed.

Lemma cs_hasMatchingColonInSiblings_sim (ctx ctx' : Path) :
  sim_path ctx ctx' ->
  hasMatchingColonInSiblings src ctx = hasMatchingColonInSiblings src ctx'.
Proof.
  intros [|[p i] [p' i'] ctx0 ctx0' (Hi & _ & Hcs) _]; [reflexivity|].
  simpl in Hi; subst i'. simpl in Hcs. unfold hasMatchingColonInSiblings.
  apply existsb_sim.
  - intros c c' E. now rewrite (shallow_text src c c' E).
  - now rewrite <- !firstn_map, <- !skipn_map, Hcs.
Qed.

Lemma cs_isInPreprocessorBlock_sim (ctx ctx' : Path) :
  sim_path ctx ctx' -> isInPreprocessorBlock ctx = isInPreprocessorBlock ctx'.
Proof.
  unfold isInPreprocessorBlock.
  induction 1 as [|a b ctx0 ctx0' (_ & Ht & _) _ IH]; simpl; [reflexivity|].
  now rewrite Ht, IH.
Qed.

Lemma cs_getComplexityIncrement_sim (ctx ctx' : Path) (k : Z) (n n' : SyntaxNode) :
  sim_path ctx ctx' -> sim_node n n' ->
  getComplexityIncrement src ctx k n = getComplexityIncrement src ctx' k n'.
Proof.
  intros Hp Hn. pose proof Hn as (Hs & _ & _).
  unfold getComplexityIncrement, getComplexityFromErrorNode,
    getComplexityFromMalformedDeclaration.
  rewrite !(shallow_hasType n n' _ Hs), !(shallow_isOneOf n n' _ Hs).
  rewrite (cs_getBinaryOperator_sim n n' Hn), (shallow_text src n n' Hs).
  now rewrite (cs_hasMatchingColonInSiblings_sim ctx ctx' Hp),
    (cs_isInPreprocessorBlock_sim ctx ctx' Hp).
Qed.

Lemma cs_getComplexityReason_sim (ctx ctx' : Path) (n n' : SyntaxNode) :
  sim_path ctx ctx' -> sim_node n n' ->
  getComplexityReason src ctx n = getComplexityReason src ctx' n'.
Proof.
  intros Hp Hn. pose proof Hn as (Hs & _ & _).
  unfold getComplexityReason, getComplexityReasonFromErrorNode,
    getComplexityReasonFromMalformedDeclaration.
  rewrite !(shallow_hasType n n' _ Hs), !(shallow_isOneOf n n' _ Hs).
  rewrite (cs_getBinaryOperator_sim n n' Hn), (shallow_text src n n' Hs).
  now rewrite (cs_hasMatchingColonInSiblings_sim ctx ctx' Hp),
    (cs_isInPreprocessorBlock_sim ctx ctx' Hp).
Qed.

Lemma cs_record_sim (ctx ctx' : Path) (n n' : SyntaxNode) (st : State) :
  sim_path ctx ctx' -> sim_node n n' ->
  record src ctx n st = record src ctx' n' st.
Proof.
  intros Hp Hn. unfold record.
  rewrite (cs_getComplexityIncrement_sim ctx ctx' _ n n' Hp Hn),
    (cs_getComplexityReason_sim ctx ctx' n n' Hp Hn).
  destruct Hn as (_ & -> & _). reflexivity.
Qed.

Lemma cs_isFunctionDeclaration_sim (c c' : SyntaxNode) :
  shallow c = shallow c' -> isFunctionDeclaration c = isFunctionDeclaration c'.
Proof.
  intros E. unfold isFunctionDeclaration. now rewrite !(shallow_hasType c c' _ E).
Qed.

Lemma cs_increasesNesting_sim (c c' : SyntaxNode) :
  shallow c = shallow c' -> increasesNesting c = increasesNesting c'.
Proof.
  intros E. unfold increasesNesting. now rewrite !(shallow_hasType c c' _ E).
Qed.

Lemma cs_shallow_emptied (c : SyntaxNode) : shallow (emptied c) = shallow c.
Proof. destruct c; reflexivity. Qed.

Lemma cs_shallow_prune (c : SyntaxNode) : shallow (prune c) = shallow c.
Proof. destruct c; reflexivity. Qed.

Lemma cs_children_prune (n : SyntaxNode) :
  children (prune n) = map pruneChild (children n).
Proof. destruct n; reflexivity. Qed.

Lemma cs_shallow_pruneChild (c : SyntaxNode) : shallow (pruneChild c) = shallow c.
Proof.
  unfold pruneChild. destruct (isFunctionDeclaration c);
    [apply cs_shallow_emptied | apply cs_shallow_prune].
Qed.

Lemma cs_sim_node_prune (n : SyntaxNode) : sim_node n (prune n).
Proof.
  repeat split.
  - symmetry; apply cs_shallow_prune.
  - destruct n; reflexivity.
  - rewrite cs_children_prune, map_map. apply map_ext.
    intros c; symmetry; apply cs_shallow_pruneChild.
Qed.

(** The walk does not tell a tree from its pruned version. *)
Lemma cs_visit_prune_sim (node : SyntaxNode) :
  forall ctx ctx' st,
    sim_path ctx ctx' ->
    visit src ctx node st = visit src ctx' (prune node) st.
Proof.
  induction node as [t i j p q cs IH] using SyntaxNode_forall_ind.
  intros ctx ctx' st Hp.
  set (node := Node t i j p q cs) in *.
  pose proof (cs_sim_node_prune node) as Hn. pose proof Hn as (Hs & _ & Hcs).
  rewrite (cs_visit_unfold src ctx node), (cs_visit_unfold src ctx' (prune node)).
  cbn zeta.
  rewrite <- (cs_record_sim ctx ctx' node (prune node) st Hp Hn).
  rewrite <- (cs_increasesNesting_sim node (prune node) Hs).
  rewrite cs_children_prune, !forEachFrom_map.
  change (children node) with cs.
  assert (Hloop : forall s,
             forEachFrom
               (fun i child s =>
                  if negb (isFunctionDeclaration child)
                  then visit src ((node, i) :: ctx) child s else s) 0%nat cs s =
             forEachFrom
               (fun i c s =>
                  if negb (isFunctionDeclaration (pruneChild c))
                  then visit src ((prune node, i) :: ctx') (pruneChild c) s else s)
               0%nat cs s).
  { intros s. apply forEachFrom_ext.
    eapply Forall_impl; [|exact IH]. intros c Hc n s'.
    rewrite (cs_isFunctionDeclaration_sim (pruneChild c) c (cs_shallow_pruneChild c)).
    unfold pruneChild. destruct (isFunctionDeclaration c); simpl; [reflexivity|].
    apply Hc. constructor; [|exact Hp].
    split; [reflexivity | split; [apply shallow_type; exact Hs | exact Hcs]]. }
  destruct (increasesNesting node); now rewrite Hloop.
Qed.

(** *** The enclosing function, analyzed on the pruned declaration *)

Lemma cs_findFrom_pruneChild (p : SyntaxNode -> bool) :
  (forall c, p (pruneChild c) = p c) ->
  forall cs i,
    findFrom p i (map pruneChild cs) =
    option_map (fun r => (fst r, pruneChild (snd r))) (findFrom p i cs).
Proof.
  intros Hp. induction cs as [|c cs IH]; intros i; simpl; [reflexivity|].
  rewrite Hp. destruct (p c); [reflexivity | apply IH].
Qed.

Lemma cs_hasType_pruneChild (c : SyntaxNode) (t : string) :
  hasType (pruneChild c) t = hasType c t.
Proof. apply shallow_hasType, cs_shallow_pruneChild. Qed.

Lemma cs_text_pruneChild (c : SyntaxNode) : text src (pruneChild c) = text src c.
Proof. apply shallow_text, cs_shallow_pruneChild. Qed.

Lemma cs_getFunctionName_prune (ctx : Path) (node : SyntaxNode) :
  getFunctionName src ctx (prune node) = getFunctionName src ctx node.
Proof.
  unfold getFunctionName, findChild.
  rewrite !(shallow_hasType _ _ _ (cs_shallow_prune node)).
  rewrite cs_children_prune, cs_findFrom_pruneChild
    by (intros c; apply cs_hasType_pruneChild).
  destruct (findFrom _ 0 (children node)) as [[i c]|]; simpl;
    [now rewrite cs_text_pruneChild | reflexivity].
Qed.

(** A block or an expression body is not a function declaration. *)
Lemma cs_body_not_declaration (c : SyntaxNode) :
  hasType c "block" || hasType c "arrow_expression_clause" = true ->
  isFunctionDeclaration c = false.
Proof.
  unfold isFunctionDeclaration, hasType. intros H.
  apply orb_true_iff in H as [H|H]; apply String.eqb_eq in H; now rewrite H.
Qed.

(** The body found on the pruned declaration is walked as the body found
    on the declaration itself. *)
Lemma cs_getFunctionBody_prune (ctx : Path) (node : SyntaxNode) :
  match getFunctionBody ctx node, getFunctionBody ctx (prune node) with
  | Some (c, b), Some (c', b') =>
      forall st, visit src c b st = visit src c' b' st
  | None, None => True
  | _, _ => False
  end.
Proof.
  unfold getFunctionBody, findChild.
  rewrite cs_children_prune, cs_findFrom_pruneChild
    by (intros c; now rewrite !cs_hasType_pruneChild).
  destruct (findFrom _ 0 (children node)) as [[i b]|] eqn:E; simpl.
  - intros st.
    assert (Hb : hasType b "block" || hasType b "arrow_expression_clause" = true).
    { clear -E. revert E. generalize 0%nat.
      induction (children node) as [|c cs IH]; intros n; simpl; [discriminate|].
      destruct (hasType c "block" || hasType c "arrow_expression_clause") eqn:P.
      - intros H; injection H as _ <-. exact P.
      - apply IH. }
    unfold pruneChild. rewrite (cs_body_not_declaration b Hb).
    apply cs_visit_prune_sim. constructor; [|apply sim_path_refl].
    pose proof (cs_sim_node_prune node) as (Hs & _ & Hcs).
    split; [reflexivity | split; [apply shallow_type; exact Hs | exact Hcs]].
  - rewrite length_map, nth_error_map.
    destruct (nth_error (children node) (List.length (children node) - 1))
      as [lastChild|]; simpl; [|exact I].
    rewrite cs_hasType_pruneChild.
    destruct (hasType lastChild ";"); [|exact I].
    destruct ctx as [|[parentNode methodIndex] up]; [exact I|].
    destruct (searchSiblings up parentNode (S methodIndex) _) as [[c b]|];
      [reflexivity | exact I].
Qed.

Lemma cs_analyzeFunction_prune (ctx : Path) (node : SyntaxNode) (st : State) :
  analyzeFunction src ctx (prune node) st = analyzeFunction src ctx node st.
Proof.
  unfold analyzeFunction. rewrite cs_getFunctionName_prune.
  pose proof (cs_getFunctionBody_prune ctx node) as H.
  destruct (getFunctionBody ctx node) as [[c b]|],
           (getFunctionBody ctx (prune node)) as [[c' b']|]; try contradiction.
  - cbn zeta. rewrite <- H. destruct node; reflexivity.
  - reflexivity.
Qed.

End Shallow.

(** *** One function, and the traversal that finds the functions *)

Lemma cs_analyzeFunction_unfold (src : string) (ctx : Path) (node : SyntaxNode)
      (st : State) :
  fst (analyzeFunction src ctx node st) =
  match getFunctionBody ctx node with
  | None => None
  | Some (bodyCtx, body) =>
      let news := flat_map (spec_detail src) (spec_visits bodyCtx body 0) in
      Some {| Metrics.name := getFunctionName src ctx node;
              Metrics.complexity := Metrics.total news;
              Metrics.details := news;
              Metrics.startLine := Z.of_nat (row (startPosition node));
              Metrics.endLine := Z.of_nat (row (endPosition node));
              Metrics.startColumn := Z.of_nat (column (startPosition node));
              Metrics.endColumn := Z.of_nat (column (endPosition node)) |}
  end.
Proof.
  unfold analyzeFunction.
  destruct (getFunctionBody ctx node) as [[bodyCtx body]|]; [|reflexivity].
  cbn zeta. rewrite cs_visit_refines. reflexivity.
Qed.

Lemma cs_analyzeFunctions_visit_unfold (src : string) (ctx : Path) (node : SyntaxNode)
      (acc : State * list Metrics.FunctionMetrics) :
  analyzeFunctions_visit src ctx node acc =
  let acc1 :=
    if isFunctionDeclaration node then
      match analyzeFunction src ctx node (fst acc) with
      | (Some result, st) => (st, (snd acc ++ [result])%list)
      | (None, st) => (st, snd acc)
      end
    else acc in
  forEachFrom
    (fun i child a => analyzeFunctions_visit src ((node, i) :: ctx) child a)
    0%nat (children node) acc1.
Proof. destruct node; reflexivity. Qed.

Lemma cs_preorder_unfold (ctx : Path) (node : SyntaxNode) :
  preorder ctx node =
  (ctx, node) ::
  forEachFrom (fun i c acc => (acc ++ preorder ((node, i) :: ctx) c)%list)
              0%nat (children node) [].
Proof. destruct node; reflexivity. Qed.

Section Traversal.
Variable src : string.

Lemma cs_loop_collects (p : SyntaxNode) (ctx : Path) (cs : list SyntaxNode) :
  Forall (collects src) cs ->
  forall i acc,
    snd (forEachFrom
           (fun i child a => analyzeFunctions_visit src ((p, i) :: ctx) child a)
           i cs acc) =
    (snd acc ++
     flat_map (report src)
       (forEachFrom (fun i c a => (a ++ preorder ((p, i) :: ctx) c)%list) i cs []))%list.
Proof.
  induction 1 as [|c cs Hc _ IH]; intros i acc; simpl.
  - now rewrite app_nil_r.
  - rewrite IH, Hc.
    rewrite (forEachFrom_acc (fun i c => preorder ((p, i) :: ctx) c) cs (S i)
                             (preorder ((p, i) :: ctx) c)).
    now rewrite flat_map_app, app_assoc.
Qed.

Lemma cs_visit_collects (node : SyntaxNode) : collects src node.
Proof.
  induction node as [t i j p q cs IH] using SyntaxNode_forall_ind.
  intros ctx acc. rewrite cs_analyzeFunctions_visit_unfold, cs_preorder_unfold.
  cbn zeta. set (node := Node t i j p q cs). change (children node) with cs.
  rewrite (cs_loop_collects node ctx cs IH). simpl flat_map.
  rewrite app_assoc. f_equal.
  unfold report; simpl fst; simpl snd.
  destruct (isFunctionDeclaration node); [|now rewrite app_nil_r].
  change (analyzeFunction src ctx node newAnalyzer)
    with (analyzeFunction src ctx node (fst acc)).
  destruct (analyzeFunction src ctx node (fst acc)) as [[r|] st]; simpl;
    [reflexivity | now rewrite app_nil_r].
Qed.

End Traversal.

Lemma cs_analyzeFile_spec (parse : string -> SyntaxNode) (src : string) :
  analyzeFile parse src = flat_map (report src) (preorder [] (parse src)).
Proof.
  unfold analyzeFile, analyzeFunctions. cbn zeta. now rewrite cs_visit_collects.
Qed.

End CSharpFacts.

(* ===================================================================== *)
(** ** The Go walk                                                        *)
(* ===================================================================== *)

Module GoFacts.
Import TreeSitter TreeFacts Go.

Lemma go_extend_nil (st : State) : extend st [] = st.
Proof.
  destruct st as [k c ds]; unfold extend; simpl.
  f_equal; [lia | apply app_nil_r].
Qed.

Lemma go_extend_extend (st : State) (a b : list Metrics.Detail) :
  extend (extend st a) b = extend st (a ++ b).
Proof.
  unfold extend; simpl. f_equal; [rewrite total_app; lia | now rewrite app_assoc].
Qed.

Lemma go_record_spec (src : string) (node : SyntaxNode) (st : State) :
  record src node st = extend st (spec_detail src (node, nesting st)).
Proof.
  unfold record, spec_detail.
  destruct (0 <? getComplexityIncrement src (nesting st) node).
  - unfold extend; simpl. f_equal. lia.
  - symmetry; apply go_extend_nil.
Qed.

Lemma go_visit_unfold (src : string) (node : SyntaxNode) (st : State) :
  visit src node st =
  let st1 := record src node st in
  let loop :=
    forEachFrom (fun (_ : nat) child s =>
                   if negb (isFunctionDeclaration child)
                   then visit src child s else s)
                0%nat (children node) in
  if increasesNesting node
  then let st2 := loop (setNesting (nesting st1 + 1) st1) in
       setNesting (nesting st2 - 1) st2
  else loop st1.
Proof. destruct node; reflexivity. Qed.

Lemma go_spec_visits_unfold (node : SyntaxNode) (k : Z) :
  spec_visits node k =
  (node, k) ::
  forEachFrom
    (fun (_ : nat) child acc =>
       (acc ++ if negb (isFunctionDeclaration child)
               then spec_visits child (if increasesNesting node then k + 1 else k)
               else [])%list) 0%nat (children node) [].
Proof. destruct node; reflexivity. Qed.

Section Refinement.
Variable src : string.

Lemma go_loop_refines (k : Z) (cs : list SyntaxNode) :
  Forall (refines src) cs ->
  forall i s,
    nesting s = k ->
    forEachFrom (fun (_ : nat) child s =>
                   if negb (isFunctionDeclaration child)
                   then visit src child s else s) i cs s =
    extend s
      (flat_map (spec_detail src)
         (forEachFrom
            (fun (_ : nat) child acc =>
               (acc ++ if negb (isFunctionDeclaration child)
                       then spec_visits child k else [])%list)
            i cs [])).
Proof.
  induction 1 as [|c cs Hc _ IH]; intros i s Hk; simpl.
  - now rewrite go_extend_nil.
  - rewrite (forEachFrom_acc
               (fun (_ : nat) child =>
                  if negb (isFunctionDeclaration child)
                  then spec_visits child k else []) cs (S i)).
    rewrite flat_map_app, <- go_extend_extend.
    destruct (isFunctionDeclaration c); simpl.
    + rewrite go_extend_nil. now apply IH.
    + rewrite (Hc s), Hk. now apply IH.
Qed.

Lemma go_visit_refines (node : SyntaxNode) : refines src node.
Proof.
  induction node as [t i j p q cs IH] using SyntaxNode_forall_ind.
  intros st. rewrite go_visit_unfold, go_spec_visits_unfold. cbn zeta.
  set (node := Node t i j p q cs).
  change (children node) with cs.
  rewrite go_record_spec.
  set (d0 := spec_detail src (node, nesting st)).
  simpl flat_map. fold d0.
  destruct (increasesNesting node).
  - rewrite (go_loop_refines (nesting st + 1) cs IH 0%nat
               (setNesting (nesting (extend st d0) + 1) (extend st d0)))
      by reflexivity.
    unfold setNesting, extend; simpl. f_equal.
    + apply Z.add_simpl_r.
    + rewrite total_app, Z.add_assoc. reflexivity.
    + rewrite app_assoc. reflexivity.
  - rewrite (go_loop_refines (nesting st) cs IH 0%nat (extend st d0)) by reflexivity.
    now rewrite go_extend_extend.
Qed.

End Refinement.

(** *** Levels, weights and reasons *)

Lemma go_spec_visits_level (node : SyntaxNode) :
  forall k, Forall (fun v => k <= level v) (spec_visits node k).
Proof.
  induction node as [t i j p q cs IH] using SyntaxNode_forall_ind.
  intros k. rewrite go_spec_visits_unfold. constructor.
  - unfold level; simpl; lia.
  - apply (forEachFrom_Forall (fun v => k <= level v)
             (fun (_ : nat) child =>
                if negb (isFunctionDeclaration child)
                then spec_visits child
                       (if increasesNesting (Node t i j p q cs) then k + 1 else k)
                else [])).
    eapply Forall_impl; [|exact IH]. intros c Hc n.
    destruct (negb (isFunctionDeclaration c)); [|constructor].
    eapply Forall_impl; [|apply Hc]. intros v Hv.
    destruct (increasesNesting _); lia.
Qed.

(** Every base weight of the Go rule table is 0 or 1. *)
Lemma go_rule_table_weight (src : string) (k : Z) (node : SyntaxNode) :
  getComplexityIncrement src k node = 0 \/ getComplexityIncrement src k node = 1.
Proof.
  unfold getComplexityIncrement.
  repeat match goal with
         | |- context [if ?b then _ else _] => destruct b
         end; auto.
Qed.

Lemma go_reason_nonempty (src : string) (node : SyntaxNode) :
  getComplexityReason src node <> EmptyString.
Proof.
  unfold getComplexityReason.
  repeat match goal with
         | |- context [if ?b then _ else _] => destruct b
         end; simpl; discriminate.
Qed.

Lemma go_spec_detail_inv (src : string) (node : SyntaxNode) (k : Z)
      (d : Metrics.Detail) :
  In d (spec_detail src (node, k)) ->
  0 < getComplexityIncrement src k node /\
  Metrics.increment d = getComplexityIncrement src k node /\
  Metrics.reason d = getComplexityReason src node /\
  Metrics.line d = Z.of_nat (row (startPosition node)) /\
  Metrics.column d = Z.of_nat (column (startPosition node)) /\
  Metrics.nesting d = k.
Proof.
  unfold spec_detail.
  destruct (0 <? getComplexityIncrement src k node) eqn:E; simpl; [|tauto].
  intros [<-|[]]; simpl. apply Z.ltb_lt in E. tauto.
Qed.

(** *** The walk reads a node and its children shallowly *)

Section Shallow.
Variable src : string.

Lemma go_findOperator_sim (l l' : list SyntaxNode) :
  map shallow l = map shallow l' -> findOperator src l = findOperator src l'.
Proof.
  revert l'. induction l as [|c l IH]; intros [|c' l'] H; try discriminate.
  - reflexivity.
  - apply map_cons_inv in H as [Hc Hl]. simpl.
    now rewrite (shallow_text src c c' Hc), (IH l' Hl).
Qed.

Lemma go_isRecoverCall_sim (n n' : SyntaxNode) :
  sim_node n n' -> isRecoverCall src n = isRecoverCall src n'.
Proof.
  intros (_ & _ & Hcs). unfold isRecoverCall, findChild.
  pose proof (findFrom_sim (fun child => hasType child "identifier")) as H.
  specialize (H ltac:(intros c c' E; cbv beta;
                      now rewrite !(shallow_hasType c c' _ E))
                (children n) (children n') 0%nat Hcs).
  destruct (findFrom _ 0 (children n)) as [[a c]|],
           (findFrom _ 0 (children n')) as [[a' c']|]; try contradiction.
  - destruct H as [_ E]. now rewrite (shallow_text src c c' E).
  - reflexivity.
Qed.

Lemma go_hasLabel_sim (n n' : SyntaxNode) :
  sim_node n n' -> hasLabel n = hasLabel n'.
Proof.
  intros (_ & _ & Hcs). unfold hasLabel. apply existsb_sim; [|exact Hcs].
  intros c c' E. apply shallow_hasType, E.
Qed.

Lemma go_getComplexityIncrement_sim (k : Z) (n n' : SyntaxNode) :
  sim_node n n' ->
  getComplexityIncrement src k n = getComplexityIncrement src k n'.
Proof.
  intros Hn. pose proof Hn as (Hs & _ & Hcs).
  unfold getComplexityIncrement, getBinaryOperator.
  rewrite !(shallow_hasType n n' _ Hs), !(shallow_isOneOf n n' _ Hs).
  now rewrite (go_findOperator_sim _ _ Hcs), (go_hasLabel_sim n n' Hn),
    (go_isRecoverCall_sim n n' Hn).
Qed.

Lemma go_getComplexityReason_sim (n n' : SyntaxNode) :
  sim_node n n' -> getComplexityReason src n = getComplexityReason src n'.
Proof.
  intros Hn. pose proof Hn as (Hs & _ & Hcs).
  unfold getComplexityReason, getBinaryOperator.
  rewrite !(shallow_hasType n n' _ Hs).
  now rewrite (go_findOperator_sim _ _ Hcs), (go_hasLabel_sim n n' Hn),
    (go_isRecoverCall_sim n n' Hn).
Qed.

Lemma go_record_sim (n n' : SyntaxNode) (st : State) :
  sim_node n n' -> record src n st = record src n' st.
Proof.
  intros Hn. unfold record.
  rewrite (go_getComplexityIncrement_sim _ n n' Hn),
    (go_getComplexityReason_sim n n' Hn).
  destruct Hn as (_ & -> & _). reflexivity.
Qed.

Lemma go_isFunctionDeclaration_sim (c c' : SyntaxNode) :
  shallow c = shallow c' -> isFunctionDeclaration c = isFunctionDeclaration c'.
Proof.
  intros E. unfold isFunctionDeclaration. now rewrite !(shallow_hasType c c' _ E).
Qed.

Lemma go_increasesNesting_sim (c c' : SyntaxNode) :
  shallow c = shallow c' -> increasesNesting c = increasesNesting c'.
Proof.
  intros E. unfold increasesNesting. now rewrite !(shallow_hasType c c' _ E).
Qed.

Lemma go_shallow_emptied (c : SyntaxNode) : shallow (emptied c) = shallow c.
Proof. destruct c; reflexivity. Qed.

Lemma go_shallow_prune (c : SyntaxNode) : shallow (prune c) = shallow c.
Proof. destruct c; reflexivity. Qed.

Lemma go_children_prune (n : SyntaxNode) :
  children (prune n) = map pruneChild (children n).
Proof. destruct n; reflexivity. Qed.

Lemma go_shallow_pruneChild (c : SyntaxNode) : shallow (pruneChild c) = shallow c.
Proof.
  unfold pruneChild. destruct (isFunctionDeclaration c);
    [apply go_shallow_emptied | apply go_shallow_prune].
Qed.

Lemma go_sim_node_prune (n : SyntaxNode) : sim_node n (prune n).
Proof.
  repeat split.
  - symmetry; apply go_shallow_prune.
  - destruct n; reflexivity.
  - rewrite go_children_prune, map_map. apply map_ext.
    intros c; symmetry; apply go_shallow_pruneChild.
Qed.

(** The walk does not tell a tree from its pruned version. *)
Lemma go_visit_prune (node : SyntaxNode) :
  forall st, visit src node st = visit src (prune node) st.
Proof.
  induction node as [t i j p q cs IH] using SyntaxNode_forall_ind.
  intros st.
  set (node := Node t i j p q cs) in *.
  pose proof (go_sim_node_prune node) as Hn. pose proof Hn as (Hs & _ & Hcs).
  rewrite (go_visit_unfold src node), (go_visit_unfold src (prune node)).
  cbn zeta.
  rewrite <- (go_record_sim node (prune node) st Hn).
  rewrite <- (go_increasesNesting_sim node (prune node) Hs).
  rewrite go_children_prune, !forEachFrom_map.
  change (children node) with cs.
  assert (Hloop : forall s,
             forEachFrom
               (fun (_ : nat) child s =>
                  if negb (isFunctionDeclaration child)
                  then visit src child s else s) 0%nat cs s =
             forEachFrom
               (fun (_ : nat) c s =>
                  if negb (isFunctionDeclaration (pruneChild c))
                  then visit src (pruneChild c) s else s)
               0%nat cs s).
  { intros s. apply forEachFrom_ext.
    eapply Forall_impl; [|exact IH]. intros c Hc n s'.
    rewrite (go_isFunctionDeclaration_sim (pruneChild c) c (go_shallow_pruneChild c)).
    unfold pruneChild. destruct (isFunctionDeclaration c); simpl; [reflexivity|].
    apply Hc. }
  destruct (increasesNesting node); now rewrite Hloop.
Qed.

(** *** The enclosing function, analyzed on the pruned declaration *)

Lemma go_findFrom_pruneChild (p : SyntaxNode -> bool) :
  (forall c, p (pruneChild c) = p c) ->
  forall cs i,
    findFrom p i (map pruneChild cs) =
    option_map (fun r => (fst r, pruneChild (snd r))) (findFrom p i cs).
Proof.
  intros Hp. induction cs as [|c cs IH]; intros i; simpl; [reflexivity|].
  rewrite Hp. destruct (p c); [reflexivity | apply IH].
Qed.

Lemma go_hasType_pruneChild (c : SyntaxNode) (t : string) :
  hasType (pruneChild c) t = hasType c t.
Proof. apply shallow_hasType, go_shallow_pruneChild. Qed.

Lemma go_text_pruneChild (c : SyntaxNode) : text src (pruneChild c) = text src c.
Proof. apply shallow_text, go_shallow_pruneChild. Qed.

Lemma go_children_pruneChild (c : SyntaxNode) :
  isFunctionDeclaration c = false ->
  children (pruneChild c) = map pruneChild (children c).
Proof. intros H. unfold pruneChild. rewrite H. apply go_children_prune. Qed.

(** The receiver type is found with the same text below a pruned list. *)
Lemma go_findTypeIn_pruneChild (cs : list SyntaxNode) :
  option_map (text src) (findTypeIn (map pruneChild cs)) =
  option_map (text src) (findTypeIn cs).
Proof.
  induction cs as [|c cs IH]; simpl; [reflexivity|].
  rewrite go_hasType_pruneChild.
  destruct (hasType c "parameter_declaration") eqn:E; [|exact IH].
  assert (F : isFunctionDeclaration c = false).
  { unfold isFunctionDeclaration, hasType in *. apply String.eqb_eq in E.
    now rewrite E. }
  unfold findChild. rewrite (go_children_pruneChild c F).
  rewrite go_findFrom_pruneChild by (intros x; now rewrite !go_hasType_pruneChild).
  destruct (findFrom _ 0 (children c)) as [[i t]|]; simpl;
    [now rewrite go_text_pruneChild | exact IH].
Qed.

Lemma go_getPlainName_prune (node : SyntaxNode) :
  getPlainName src (prune node) = getPlainName src node.
Proof.
  unfold getPlainName, findChild.
  rewrite go_children_prune, go_findFrom_pruneChild
    by (intros c; apply go_hasType_pruneChild).
  destruct (findFrom _ 0 (children node)) as [[i c]|]; simpl;
    [now rewrite go_text_pruneChild | reflexivity].
Qed.

Lemma go_getFunctionName_prune (node : SyntaxNode) :
  getFunctionName src (prune node) = getFunctionName src node.
Proof.
  unfold getFunctionName, findChild, findTypeInParameterList.
  rewrite go_getPlainName_prune.
  rewrite !(shallow_hasType _ _ _ (go_shallow_prune node)).
  destruct (hasType node "method_declaration"); [|reflexivity].
  rewrite go_children_prune.
  rewrite !go_findFrom_pruneChild by (intros c; apply go_hasType_pruneChild).
  assert (R : match findFrom (fun child => hasType child "parameter_list") 0
                             (children node) with
              | Some (_, r) =>
                  match findTypeIn (children (pruneChild r)) with
                  | Some typeNode => text src typeNode
                  | None => EmptyString
                  end =
                  match findTypeIn (children r) with
                  | Some typeNode => text src typeNode
                  | None => EmptyString
                  end
              | None => True
              end).
  { destruct (findFrom _ 0 (children node)) as [[i r]|] eqn:E; [|exact I].
    assert (F : isFunctionDeclaration r = false).
    { assert (T : hasType r "parameter_list" = true).
      { clear -E. revert E. generalize 0%nat.
        induction (children node) as [|c cs IH]; intros n; simpl; [discriminate|].
        destruct (hasType c "parameter_list") eqn:P.
        - intros H; injection H as _ <-. exact P.
        - apply IH. }
      unfold isFunctionDeclaration, hasType in *. apply String.eqb_eq in T.
      now rewrite T. }
    rewrite (go_children_pruneChild r F).
    pose proof (go_findTypeIn_pruneChild (children r)) as H.
    destruct (findTypeIn (map pruneChild (children r))),
             (findTypeIn (children r)); simpl in H; congruence. }
  destruct (findFrom (fun child => hasType child "parameter_list") 0 (children node))
    as [[i r]|]; simpl; [rewrite R|];
    (destruct (findFrom (fun child => hasType child "field_identifier") 0
                        (children node)) as [[j nm]|]; simpl;
     [now rewrite go_text_pruneChild | reflexivity]).
Qed.

Lemma go_body_not_declaration (c : SyntaxNode) :
  hasType c "block" = true -> isFunctionDeclaration c = false.
Proof.
  unfold isFunctionDeclaration, hasType. intros H.
  apply String.eqb_eq in H; now rewrite H.
Qed.

Lemma go_getFunctionBody_prune (node : SyntaxNode) :
  getFunctionBody (prune node) = option_map prune (getFunctionBody node).
Proof.
  unfold getFunctionBody, findChild.
  rewrite go_children_prune, go_findFrom_pruneChild
    by (intros c; apply go_hasType_pruneChild).
  destruct (findFrom _ 0 (children node)) as [[i b]|] eqn:E; simpl; [|reflexivity].
  assert (Hb : hasType b "block" = true).
  { clear -E. revert E. generalize 0%nat.
    induction (children node) as [|c cs IH]; intros n; simpl; [discriminate|].
    destruct (hasType c "block") eqn:P.
    - intros H; injection H as _ <-. exact P.
    - apply IH. }
  unfold pruneChild. now rewrite (go_body_not_declaration b Hb).
Qed.

Lemma go_analyzeFunction_prune (node : SyntaxNode) (st : State) :
  analyzeFunction src (prune node) st = analyzeFunction src node st.
Proof.
  unfold analyzeFunction.
  rewrite go_getFunctionName_prune, go_getFunctionBody_prune.
  destruct (getFunctionBody node) as [b|]; simpl; [|reflexivity].
  rewrite <- go_visit_prune. destruct node; reflexivity.
Qed.

End Shallow.

(** *** One function, and the traversal that finds the functions *)

Lemma go_analyzeFunction_unfold (src : string) (node : SyntaxNode) (st : State) :
  fst (analyzeFunction src node st) =
  match getFunctionBody node with
  | None => None
  | Some body =>
      let news := flat_map (spec_detail src) (spec_visits body 0) in
      Some {| Metrics.name := getFunctionName src node;
              Metrics.complexity := Metrics.total news;
              Metrics.details := news;
              Metrics.startLine := Z.of_nat (row (startPosition node));
              Metrics.endLine := Z.of_nat (row (endPosition node));
              Metrics.startColumn := Z.of_nat (column (startPosition node));
              Metrics.endColumn := Z.of_nat (column (endPosition node)) |}
  end.
Proof.
  unfold analyzeFunction.
  destruct (getFunctionBody node) as [body|]; [|reflexivity].
  cbn zeta. rewrite go_visit_refines. reflexivity.
Qed.

Lemma go_analyzeFunctions_visit_unfold (src : string) (node : SyntaxNode)
      (acc : State * list Metrics.FunctionMetrics) :
  analyzeFunctions_visit src node acc =
  let acc1 :=
    if isFunctionDeclaration node then
      match analyzeFunction src node (fst acc) with
      | (Some result, st) => (st, (snd acc ++ [result])%list)
      | (None, st) => (st, snd acc)
      end
    else acc in
  forEachFrom
    (fun (_ : nat) child a => analyzeFunctions_visit src child a)
    0%nat (children node) acc1.
Proof. destruct node; reflexivity. Qed.

Section Traversal.
Variable src : string.

Lemma go_loop_collects (p : SyntaxNode) (ctx : Path) (cs : list SyntaxNode) :
  Forall (collects src) cs ->
  forall i acc,
    snd (forEachFrom
           (fun (_ : nat) child a => analyzeFunctions_visit src child a)
           i cs acc) =
    (snd acc ++
     flat_map (report src)
       (map snd
          (forEachFrom (fun i c a => (a ++ preorder ((p, i) :: ctx) c)%list) i cs [])))%list.
Proof.
  induction 1 as [|c cs Hc _ IH]; intros i acc; simpl.
  - now rewrite app_nil_r.
  - rewrite IH, (Hc ((p, i) :: ctx)).
    rewrite (forEachFrom_acc (fun i c => preorder ((p, i) :: ctx) c) cs (S i)
                             (preorder ((p, i) :: ctx) c)).
    unfold nodes. now rewrite map_app, flat_map_app, app_assoc.
Qed.

Lemma go_visit_collects (node : SyntaxNode) : collects src node.
Proof.
  induction node as [t i j p q cs IH] using SyntaxNode_forall_ind.
  intros ctx acc. unfold nodes.
  rewrite go_analyzeFunctions_visit_unfold.
  cbn zeta. set (node := Node t i j p q cs). change (children node) with cs.
  change (preorder ctx node)
    with ((ctx, node) ::
          forEachFrom (fun i c acc => (acc ++ preorder ((node, i) :: ctx) c)%list)
                      0%nat cs []).
  rewrite (go_loop_collects node ctx cs IH). simpl map. simpl flat_map.
  rewrite app_assoc. f_equal.
  unfold report.
  destruct (isFunctionDeclaration node); [|now rewrite app_nil_r].
  change (analyzeFunction src node newAnalyzer)
    with (analyzeFunction src node (fst acc)).
  destruct (analyzeFunction src node (fst acc)) as [[r|] st]; simpl;
    [reflexivity | now rewrite app_nil_r].
Qed.

End Traversal.

Lemma go_analyzeFile_spec (parse : string -> SyntaxNode) (src : string) :
  analyzeFile parse src = flat_map (report src) (nodes [] (parse src)).
Proof.
  unfold analyzeFile, analyzeFunctions. cbn zeta.
  now rewrite (go_visit_collects src (parse src) []).
Qed.

End GoFacts.

(* ===================================================================== *)
(** ** The factory                                                        *)
(* ===================================================================== *)

Module FactoryFacts.
Import TreeSitter TreeFacts Factory.

Lemma cs_details_raw_ok (src : string) (ctx : Path) (body : SyntaxNode) :
  Forall raw_ok (flat_map (CSharp.spec_detail src) (CSharp.spec_visits ctx body 0)).
Proof.
  apply Forall_flat_map.
  eapply Forall_impl; [|apply CSharpFacts.cs_spec_visits_level].
  intros [[c n] k] Hk. unfold CSharp.level in Hk; simpl in Hk.
  apply Forall_forall. intros d Hd.
  apply CSharpFacts.cs_spec_detail_inv in Hd as (Hb & Hi & Hr & Hl & Hc & Hn).
  unfold raw_ok. rewrite Hi, Hr, Hl, Hc, Hn.
  repeat split; try lia. apply CSharpFacts.cs_reason_nonempty.
Qed.

Lemma cs_report_raw_ok (src : string) (loc : Path * SyntaxNode) :
  Forall raw_function_ok (CSharp.report src loc).
Proof.
  unfold CSharp.report. destruct (CSharp.isFunctionDeclaration (snd loc)); [|constructor].
  rewrite CSharpFacts.cs_analyzeFunction_unfold.
  destruct (CSharp.getFunctionBody (fst loc) (snd loc)) as [[bctx body]|]; [|constructor].
  constructor; [|constructor]. split; simpl; [reflexivity|].
  apply cs_details_raw_ok.
Qed.

Lemma go_details_raw_ok (src : string) (body : SyntaxNode) :
  Forall raw_ok (flat_map (Go.spec_detail src) (Go.spec_visits body 0)).
Proof.
  apply Forall_flat_map.
  eapply Forall_impl; [|apply GoFacts.go_spec_visits_level].
  intros [n k] Hk. unfold Go.level in Hk; simpl in Hk.
  apply Forall_forall. intros d Hd.
  apply GoFacts.go_spec_detail_inv in Hd as (Hb & Hi & Hr & Hl & Hc & Hn).
  unfold raw_ok. rewrite Hi, Hr, Hl, Hc, Hn.
  repeat split; try lia. apply GoFacts.go_reason_nonempty.
Qed.

Lemma go_report_raw_ok (src : string) (node : SyntaxNode) :
  Forall raw_function_ok (Go.report src node).
Proof.
  unfold Go.report. destruct (Go.isFunctionDeclaration node); [|constructor].
  rewrite GoFacts.go_analyzeFunction_unfold.
  destruct (Go.getFunctionBody node) as [body|]; [|constructor].
  constructor; [|constructor]. split; simpl; [reflexivity|].
  apply go_details_raw_ok.
Qed.

Lemma createCSharpAnalyzer_map (parse : string -> SyntaxNode) (src : string) :
  createCSharpAnalyzer parse src = map normalize (CSharp.analyzeFile parse src).
Proof. reflexivity. Qed.

Lemma createGoAnalyzer_map (parse : string -> SyntaxNode) (src : string) :
  createGoAnalyzer parse src = map normalize (Go.analyzeFile parse src).
Proof. reflexivity. Qed.

Lemma normalize_shifts (f : Metrics.FunctionMetrics) :
  function_normalized f (normalize f).
Proof.
  unfold function_normalized, normalize; simpl. repeat split.
  induction (Metrics.details f) as [|d ds IH]; simpl; constructor; [|exact IH].
  unfold detail_shifted; simpl. repeat split.
Qed.

Lemma map_normalize_shifts (fs : list Metrics.FunctionMetrics) :
  Forall2 function_normalized fs (map normalize fs).
Proof.
  induction fs as [|f fs IH]; simpl; constructor; [apply normalize_shifts | exact IH].
Qed.

Lemma total_shifted (ds ds' : list Metrics.Detail) :
  Forall2 detail_shifted ds ds' -> Metrics.total ds' = Metrics.total ds.
Proof.
  induction 1 as [|d d' ds ds' (Hi & _) _ IH]; simpl; [reflexivity|].
  now rewrite Hi, IH.
Qed.

Lemma normalize_ok (f : Metrics.FunctionMetrics) :
  raw_function_ok f -> function_ok (normalize f).
Proof.
  intros [Hc Hd]. pose proof (normalize_shifts f) as (_ & Hc' & Hs & _).
  split.
  - rewrite Hc', Hc. symmetry. now apply total_shifted.
  - clear Hc Hc'. induction Hs as [|d d' ds ds' Hdd _ IH]; [constructor|].
    inversion Hd as [|? ? Hd1 Hd2]; subst.
    constructor; [|now apply IH].
    destruct Hdd as (Hi & Hr & Hl & Hco & Hn), Hd1 as (? & ? & ? & ? & ?).
    unfold detail_ok. rewrite Hi, Hr, Hl, Hco, Hn. repeat split; try lia; assumption.
Qed.

Lemma map_normalize_ok (fs : list Metrics.FunctionMetrics) :
  Forall raw_function_ok fs -> Forall function_ok (map normalize fs).
Proof.
  induction 1; simpl; constructor; [now apply normalize_ok | assumption].
Qed.

Lemma createCSharpAnalyzer_ok (parse : string -> SyntaxNode) (src : string) :
  Forall function_ok (createCSharpAnalyzer parse src).
Proof.
  rewrite createCSharpAnalyzer_map, CSharpFacts.cs_analyzeFile_spec.
  apply map_normalize_ok, Forall_flat_map, Forall_forall.
  intros loc _. apply cs_report_raw_ok.
Qed.

Lemma createGoAnalyzer_ok (parse : string -> SyntaxNode) (src : string) :
  Forall function_ok (createGoAnalyzer parse src).
Proof.
  rewrite createGoAnalyzer_map, GoFacts.go_analyzeFile_spec.
  apply map_normalize_ok, Forall_flat_map, Forall_forall.
  intros node _. apply go_report_raw_ok.
Qed.

(** The dispatch, case by case on the property key. *)
Lemma getProperty_cases (pc pg : string -> SyntaxNode) (languageId : LanguageId) :
  let key := toPropertyKey languageId in
  (key = "csharp" /\ getProperty pc pg languageId = Some (Own (createCSharpAnalyzer pc))) \/
  (key = "go" /\ getProperty pc pg languageId = Some (Own (createGoAnalyzer pg))) \/
  (key <> "csharp" /\ key <> "go" /\ inheritedName key = true /\
   exists p, getProperty pc pg languageId = Some (FromPrototype p)) \/
  (key <> "csharp" /\ key <> "go" /\ inheritedName key = false /\
   getProperty pc pg languageId = None).
Proof.
  cbn zeta. unfold getProperty. cbn zeta.
  generalize (toPropertyKey languageId) as key. intros key.
  unfold languageAnalyzers. cbn [assoc].
  rewrite (String.eqb_sym "csharp"), (String.eqb_sym "go").
  destruct (String.eqb_spec key "csharp") as [E1|N1]; [now left|].
  destruct (String.eqb_spec key "go") as [E2|N2]; [right; now left|].
  right; right.
  unfold inheritedName, objectPrototype. cbn [assoc existsb fst].
  repeat match goal with
         | |- context [String.eqb ?a key] =>
             destruct (String.eqb a key);
             [left; repeat split; auto; eexists; reflexivity|]
         end.
  right. repeat split; auto.
Qed.

(** An identifier that names no own property and nothing on the prototype
    yields the empty array. *)
Lemma analyzeFile_unknown (pc pg : string -> SyntaxNode) (src : string)
      (languageId : LanguageId) :
  toPropertyKey languageId <> "csharp" ->
  toPropertyKey languageId <> "go" ->
  inheritedName (toPropertyKey languageId) = false ->
  analyzeFile pc pg src languageId = Returns [].
Proof.
  intros N1 N2 NI. unfold analyzeFile.
  destruct (getProperty_cases pc pg languageId)
    as [[E _]|[[E _]|[(_ & _ & I & _)|(_ & _ & _ & ->)]]]; try contradiction.
  - congruence.
  - reflexivity.
Qed.

End FactoryFacts.

(* ===================================================================== *)
(** ** The claims of the specification                                    *)
(* ===================================================================== *)

Import TreeSitter.

(** C1, first part and amended second part. Every detail that the C# walk
    records comes from a visit of the specification's walk, and its increment
    is the base weight of the visited construct plus the nesting level of the
    visit. Consequently two recorded constructs of the same base weight, in
    particular two of the same kind of the rule table, differ in their
    increments by exactly the difference of their nesting levels. *)
Theorem cs_increment_is_weight_plus_nesting :
  forall (src : string) (ctx : Path) (body : SyntaxNode) (st : CSharp.State),
    CSharp.details (CSharp.visit src ctx body st) =
    (CSharp.details st ++
     flat_map (CSharp.spec_detail src)
              (CSharp.spec_visits ctx body (CSharp.nesting st)))%list /\
    (forall c n k d,
        In d (CSharp.spec_detail src (c, n, k)) ->
        0 < CSharp.getComplexityIncrement src c k n /\
        Metrics.increment d = CSharp.getComplexityIncrement src c k n + k /\
        Metrics.nesting d = k) /\
    (forall c1 n1 k1 d1 c2 n2 k2 d2,
        In d1 (CSharp.spec_detail src (c1, n1, k1)) ->
        In d2 (CSharp.spec_detail src (c2, n2, k2)) ->
        CSharp.getComplexityIncrement src c1 k1 n1 =
        CSharp.getComplexityIncrement src c2 k2 n2 ->
        Metrics.increment d2 - Metrics.increment d1 = k2 - k1) /\
    (forall c1 n1 k1 d1 c2 n2 k2 d2,
        In d1 (CSharp.spec_detail src (c1, n1, k1)) ->
        In d2 (CSharp.spec_detail src (c2, n2, k2)) ->
        type n1 = type n2 ->
        CSharp.isHeuristicKind n1 = false ->
        Metrics.increment d2 - Metrics.increment d1 = k2 - k1).
Proof.
  intros src ctx body st. split; [|split; [|split]].
  - now rewrite CSharpFacts.cs_visit_refines.
  - intros c n k d H.
    apply CSharpFacts.cs_spec_detail_inv in H as (P & I & _ & _ & _ & N).
    auto.
  - intros c1 n1 k1 d1 c2 n2 k2 d2 H1 H2 E.
    apply CSharpFacts.cs_spec_detail_inv in H1 as (_ & -> & _).
    apply CSharpFacts.cs_spec_detail_inv in H2 as (_ & -> & _). lia.
  - intros c1 n1 k1 d1 c2 n2 k2 d2 H1 H2 E K1.
    assert (K2 : CSharp.isHeuristicKind n2 = false)
      by (unfold CSharp.isHeuristicKind, isOneOf in *; now rewrite <- E).
    apply CSharpFacts.cs_spec_detail_inv in H1 as (P1 & -> & _).
    apply CSharpFacts.cs_spec_detail_inv in H2 as (P2 & -> & _).
    destruct (CSharpFacts.cs_rule_table_weight src c1 k1 n1 K1),
             (CSharpFacts.cs_rule_table_weight src c2 k2 n2 K2); lia.
Qed.

(** The theorem at [{if(a){if(b){}}}]: the two conditionals are recorded
    with increments 1 and 2 at nesting levels 0 and 1. *)
Lemma cs_increment_witness :
  CSharp.details
    (CSharp.visit Samples.nestedIfText [] Samples.nestedIfBody CSharp.newAnalyzer) =
  [ Metrics.mkDetail 1 "if statement" 0 1 0;
    Metrics.mkDetail 2 "if statement" 0 7 1 ] /\
  Metrics.increment (Metrics.mkDetail 2 "if statement" 0 7 1) -
  Metrics.increment (Metrics.mkDetail 1 "if statement" 0 1 0) = 1 - 0.
Proof.
  destruct (cs_increment_is_weight_plus_nesting
              Samples.nestedIfText [] Samples.nestedIfBody CSharp.newAnalyzer)
    as (E & _ & _ & G).
  split.
  - rewrite E. reflexivity.
  - apply (G Samples.outerIfPath Samples.outerIf 0 _
             Samples.innerIfPath Samples.innerIf 1 _);
      [left; reflexivity | left; reflexivity | reflexivity | reflexivity].
Defined.

(** C1 as stated fails: in [Samples.brokenBody] two ERROR nodes are recorded
    under the same reason at nesting levels 1 and 2, and both with
    increment 3. *)
Lemma cs_same_kind_gap_counterexample :
  exists c1 n1 d1 c2 n2 d2,
    In (c1, n1, 1) (CSharp.spec_visits [] Samples.brokenBody 0) /\
    In (c2, n2, 2) (CSharp.spec_visits [] Samples.brokenBody 0) /\
    type n1 = type n2 /\
    CSharp.spec_detail Samples.brokenText (c1, n1, 1) = [d1] /\
    CSharp.spec_detail Samples.brokenText (c2, n2, 2) = [d2] /\
    In d1 (CSharp.details
             (CSharp.visit Samples.brokenText [] Samples.brokenBody CSharp.newAnalyzer)) /\
    In d2 (CSharp.details
             (CSharp.visit Samples.brokenText [] Samples.brokenBody CSharp.newAnalyzer)) /\
    Metrics.reason d1 = Metrics.reason d2 /\
    Metrics.nesting d1 = 1 /\ Metrics.nesting d2 = 2 /\
    Metrics.increment d2 - Metrics.increment d1 <> 2 - 1.
Proof.
  pose (ds := CSharp.details
                (CSharp.visit Samples.brokenText [] Samples.brokenBody CSharp.newAnalyzer)).
  pose (vs := CSharp.spec_visits [] Samples.brokenBody 0).
  pose (v1 := nth 9 vs ([], Samples.brokenBody, 0)).
  pose (v2 := nth 17 vs ([], Samples.brokenBody, 0)).
  exists (fst (fst v1)), (snd (fst v1)), (nth 1 ds (Metrics.mkDetail 0 EmptyString 0 0 0)).
  exists (fst (fst v2)), (snd (fst v2)), (nth 3 ds (Metrics.mkDetail 0 EmptyString 0 0 0)).
  vm_compute. repeat split; try discriminate; auto 20.
Qed.

(** The walk of [{if(x){if (a && b while(y){if (c }}}], detail by detail:
    the first ERROR node holds an [if (] and an [&&], the second an [if (]. *)
Example cs_broken_body_details :
  map (fun d => (Metrics.reason d, Metrics.increment d, Metrics.nesting d))
      (CSharp.details
         (CSharp.visit Samples.brokenText [] Samples.brokenBody CSharp.newAnalyzer)) =
  [ ("if statement", 1, 0);
    ("if statement (in preprocessor block)", 3, 1);
    ("while loop", 2, 1);
    ("if statement (in preprocessor block)", 3, 2) ].
Proof. reflexivity. Qed.

(** C2. Every detail that the Go walk records comes from a visit of the
    specification's walk, and its increment is the base weight of the visited
    construct and nothing else: it is 1 at every nesting level, and the
    complexity grows by the sum of these increments. *)
Theorem go_increment_is_weight_only :
  forall (src : string) (body : SyntaxNode) (st : Go.State),
    Go.details (Go.visit src body st) =
    (Go.details st ++
     flat_map (Go.spec_detail src) (Go.spec_visits body (Go.nesting st)))%list /\
    Go.complexity (Go.visit src body st) =
    Go.complexity st +
    Metrics.total (flat_map (Go.spec_detail src) (Go.spec_visits body (Go.nesting st))) /\
    (forall n k d,
        In d (Go.spec_detail src (n, k)) ->
        Metrics.increment d = Go.getComplexityIncrement src k n /\
        Metrics.increment d = 1 /\
        Metrics.nesting d = k).
Proof.
  intros src body st. split; [|split].
  - now rewrite GoFacts.go_visit_refines.
  - now rewrite GoFacts.go_visit_refines.
  - intros n k d H.
    apply GoFacts.go_spec_detail_inv in H as (P & E & _ & _ & _ & N).
    repeat split; try assumption.
    destruct (GoFacts.go_rule_table_weight src k n); lia.
Qed.

(** The theorem at the conditional of [Samples.goBody], visited at nesting
    level 1. *)
Lemma go_increment_witness :
  In (Metrics.mkDetail 1 "if statement" 0 25 1)
     (Go.spec_detail Samples.goText (Samples.goIf, 1)) /\
  Metrics.increment (Metrics.mkDetail 1 "if statement" 0 25 1) = 1.
Proof.
  assert (H : In (Metrics.mkDetail 1 "if statement" 0 25 1)
                 (Go.spec_detail Samples.goText (Samples.goIf, 1)))
    by (left; reflexivity).
  split; [exact H|].
  destruct (go_increment_is_weight_only Samples.goText Samples.goBody Go.newAnalyzer)
    as (_ & _ & G).
  exact (proj1 (proj2 (G Samples.goIf 1 _ H))).
Defined.

(** The walk of [Samples.goBody]: a loop, a conditional inside it and a
    logical operator inside both are each recorded with increment 1. *)
Example go_nested_increments :
  map (fun d => (Metrics.reason d, Metrics.increment d, Metrics.nesting d))
      (Go.details (Go.visit Samples.goText Samples.goBody Go.newAnalyzer)) =
  [ ("for loop", 1, 0); ("if statement", 1, 1); ("binary && operator", 1, 2) ].
Proof. reflexivity. Qed.

(** A node that the walk passes, entered or skipped, without a trace. *)
Lemma cs_inert_child (src : string) (ctx : Path) (c : SyntaxNode) (s : CSharp.State) :
  CSharp.inert src c ->
  (if negb (CSharp.isFunctionDeclaration c) then CSharp.visit src ctx c s else s) = s.
Proof. intros H. destruct (negb _); [apply H | reflexivity]. Qed.

(** C3 fails on the code. A C# body that consists of a try statement with
    two catch clauses, none of whose parts contributes anything, has three
    details, as claimed, but complexity 5 where the claim and the tests of
    the repository say 3: 1 for the try at nesting level 0 and 2 for each
    catch clause, which is a child of the try statement and is recorded at
    nesting level 1 with the level added to its weight. *)
Theorem cs_try_two_catches_scores_five :
  forall (src : string) (ctx : Path)
         (lbrace tryKw tryBlock catchKw1 decl1 block1 catchKw2 decl2 block2 rbrace
          : SyntaxNode)
         (i0 j0 i1 j1 i2 j2 i3 j3 : nat) (p0 q0 p1 q1 p2 q2 p3 q3 : Point),
    Forall (CSharp.inert src)
           [lbrace; tryKw; tryBlock; catchKw1; decl1; block1;
            catchKw2; decl2; block2; rbrace] ->
    let catch1 := Node "catch_clause" i1 j1 p1 q1 [catchKw1; decl1; block1] in
    let catch2 := Node "catch_clause" i2 j2 p2 q2 [catchKw2; decl2; block2] in
    let tryNode := Node "try_statement" i0 j0 p0 q0 [tryKw; tryBlock; catch1; catch2] in
    let body := Node "block" i3 j3 p3 q3 [lbrace; tryNode; rbrace] in
    let st := CSharp.visit src ctx body CSharp.newAnalyzer in
    CSharp.complexity st = 5 /\
    List.length (CSharp.details st) = 3%nat /\
    map (fun d => (Metrics.reason d, Metrics.increment d, Metrics.nesting d))
        (CSharp.details st) =
    [ ("try statement", 1, 0); ("catch clause", 2, 1); ("catch clause", 2, 1) ].
Proof.
  intros src ctx lbrace tryKw tryBlock catchKw1 decl1 block1 catchKw2 decl2 block2
         rbrace i0 j0 i1 j1 i2 j2 i3 j3 p0 q0 p1 q1 p2 q2 p3 q3 Hinert.
  repeat match goal with
         | H : Forall _ (_ :: _) |- _ =>
             let Hx := fresh "I" in
             apply Forall_cons_iff in H as [Hx H]
         end.
  intros catch1 catch2 tryNode body st.
  assert (E : st =
              CSharp.extend CSharp.newAnalyzer
                [ Metrics.mkDetail 1 "try statement"
                                   (Z.of_nat (row p0)) (Z.of_nat (column p0)) 0;
                  Metrics.mkDetail 2 "catch clause"
                                   (Z.of_nat (row p1)) (Z.of_nat (column p1)) 1;
                  Metrics.mkDetail 2 "catch clause"
                                   (Z.of_nat (row p2)) (Z.of_nat (column p2)) 1 ]).
  { subst st body tryNode catch1 catch2.
    rewrite CSharpFacts.cs_visit_unfold. cbn -[CSharp.visit].
    rewrite !cs_inert_child by assumption.
    rewrite CSharpFacts.cs_visit_unfold. cbn -[CSharp.visit].
    rewrite !cs_inert_child by assumption.
    rewrite CSharpFacts.cs_visit_unfold. cbn -[CSharp.visit].
    rewrite !cs_inert_child by assumption.
    rewrite CSharpFacts.cs_visit_unfold. cbn -[CSharp.visit].
    rewrite !cs_inert_child by assumption.
    reflexivity. }
  rewrite E. repeat split.
Qed.

(** The theorem at the body of [void M(){try{}catch(T e){}catch(U e){}}]. *)
Lemma cs_try_two_catches_witness :
  Forall (CSharp.inert Samples.tryCatchText) Samples.tryCatchParts /\
  CSharp.complexity
    (CSharp.visit Samples.tryCatchText [] (Samples.tryCatchBody 0) CSharp.newAnalyzer) = 5 /\
  List.length
    (CSharp.details
       (CSharp.visit Samples.tryCatchText [] (Samples.tryCatchBody 0) CSharp.newAnalyzer))
  = 3%nat /\
  map (fun d => (Metrics.reason d, Metrics.increment d, Metrics.nesting d))
      (CSharp.details
         (CSharp.visit Samples.tryCatchText [] (Samples.tryCatchBody 0) CSharp.newAnalyzer)) =
  [ ("try statement", 1, 0); ("catch clause", 2, 1); ("catch clause", 2, 1) ].
Proof.
  assert (H : Forall (CSharp.inert Samples.tryCatchText) Samples.tryCatchParts)
    by (repeat constructor; intros ctx st; reflexivity).
  split; [exact H|].
  cbv [Samples.tryCatchBody Samples.tryStatement Samples.catchClause Samples.nd
       Samples.tk].
  apply cs_try_two_catches_scores_five. exact H.
Defined.

(** The analysis of the method [void M(){try{}catch(T e){}catch(U e){}}]
    returns a result, of complexity 5 and with three details. *)
Example cs_try_two_catches_method :
  option_map (fun f => (Metrics.complexity f, List.length (Metrics.details f)))
    (fst (CSharp.analyzeFunction Samples.tryCatchText [] (Samples.tryCatchMethod 0)
                                 CSharp.newAnalyzer)) = Some (5, 3%nat).
Proof. reflexivity. Qed.

(** The same method through the factory, inside [class C{...}]. *)
Example cs_try_two_catches_file :
  Factory.analyzeFile (fun _ => Samples.tryCatchFile) (fun _ => Samples.goFile)
                      Samples.tryCatchFileText (Factory.Str "csharp") =
  Factory.Returns Samples.tryCatchReport.
Proof. reflexivity. Qed.

(** C4, amended. A switch expression of C# has base weight 1 and is not
    nesting-increasing: the walk records it and recurses into its children
    with the nesting counter as it is, so that what is recorded for a child
    is recorded at the level of the switch expression itself. *)
Theorem cs_switch_expression_keeps_nesting :
  forall (src : string) (ctx : Path) (node : SyntaxNode) (st : CSharp.State),
    hasType node "switch_expression" = true ->
    CSharp.getComplexityIncrement src ctx (CSharp.nesting st) node = 1 /\
    CSharp.increasesNesting node = false /\
    CSharp.visit src ctx node st =
    forEachFrom
      (fun i child s =>
         if negb (CSharp.isFunctionDeclaration child)
         then CSharp.visit src ((node, i) :: ctx) child s else s)
      0%nat (children node) (CSharp.record src ctx node st) /\
    (forall i child,
        nth_error (children node) i = Some child ->
        CSharp.isFunctionDeclaration child = false ->
        incl (flat_map (CSharp.spec_detail src)
                (CSharp.spec_visits ((node, i) :: ctx) child (CSharp.nesting st)))
             (CSharp.details (CSharp.visit src ctx node st))).
Proof.
  intros src ctx node st H.
  unfold hasType in H. apply String.eqb_eq in H.
  assert (Hw : forall k, CSharp.getComplexityIncrement src ctx k node = 1)
    by (intros k; unfold CSharp.getComplexityIncrement, isOneOf; now rewrite H).
  assert (Hn : CSharp.increasesNesting node = false)
    by (unfold CSharp.increasesNesting, hasType; now rewrite H).
  split; [apply Hw|]. split; [exact Hn|]. split.
  - rewrite CSharpFacts.cs_visit_unfold. cbn zeta. now rewrite Hn.
  - intros i child Hc Hf.
    rewrite CSharpFacts.cs_visit_refines,
      (CSharpFacts.cs_spec_visits_children ctx node), Hn.
    cbn zeta. unfold CSharp.extend; simpl CSharp.details.
    apply incl_appr. simpl flat_map. apply incl_appr.
    intros d Hd. apply in_flat_map in Hd as (v & Hv & Hd).
    apply in_flat_map. exists v. split; [|exact Hd].
    pose proof (TreeFacts.forEachFrom_children_incl
                  (fun i child =>
                     if negb (CSharp.isFunctionDeclaration child)
                     then CSharp.spec_visits ((node, i) :: ctx) child (CSharp.nesting st)
                     else []) (children node) i child Hc) as Hi.
    cbv beta in Hi. rewrite Hf in Hi. simpl negb in Hi. cbv iota in Hi.
    apply Hi, Hv.
Qed.

(** The theorem at the switch expression of
    [{return v switch{1=>a?b:c,_=>d};}]: the ternary inside its first arm
    is recorded at nesting level 0. *)
Lemma cs_switch_expression_witness :
  hasType Samples.switchExpression "switch_expression" = true /\
  CSharp.visit Samples.switchText [] Samples.switchExpression CSharp.newAnalyzer =
  CSharp.extend CSharp.newAnalyzer
    [ Metrics.mkDetail 1 "switch expression" 0 8 0;
      Metrics.mkDetail 1 "ternary operator" 0 20 0 ].
Proof.
  split; [reflexivity|].
  destruct (cs_switch_expression_keeps_nesting
              Samples.switchText [] Samples.switchExpression CSharp.newAnalyzer
              eq_refl) as (_ & _ & E & _).
  rewrite E. reflexivity.
Defined.

(** C4 as stated fails: in [{return v switch{1=>a?b:c,_=>d};}] the ternary
    inside the switch expression is recorded at the nesting level of the
    switch expression, 0, and not one level higher. *)
Lemma cs_switch_expression_counterexample :
  exists outer inner,
    CSharp.details
      (CSharp.visit Samples.switchText [] Samples.switchBody CSharp.newAnalyzer) =
    [outer; inner] /\
    Metrics.reason outer = "switch expression" /\
    Metrics.reason inner = "ternary operator" /\
    Metrics.nesting inner <> Metrics.nesting outer + 1.
Proof.
  do 2 eexists. split; [reflexivity|]. repeat split. discriminate.
Qed.

(** A switch statement, by contrast with a switch expression, increases
    the nesting. *)
Example cs_switch_statement_increases_nesting :
  forall (i j : nat) (p q : Point) (cs : list SyntaxNode),
    CSharp.increasesNesting (Node "switch_statement" i j p q cs) = true /\
    CSharp.increasesNesting (Node "switch_expression" i j p q cs) = false.
Proof. intros i j p q cs. split; reflexivity. Qed.

(** C5 holds of the walk and of the reports, and fails for the weights that
    are read off the text of a node. In both languages the walk of a body
    gives the same result on the body in which every nested function
    declaration is emptied, and so does the analysis of a declaration; every
    function declaration of the tree for which a body is found, a nested one
    included, is reported with the complexity and the details of the walk of
    its own body from a fresh state. But the weight of a C# declaration in a
    preprocessor block counts the operators of its text, and this text
    includes the local functions inside the declaration: in
    [Samples.hostFile] the only operator stands in the local function [L],
    and it is counted in the enclosing method [M] as well as in [L]; with
    [==] in its place, in the same tree and in the same text outside [L],
    the method [M] has complexity 0. *)
Theorem nested_declarations_not_walked :
  (forall src ctx body st,
      CSharp.visit src ctx body st = CSharp.visit src ctx (CSharp.prune body) st) /\
  (forall src body st,
      Go.visit src body st = Go.visit src (Go.prune body) st) /\
  (forall src ctx node st,
      CSharp.analyzeFunction src ctx node st =
      CSharp.analyzeFunction src ctx (CSharp.prune node) st) /\
  (forall src node st,
      Go.analyzeFunction src node st = Go.analyzeFunction src (Go.prune node) st) /\
  (forall parse src ctx node bodyCtx body,
      In (ctx, node) (preorder [] (parse src)) ->
      CSharp.isFunctionDeclaration node = true ->
      CSharp.getFunctionBody ctx node = Some (bodyCtx, body) ->
      In {| Metrics.name := CSharp.getFunctionName src ctx node;
            Metrics.complexity :=
              CSharp.complexity (CSharp.visit src bodyCtx body CSharp.newAnalyzer);
            Metrics.details :=
              CSharp.details (CSharp.visit src bodyCtx body CSharp.newAnalyzer);
            Metrics.startLine := Z.of_nat (row (startPosition node));
            Metrics.endLine := Z.of_nat (row (endPosition node));
            Metrics.startColumn := Z.of_nat (column (startPosition node));
            Metrics.endColumn := Z.of_nat (column (endPosition node)) |}
         (CSharp.analyzeFile parse src)) /\
  (forall parse src node body,
      In node (map snd (preorder [] (parse src))) ->
      Go.isFunctionDeclaration node = true ->
      Go.getFunctionBody node = Some body ->
      In {| Metrics.name := Go.getFunctionName src node;
            Metrics.complexity := Go.complexity (Go.visit src body Go.newAnalyzer);
            Metrics.details := Go.details (Go.visit src body Go.newAnalyzer);
            Metrics.startLine := Z.of_nat (row (startPosition node));
            Metrics.endLine := Z.of_nat (row (endPosition node));
            Metrics.startColumn := Z.of_nat (column (startPosition node));
            Metrics.endColumn := Z.of_nat (column (endPosition node)) |}
         (Go.analyzeFile parse src)) /\
  (forall ctx node i child,
      nth_error (children node) i = Some child ->
      incl (preorder ((node, i) :: ctx) child) (preorder ctx node)) /\
  (CSharp.prune (Samples.hostBody "&&") = CSharp.prune (Samples.hostBody "==") /\
   Js.substring (Samples.hostText "&&") 0 (startIndex (Samples.hostLocal "&&")) =
   Js.substring (Samples.hostText "==") 0 (startIndex (Samples.hostLocal "==")) /\
   Js.substring (Samples.hostText "&&") (endIndex (Samples.hostLocal "&&"))
                (String.length (Samples.hostText "&&")) =
   Js.substring (Samples.hostText "==") (endIndex (Samples.hostLocal "=="))
                (String.length (Samples.hostText "==")) /\
   map (fun f => (Metrics.name f, Metrics.complexity f,
                  map Metrics.reason (Metrics.details f)))
       (CSharp.analyzeFile (fun _ => Samples.hostFile "&&") (Samples.hostText "&&")) =
   [ ("M", 1, ["logical operator (in preprocessor block)"]);
     ("L", 1, ["binary && operator"]) ] /\
   map (fun f => (Metrics.name f, Metrics.complexity f,
                  map Metrics.reason (Metrics.details f)))
       (CSharp.analyzeFile (fun _ => Samples.hostFile "==") (Samples.hostText "==")) =
   [ ("M", 0, []); ("L", 0, []) ]).
Proof.
  repeat apply conj.
  - intros src ctx body st.
    apply CSharpFacts.cs_visit_prune_sim, TreeFacts.sim_path_refl.
  - intros src body st. apply GoFacts.go_visit_prune.
  - intros src ctx node st. symmetry. apply CSharpFacts.cs_analyzeFunction_prune.
  - intros src node st. symmetry. apply GoFacts.go_analyzeFunction_prune.
  - intros parse src ctx node bodyCtx body Hin Hd Hb.
    rewrite CSharpFacts.cs_analyzeFile_spec. apply in_flat_map.
    exists (ctx, node). split; [exact Hin|].
    unfold CSharp.report, CSharp.analyzeFunction. cbn [fst snd].
    rewrite Hd, Hb. left. reflexivity.
  - intros parse src node body Hin Hd Hb.
    rewrite GoFacts.go_analyzeFile_spec. apply in_flat_map.
    exists node. split; [exact Hin|].
    unfold Go.report, Go.analyzeFunction.
    rewrite Hd, Hb. left. reflexivity.
  - intros ctx node i child. apply TreeFacts.preorder_child.
  - reflexivity.
  - reflexivity.
  - reflexivity.
  - reflexivity.
  - reflexivity.
Qed.

(** The theorem at [void Outer(){if(c){L();}void L(){for(;;){}}}]: the walk
    of the body of [Outer] does not depend on what is inside [L], and [L],
    a node of the file's pre-order, is reported on its own with its loop. *)
Lemma nested_declarations_witness :
  CSharp.visit Samples.nestedText [ (Samples.outerMethod, 3%nat); (Samples.nestedFile, 0%nat) ]
               Samples.outerBody CSharp.newAnalyzer =
  CSharp.visit Samples.nestedText [ (Samples.outerMethod, 3%nat); (Samples.nestedFile, 0%nat) ]
               (CSharp.prune Samples.outerBody) CSharp.newAnalyzer /\
  In {| Metrics.name := "L";
        Metrics.complexity := 1;
        Metrics.details := [ Metrics.mkDetail 1 "for loop" 0 33 0 ];
        Metrics.startLine := 0;
        Metrics.endLine := 0;
        Metrics.startColumn := 24;
        Metrics.endColumn := 43 |}
     (CSharp.analyzeFile (fun _ => Samples.nestedFile) Samples.nestedText).
Proof.
  destruct nested_declarations_not_walked as (P & _ & _ & _ & R & _ & I & _).
  split; [apply P|].
  refine (R (fun _ => Samples.nestedFile) Samples.nestedText
            [ (Samples.outerBody, 2%nat); (Samples.outerMethod, 3%nat);
              (Samples.nestedFile, 0%nat) ]
            Samples.localFunction _ _ _ eq_refl eq_refl).
  apply (I [] Samples.nestedFile 0%nat Samples.outerMethod eq_refl).
  apply (I _ Samples.outerMethod 3%nat Samples.outerBody eq_refl).
  apply (I _ Samples.outerBody 2%nat Samples.localFunction eq_refl).
  left. reflexivity.
Defined.

(** The method [void Outer(){if(c){L();}void L(){for(;;){}}}]: the loop of
    the local function is not counted in [Outer], and [L] is reported on
    its own. *)
Example cs_local_function_reported :
  map (fun f => (Metrics.name f, Metrics.complexity f,
                 map Metrics.reason (Metrics.details f)))
      (CSharp.analyzeFile (fun _ => Samples.nestedFile) Samples.nestedText) =
  [ ("Outer", 1, ["if statement"]); ("L", 1, ["for loop"]) ].
Proof. reflexivity. Qed.

(** C6. Each wrapper of the factory returns, function by function and
    detail by detail, the result of its analyzer with the line and the column
    of every detail one higher and everything else unchanged; this holds of
    the mapped function on every list. *)
Theorem normalizer_shifts_detail_positions_only :
  forall (parseCSharp parseGo : string -> SyntaxNode) (src : string),
    Forall2 Factory.function_normalized
            (CSharp.analyzeFile parseCSharp src)
            (Factory.createCSharpAnalyzer parseCSharp src) /\
    Forall2 Factory.function_normalized
            (Go.analyzeFile parseGo src)
            (Factory.createGoAnalyzer parseGo src) /\
    Factory.createCSharpAnalyzer parseCSharp src =
    map Factory.normalize (CSharp.analyzeFile parseCSharp src) /\
    Factory.createGoAnalyzer parseGo src =
    map Factory.normalize (Go.analyzeFile parseGo src) /\
    (forall fs, Forall2 Factory.function_normalized fs (map Factory.normalize fs)).
Proof.
  intros pc pg src. repeat apply conj.
  - rewrite FactoryFacts.createCSharpAnalyzer_map. apply FactoryFacts.map_normalize_shifts.
  - rewrite FactoryFacts.createGoAnalyzer_map. apply FactoryFacts.map_normalize_shifts.
  - reflexivity.
  - reflexivity.
  - apply FactoryFacts.map_normalize_shifts.
Qed.

(** C7 fails on the code: [languageAnalyzers] is an object literal, so that
    a language identifier that names a property of [Object.prototype] finds
    a value that is truthy. For [toString], which is no supported language,
    the call returns a string and not the empty array; for [valueOf] and
    [__proto__] the call throws. *)
Theorem analyzeFile_inherited_names_escape :
  forall (parseCSharp parseGo : string -> SyntaxNode) (src : string),
    ~ In "toString" (Factory.getSupportedLanguages parseCSharp parseGo) /\
    Factory.analyzeFile parseCSharp parseGo src (Factory.Str "toString") =
    Factory.ReturnsValue (Factory.VString "[object Undefined]") /\
    Factory.analyzeFile parseCSharp parseGo src (Factory.Str "valueOf") =
    Factory.ThrowsTypeError /\
    Factory.analyzeFile parseCSharp parseGo src (Factory.Str "__proto__") =
    Factory.ThrowsTypeError.
Proof.
  intros pc pg src. repeat apply conj; try reflexivity.
  simpl. intros [H|[H|[]]]; discriminate.
Qed.

(** The identifiers for which C7 does hold: the empty string, [null],
    [undefined] and every name that is neither a supported language nor a
    property of [Object.prototype]. *)
Lemma analyzeFile_unsupported_examples
      (parseCSharp parseGo : string -> SyntaxNode) (src : string) :
  Factory.analyzeFile parseCSharp parseGo src (Factory.Str EmptyString) = Factory.Returns [] /\
  Factory.analyzeFile parseCSharp parseGo src Factory.Null = Factory.Returns [] /\
  Factory.analyzeFile parseCSharp parseGo src Factory.Undefined = Factory.Returns [] /\
  Factory.analyzeFile parseCSharp parseGo src (Factory.Str "python") = Factory.Returns [].
Proof. repeat split. Qed.

(** C8. A declaration for which [getFunctionBody] finds no body yields no
    metrics: [analyzeFunction] returns [null] for it, it adds no report, and
    the traversal at this node collects only what the nodes below it add. *)
Theorem bodyless_declaration_omitted :
  forall (src : string) (ctx : Path) (node goNode : SyntaxNode)
         (st : CSharp.State) (goSt : Go.State),
    CSharp.getFunctionBody ctx node = None ->
    Go.getFunctionBody goNode = None ->
    (fst (CSharp.analyzeFunction src ctx node st) = None /\
     CSharp.report src (ctx, node) = [] /\
     forall acc,
       snd (CSharp.analyzeFunctions_visit src ctx node acc) =
       (snd acc ++ flat_map (CSharp.report src) (tl (preorder ctx node)))%list) /\
    (fst (Go.analyzeFunction src goNode goSt) = None /\
     Go.report src goNode = [] /\
     forall acc,
       snd (Go.analyzeFunctions_visit src goNode acc) =
       (snd acc ++ flat_map (Go.report src) (tl (map snd (preorder [] goNode))))%list).
Proof.
  intros src ctx node goNode st goSt Hcs Hgo.
  assert (R1 : CSharp.report src (ctx, node) = []).
  { unfold CSharp.report. destruct (CSharp.isFunctionDeclaration _); [|reflexivity].
    simpl fst; simpl snd.
    now rewrite CSharpFacts.cs_analyzeFunction_unfold, Hcs. }
  assert (R2 : Go.report src goNode = []).
  { unfold Go.report. destruct (Go.isFunctionDeclaration _); [|reflexivity].
    now rewrite GoFacts.go_analyzeFunction_unfold, Hgo. }
  split; (split; [|split]).
  - now rewrite CSharpFacts.cs_analyzeFunction_unfold, Hcs.
  - exact R1.
  - intros acc. rewrite CSharpFacts.cs_visit_collects.
    destruct node; simpl preorder. simpl flat_map. simpl tl.
    now rewrite R1.
  - now rewrite GoFacts.go_analyzeFunction_unfold, Hgo.
  - exact R2.
  - intros acc. rewrite (GoFacts.go_visit_collects src goNode []).
    unfold Go.nodes. destruct goNode; simpl preorder. simpl map.
    simpl flat_map. simpl tl. now rewrite R2.
Qed.

(** The theorem at the method of [interface I{void F();}] and at the Go
    declaration [func F()]: neither is reported. *)
Lemma bodyless_declaration_witness :
  CSharp.getFunctionBody Samples.interfaceMethodPath Samples.interfaceMethod = None /\
  Go.getFunctionBody Samples.goExternal = None /\
  CSharp.report Samples.interfaceText
                (Samples.interfaceMethodPath, Samples.interfaceMethod) = [] /\
  Go.report "func F()" Samples.goExternal = [] /\
  CSharp.analyzeFile (fun _ => Samples.interfaceFile) Samples.interfaceText = [].
Proof.
  destruct (bodyless_declaration_omitted
              Samples.interfaceText Samples.interfaceMethodPath
              Samples.interfaceMethod Samples.goExternal
              CSharp.newAnalyzer Go.newAnalyzer eq_refl eq_refl)
    as ((_ & R1 & _) & _).
  destruct (bodyless_declaration_omitted
              "func F()" Samples.interfaceMethodPath
              Samples.interfaceMethod Samples.goExternal
              CSharp.newAnalyzer Go.newAnalyzer eq_refl eq_refl)
    as (_ & (_ & R2 & _)).
  repeat split; assumption.
Defined.

(** C9. Whenever [analyzeFile] returns an array of functions, each function
    has a complexity equal to the sum of the increments of its details, and
    each detail has a positive increment, a non-empty reason, a nesting level
    of at least 0 and a line and a column of at least 1. *)
Theorem analyzeFile_results_invariant :
  forall (parseCSharp parseGo : string -> SyntaxNode) (src : string)
         (languageId : Factory.LanguageId) (fs : list Metrics.FunctionMetrics),
    Factory.analyzeFile parseCSharp parseGo src languageId = Factory.Returns fs ->
    Forall Factory.function_ok fs.
Proof.
  intros pc pg src languageId fs. unfold Factory.analyzeFile.
  destruct (FactoryFacts.getProperty_cases pc pg languageId)
    as [[_ ->]|[[_ ->]|[(_ & _ & _ & p & ->)|(_ & _ & _ & ->)]]].
  - intros H; injection H as <-. apply FactoryFacts.createCSharpAnalyzer_ok.
  - intros H; injection H as <-. apply FactoryFacts.createGoAnalyzer_ok.
  - destruct p; discriminate.
  - intros H; injection H as <-. constructor.
Qed.

(** The theorem at [class C{void M(){try{}catch(T e){}catch(U e){}}}]. *)
Lemma analyzeFile_results_witness :
  Factory.analyzeFile (fun _ => Samples.tryCatchFile) (fun _ => Samples.goFile)
                      Samples.tryCatchFileText (Factory.Str "csharp") =
  Factory.Returns Samples.tryCatchReport /\
  Forall Factory.function_ok Samples.tryCatchReport.
Proof.
  split; [reflexivity|].
  exact (analyzeFile_results_invariant
           (fun _ => Samples.tryCatchFile) (fun _ => Samples.goFile)
           Samples.tryCatchFileText (Factory.Str "csharp")
           Samples.tryCatchReport eq_refl).
Defined.

(** C10 holds of the list of supported languages and of the dispatch to the
    two analyzers, and of every other identifier that names no property of
    [Object.prototype]; it fails at the names that do: for [constructor] the
    call returns a String object and not the empty array. *)
Theorem supported_languages_and_dispatch :
  forall (parseCSharp parseGo : string -> SyntaxNode) (src : string),
    Factory.getSupportedLanguages parseCSharp parseGo = ["csharp"; "go"] /\
    Factory.analyzeFile parseCSharp parseGo src (Factory.Str "csharp") =
    Factory.Returns (Factory.createCSharpAnalyzer parseCSharp src) /\
    Factory.analyzeFile parseCSharp parseGo src (Factory.Str "go") =
    Factory.Returns (Factory.createGoAnalyzer parseGo src) /\
    (forall languageId,
        ~ In (Factory.toPropertyKey languageId)
             (Factory.getSupportedLanguages parseCSharp parseGo) ->
        Factory.inheritedName (Factory.toPropertyKey languageId) = false ->
        Factory.analyzeFile parseCSharp parseGo src languageId = Factory.Returns []) /\
    ~ In "constructor" (Factory.getSupportedLanguages parseCSharp parseGo) /\
    Factory.analyzeFile parseCSharp parseGo src (Factory.Str "constructor") =
    Factory.ReturnsValue (Factory.VStringObject src).
Proof.
  intros pc pg src. repeat apply conj; try reflexivity.
  - intros languageId Hn Hi. apply FactoryFacts.analyzeFile_unknown; [| |exact Hi].
    + intros E. apply Hn. rewrite E. simpl. auto.
    + intros E. apply Hn. rewrite E. simpl. auto.
  - simpl. intros [H|[H|[]]]; discriminate.
Qed.

(** The theorem at the identifier [python]. *)
Lemma supported_languages_witness :
  Factory.getSupportedLanguages (fun _ => Samples.tryCatchFile) (fun _ => Samples.goFile) =
  ["csharp"; "go"] /\
  Factory.analyzeFile (fun _ => Samples.tryCatchFile) (fun _ => Samples.goFile)
                      "def f(): pass" (Factory.Str "python") = Factory.Returns [].
Proof.
  destruct (supported_languages_and_dispatch
              (fun _ => Samples.tryCatchFile) (fun _ => Samples.goFile) "def f(): pass")
    as (L & _ & _ & U & _).
  split; [exact L|].
  apply (U (Factory.Str "python")); [|reflexivity].
  simpl. intros [H|[H|[]]]; discriminate.
Defined.

(* ===================================================================== *)
(** ** Lemmas for the further properties                                 *)
(* ===================================================================== *)

Module WalkFacts.
Import TreeFacts.

(** What a loop appends is what it appends for one of the children. *)
Lemma forEachFrom_In {A : Type} (f : nat -> SyntaxNode -> list A)
      (cs : list SyntaxNode) (x : A) :
  forall i,
    In x (forEachFrom (fun i c a => (a ++ f i c)%list) i cs []) <->
    exists n c, nth_error cs n = Some c /\ In x (f (i + n)%nat c).
Proof.
  induction cs as [|c0 cs IH]; intros i; simpl.
  - split; [intros [] | intros (n & c & H & _); destruct n; discriminate].
  - rewrite forEachFrom_acc, in_app_iff, IH. split.
    + intros [H|(n & c & Hn & Hx)].
      * exists 0%nat, c0. rewrite Nat.add_0_r. auto.
      * exists (S n), c. replace (i + S n)%nat with (S i + n)%nat by lia. auto.
    + intros ([|n] & c & Hn & Hx); simpl in Hn.
      * injection Hn as <-. rewrite Nat.add_0_r in Hx. auto.
      * right. exists n, c. replace (S i + n)%nat with (i + S n)%nat by lia. auto.
Qed.

Lemma cs_enclosing_snoc (frames : Path) (p : SyntaxNode) (i : nat) :
  CSharp.enclosing (frames ++ [(p, i)])%list =
  (CSharp.enclosing frames + if CSharp.increasesNesting p then 1 else 0)%nat.
Proof.
  unfold CSharp.enclosing. rewrite filter_app, length_app. simpl.
  destruct (CSharp.increasesNesting p); reflexivity.
Qed.

Lemma cs_walkable_snoc (root child : SyntaxNode) (i : nat) (frames : Path)
      (node : SyntaxNode) :
  nth_error (children root) i = Some child ->
  CSharp.isFunctionDeclaration child = false ->
  CSharp.walkable child frames node ->
  CSharp.walkable root (frames ++ [(root, i)])%list node.
Proof.
  intros Hc Hf. revert node.
  induction frames as [|[p j] frames IH]; intros node; simpl.
  - intros ->. auto.
  - intros (Hn & Hd & Hw). auto.
Qed.

Lemma cs_walkable_snoc_inv (root : SyntaxNode) (frames : Path) (node : SyntaxNode) :
  CSharp.walkable root frames node ->
  frames = [] /\ node = root \/
  exists frames' i child,
    frames = (frames' ++ [(root, i)])%list /\
    nth_error (children root) i = Some child /\
    CSharp.isFunctionDeclaration child = false /\
    CSharp.walkable child frames' node.
Proof.
  revert node. induction frames as [|[p j] frames IH]; intros node; simpl.
  - intros ->. now left.
  - intros (Hn & Hd & Hw). right.
    destruct (IH p Hw) as [[-> ->]|(frames' & i & child & -> & Hc & Hf & Hw')].
    + exists [], j, node. simpl. repeat split; auto.
    + exists ((p, j) :: frames'), i, child. simpl. repeat split; auto.
Qed.

(** The visits of the C# walk are the nodes that a path of the tree
    reaches without entering a function declaration, each at the level at
    which the walk starts plus the number of nesting-increasing nodes on
    the path. *)
Lemma cs_spec_visits_paths (body : SyntaxNode) :
  forall ctx k c n k',
    In (c, n, k') (CSharp.spec_visits ctx body k) <->
    exists frames,
      c = (frames ++ ctx)%list /\
      CSharp.walkable body frames n /\
      k' = k + Z.of_nat (CSharp.enclosing frames).
Proof.
  induction body as [t i j p q cs IH] using SyntaxNode_forall_ind.
  intros ctx k c n k'.
  set (body := Node t i j p q cs) in *.
  rewrite CSharpFacts.cs_spec_visits_children. cbn zeta.
  change (children body) with cs.
  set (inner := if CSharp.increasesNesting body then k + 1 else k).
  simpl In. rewrite forEachFrom_In. split.
  - intros [E|(m & child & Hm & Hx)].
    + injection E as <- <- <-. exists []. simpl. split; [reflexivity|].
      split; [reflexivity|lia].
    + simpl in Hx.
      destruct (CSharp.isFunctionDeclaration child) eqn:Hf; simpl in Hx; [contradiction|].
      pose proof (proj1 (Forall_forall _ _) IH child (nth_error_In _ _ Hm)) as IHc.
      apply IHc in Hx as (frames & -> & Hw & ->).
      exists (frames ++ [(body, m)])%list. split; [now rewrite <- app_assoc|].
      split; [now apply (cs_walkable_snoc body child m)|].
      rewrite cs_enclosing_snoc. subst inner.
      destruct (CSharp.increasesNesting body); lia.
  - intros (frames & -> & Hw & ->).
    apply cs_walkable_snoc_inv in Hw
      as [[-> ->]|(frames' & m & child & -> & Hm & Hf & Hw)].
    + left. simpl. f_equal. lia.
    + right. exists m, child. split; [exact Hm|]. simpl.
      rewrite Hf. simpl.
      pose proof (proj1 (Forall_forall _ _) IH child (nth_error_In _ _ Hm)) as IHc.
      apply IHc. exists frames'. split; [now rewrite <- app_assoc|].
      split; [exact Hw|].
      rewrite cs_enclosing_snoc. subst inner.
      destruct (CSharp.increasesNesting body); lia.
Qed.

End WalkFacts.

Module GoWalkFacts.
Import TreeFacts WalkFacts.

Lemma go_enclosing_snoc (frames : Path) (p : SyntaxNode) (i : nat) :
  Go.enclosing (frames ++ [(p, i)])%list =
  (Go.enclosing frames + if Go.increasesNesting p then 1 else 0)%nat.
Proof.
  unfold Go.enclosing. rewrite filter_app, length_app. simpl.
  destruct (Go.increasesNesting p); reflexivity.
Qed.

Lemma go_walkable_snoc (root child : SyntaxNode) (i : nat) (frames : Path)
      (node : SyntaxNode) :
  nth_error (children root) i = Some child ->
  Go.isFunctionDeclaration child = false ->
  Go.walkable child frames node ->
  Go.walkable root (frames ++ [(root, i)])%list node.
Proof.
  intros Hc Hf. revert node.
  induction frames as [|[p j] frames IH]; intros node; simpl.
  - intros ->. auto.
  - intros (Hn & Hd & Hw). auto.
Qed.

Lemma go_walkable_snoc_inv (root : SyntaxNode) (frames : Path) (node : SyntaxNode) :
  Go.walkable root frames node ->
  frames = [] /\ node = root \/
  exists frames' i child,
    frames = (frames' ++ [(root, i)])%list /\
    nth_error (children root) i = Some child /\
    Go.isFunctionDeclaration child = false /\
    Go.walkable child frames' node.
Proof.
  revert node. induction frames as [|[p j] frames IH]; intros node; simpl.
  - intros ->. now left.
  - intros (Hn & Hd & Hw). right.
    destruct (IH p Hw) as [[-> ->]|(frames' & i & child & -> & Hc & Hf & Hw')].
    + exists [], j, node. simpl. repeat split; auto.
    + exists ((p, j) :: frames'), i, child. simpl. repeat split; auto.
Qed.

(** The visits of the Go walk are the nodes that a path of the tree
    reaches without entering a function declaration, each at the level at
    which the walk starts plus the number of nesting-increasing nodes on
    the path. *)
Lemma go_spec_visits_paths (body : SyntaxNode) :
  forall k n k',
    In (n, k') (Go.spec_visits body k) <->
    exists frames,
      Go.walkable body frames n /\
      k' = k + Z.of_nat (Go.enclosing frames).
Proof.
  induction body as [t i j p q cs IH] using SyntaxNode_forall_ind.
  intros k n k'.
  set (body := Node t i j p q cs) in *.
  rewrite GoFacts.go_spec_visits_unfold.
  change (children body) with cs.
  set (inner := if Go.increasesNesting body then k + 1 else k).
  simpl In.
  rewrite (forEachFrom_In
             (fun (_ : nat) child =>
                if negb (Go.isFunctionDeclaration child)
                then Go.spec_visits child inner else [])).
  split.
  - intros [E|(m & child & Hm & Hx)].
    + injection E as <- <-. exists []. simpl. split; [reflexivity|lia].
    + destruct (Go.isFunctionDeclaration child) eqn:Hf; simpl in Hx; [contradiction|].
      pose proof (proj1 (Forall_forall _ _) IH child (nth_error_In _ _ Hm)) as IHc.
      apply IHc in Hx as (frames & Hw & ->).
      exists (frames ++ [(body, m)])%list.
      split; [now apply (go_walkable_snoc body child m)|].
      rewrite go_enclosing_snoc. subst inner.
      destruct (Go.increasesNesting body); lia.
  - intros (frames & Hw & ->).
    apply go_walkable_snoc_inv in Hw
      as [[-> ->]|(frames' & m & child & -> & Hm & Hf & Hw)].
    + left. simpl. f_equal. lia.
    + right. exists m, child. split; [exact Hm|].
      rewrite Hf. simpl.
      pose proof (proj1 (Forall_forall _ _) IH child (nth_error_In _ _ Hm)) as IHc.
      apply IHc. exists frames'.
      split; [exact Hw|].
      rewrite go_enclosing_snoc. subst inner.
      destruct (Go.increasesNesting body); lia.
Qed.

End GoWalkFacts.

Module CountFacts.

(** Details of increment 1 sum to their number. *)
Lemma total_ones (ds : list Metrics.Detail) :
  Forall (fun d => Metrics.increment d = 1) ds ->
  Metrics.total ds = Z.of_nat (List.length ds).
Proof.
  induction 1 as [|d ds Hd _ IH]; [reflexivity|].
  simpl Metrics.total. simpl List.length. rewrite Hd, IH. lia.
Qed.

(** Details of increment at least 1 sum to at least their number. *)
Lemma total_at_least (ds : list Metrics.Detail) :
  Forall (fun d => 1 <= Metrics.increment d) ds ->
  Z.of_nat (List.length ds) <= Metrics.total ds.
Proof.
  induction 1 as [|d ds Hd _ IH]; [reflexivity|].
  simpl Metrics.total. simpl List.length. lia.
Qed.

Lemma go_spec_details_ones (src : string) (vs : list Go.Visit) :
  Forall (fun d => Metrics.increment d = 1) (flat_map (Go.spec_detail src) vs).
Proof.
  apply Forall_flat_map, Forall_forall. intros [n k] _.
  apply Forall_forall. intros d Hd.
  apply GoFacts.go_spec_detail_inv in Hd as (Hp & Hi & _).
  destruct (GoFacts.go_rule_table_weight src k n); lia.
Qed.

End CountFacts.

Module ResultFacts.
Import Factory.

(** Where a function of the C# results comes from. *)
Lemma cs_result_origin (parse : string -> SyntaxNode) (src : string)
      (f : Metrics.FunctionMetrics) :
  In f (createCSharpAnalyzer parse src) ->
  exists ctx node bodyCtx body,
    In (ctx, node) (preorder [] (parse src)) /\
    CSharp.isFunctionDeclaration node = true /\
    CSharp.getFunctionBody ctx node = Some (bodyCtx, body) /\
    let news := flat_map (CSharp.spec_detail src) (CSharp.spec_visits bodyCtx body 0) in
    f = normalize
          {| Metrics.name := CSharp.getFunctionName src ctx node;
             Metrics.complexity := Metrics.total news;
             Metrics.details := news;
             Metrics.startLine := Z.of_nat (row (startPosition node));
             Metrics.endLine := Z.of_nat (row (endPosition node));
             Metrics.startColumn := Z.of_nat (column (startPosition node));
             Metrics.endColumn := Z.of_nat (column (endPosition node)) |}.
Proof.
  rewrite FactoryFacts.createCSharpAnalyzer_map, CSharpFacts.cs_analyzeFile_spec.
  intros H. apply in_map_iff in H as (f0 & <- & H).
  apply in_flat_map in H as ([ctx node] & Hloc & H).
  unfold CSharp.report in H. simpl fst in H; simpl snd in H.
  destruct (CSharp.isFunctionDeclaration node) eqn:Hd; [|contradiction].
  rewrite CSharpFacts.cs_analyzeFunction_unfold in H.
  destruct (CSharp.getFunctionBody ctx node) as [[bodyCtx body]|] eqn:Hb; [|contradiction].
  destruct H as [<-|[]].
  exists ctx, node, bodyCtx, body. auto.
Qed.

(** Where a detail of the C# results comes from. *)
Lemma cs_result_detail (parse : string -> SyntaxNode) (src : string)
      (f : Metrics.FunctionMetrics) (d : Metrics.Detail) :
  In f (createCSharpAnalyzer parse src) ->
  In d (Metrics.details f) ->
  exists c n k,
    0 <= k /\
    0 < CSharp.getComplexityIncrement src c k n /\
    Metrics.increment d = CSharp.getComplexityIncrement src c k n + k /\
    Metrics.reason d = CSharp.getComplexityReason src c n /\
    Metrics.nesting d = k.
Proof.
  intros Hf Hd.
  apply cs_result_origin in Hf as (ctx & node & bodyCtx & body & _ & _ & _ & ->).
  cbn zeta in Hd. simpl in Hd.
  apply in_map_iff in Hd as (d0 & <- & Hd). simpl.
  apply in_flat_map in Hd as ([[c n] k] & Hv & Hd).
  pose proof (CSharpFacts.cs_spec_visits_level body bodyCtx 0) as Hl.
  rewrite Forall_forall in Hl. apply Hl in Hv. unfold CSharp.level in Hv; simpl in Hv.
  apply CSharpFacts.cs_spec_detail_inv in Hd as (Hp & Hi & Hr & _ & _ & Hn).
  exists c, n, k. auto.
Qed.

(** Where a function of the Go results comes from. *)
Lemma go_result_origin (parse : string -> SyntaxNode) (src : string)
      (f : Metrics.FunctionMetrics) :
  In f (createGoAnalyzer parse src) ->
  exists node body,
    In node (map snd (preorder [] (parse src))) /\
    Go.isFunctionDeclaration node = true /\
    Go.getFunctionBody node = Some body /\
    let news := flat_map (Go.spec_detail src) (Go.spec_visits body 0) in
    f = normalize
          {| Metrics.name := Go.getFunctionName src node;
             Metrics.complexity := Metrics.total news;
             Metrics.details := news;
             Metrics.startLine := Z.of_nat (row (startPosition node));
             Metrics.endLine := Z.of_nat (row (endPosition node));
             Metrics.startColumn := Z.of_nat (column (startPosition node));
             Metrics.endColumn := Z.of_nat (column (endPosition node)) |}.
Proof.
  rewrite FactoryFacts.createGoAnalyzer_map, GoFacts.go_analyzeFile_spec.
  intros H. apply in_map_iff in H as (f0 & <- & H).
  apply in_flat_map in H as (node & Hloc & H).
  unfold Go.report in H.
  destruct (Go.isFunctionDeclaration node) eqn:Hd; [|contradiction].
  rewrite GoFacts.go_analyzeFunction_unfold in H.
  destruct (Go.getFunctionBody node) as [body|] eqn:Hb; [|contradiction].
  destruct H as [<-|[]].
  exists node, body. auto.
Qed.

(** Where a detail of the Go results comes from. *)
Lemma go_result_detail (parse : string -> SyntaxNode) (src : string)
      (f : Metrics.FunctionMetrics) (d : Metrics.Detail) :
  In f (createGoAnalyzer parse src) ->
  In d (Metrics.details f) ->
  exists n k,
    0 <= k /\
    Go.getComplexityIncrement src k n = 1 /\
    Metrics.increment d = 1 /\
    Metrics.reason d = Go.getComplexityReason src n /\
    Metrics.nesting d = k.
Proof.
  intros Hf Hd.
  apply go_result_origin in Hf as (node & body & _ & _ & _ & ->).
  cbn zeta in Hd. simpl in Hd.
  apply in_map_iff in Hd as (d0 & <- & Hd). simpl.
  apply in_flat_map in Hd as ([n k] & Hv & Hd).
  pose proof (GoFacts.go_spec_visits_level body 0) as Hl.
  rewrite Forall_forall in Hl. apply Hl in Hv. unfold Go.level in Hv; simpl in Hv.
  apply GoFacts.go_spec_detail_inv in Hd as (Hp & Hi & Hr & _ & _ & Hn).
  exists n, k.
  destruct (GoFacts.go_rule_table_weight src k n) as [E|E]; [lia|].
  rewrite Hi, E. auto.
Qed.

End ResultFacts.

Module ReasonFacts.

Lemma matches_prefix_nullable (r : Js.regex) (s : string) :
  Js.nullable r = true -> Js.matches_prefix r s = true.
Proof. intros H. destruct s; simpl; now rewrite H. Qed.

Lemma logical_ops_tested_aux (s : string) :
  (Js.match_logical_ops s <> [] -> Js.test CSharp.re_logical s = true) /\
  (forall a, Js.match_logical_ops (String a s) <> [] ->
             Js.test CSharp.re_logical (String a s) = true).
Proof.
  induction s as [|b s [IH1 IH2]].
  - split; [intros H; now contradiction H|intros a H; now contradiction H].
  - split; [apply IH2|].
    intros a H.
    change (Js.match_logical_ops (String a (String b s)))
      with (if (Ascii.eqb a "&" && Ascii.eqb b "&")%bool
            then "&&" :: Js.match_logical_ops s
            else if (Ascii.eqb a "|" && Ascii.eqb b "|")%bool
                 then "||" :: Js.match_logical_ops s
                 else Js.match_logical_ops (String b s)) in H.
    change (Js.test CSharp.re_logical (String a (String b s)))
      with (Js.matches_prefix CSharp.re_logical (String a (String b s)) ||
            Js.test CSharp.re_logical (String b s)).
    destruct (Ascii.eqb a "&") eqn:Ea; simpl andb in H; cbv iota in H.
    + destruct (Ascii.eqb b "&") eqn:Eb; cbv iota in H.
      * apply Ascii.eqb_eq in Ea, Eb. subst. apply orb_true_iff; left. simpl.
        apply matches_prefix_nullable. reflexivity.
      * apply Ascii.eqb_eq in Ea. subst a. simpl in H.
        apply IH2 in H. rewrite H. apply orb_true_r.
    + destruct (Ascii.eqb a "|") eqn:Ea'; simpl andb in H; cbv iota in H.
      * destruct (Ascii.eqb b "|") eqn:Eb; cbv iota in H.
        -- apply Ascii.eqb_eq in Ea', Eb. subst. apply orb_true_iff; left. simpl.
           apply matches_prefix_nullable. reflexivity.
        -- apply IH2 in H. rewrite H. apply orb_true_r.
      * apply IH2 in H. rewrite H. apply orb_true_r.
Qed.

(** Where the global match finds an operator, the test finds one. *)
Lemma logical_ops_tested (s : string) :
  Js.match_logical_ops s <> [] -> Js.test CSharp.re_logical s = true.
Proof. apply logical_ops_tested_aux. Qed.

Ltac in_list := simpl; repeat (first [left; reflexivity | right]).
Ltac not_in H := simpl in H; repeat (destruct H as [H|H]; [discriminate|]); contradiction.
Ltac listed := intros _; split; [in_list | let H := fresh in intros H; not_in H].

Lemma cs_error_reason (src : string) (ctx : Path) (n : SyntaxNode) :
  0 < CSharp.getComplexityFromErrorNode src ctx n ->
  In (CSharp.getComplexityReasonFromErrorNode src ctx n) CSharp.recordedReasons /\
  (In (CSharp.getComplexityReasonFromErrorNode src ctx n) CSharp.nestedReasons -> False).
Proof.
  unfold CSharp.getComplexityFromErrorNode, CSharp.getComplexityReasonFromErrorNode.
  cbn zeta.
  pose proof (logical_ops_tested (text src n)) as L.
  destruct (Js.test_wb CSharp.re_if (text src n)); [listed|].
  destruct (Js.test_wb CSharp.re_while (text src n)); [listed|].
  destruct (Js.test_wb CSharp.re_for (text src n)); [listed|].
  destruct (Js.test_wb CSharp.re_foreach (text src n)); [listed|].
  destruct (Js.test CSharp.re_logical (text src n)); [listed|].
  destruct (Js.match_logical_ops (text src n)) as [|o os];
    [|discriminate L; discriminate].
  destruct (Js.test CSharp.re_ternary (text src n) || _)%bool; [listed|].
  destruct (Js.test_wb CSharp.re_try (text src n)); [listed|].
  destruct (Js.test_wb CSharp.re_catch (text src n)); [listed|].
  simpl. lia.
Qed.

Lemma cs_declaration_reason (src : string) (ctx : Path) (n : SyntaxNode) :
  0 < CSharp.getComplexityFromMalformedDeclaration src ctx n ->
  In (CSharp.getComplexityReasonFromMalformedDeclaration src ctx n)
     CSharp.recordedReasons /\
  (In (CSharp.getComplexityReasonFromMalformedDeclaration src ctx n)
      CSharp.nestedReasons -> False).
Proof.
  unfold CSharp.getComplexityFromMalformedDeclaration,
    CSharp.getComplexityReasonFromMalformedDeclaration.
  cbn zeta.
  destruct (negb (CSharp.isInPreprocessorBlock ctx)); [lia|].
  pose proof (logical_ops_tested (text src n)) as L.
  destruct (Js.test CSharp.re_declared_ternary (text src n)); [listed|].
  destruct (Js.test CSharp.re_logical (text src n)); [listed|].
  destruct (Js.match_logical_ops (text src n)) as [|o os];
    [|discriminate L; discriminate].
  simpl. lia.
Qed.

Ltac kind n :=
  match goal with
  | |- context [String.eqb (type n) ?s] =>
      destruct (String.eqb (type n) s) eqn:?; cbn [orb andb negb]; cbv iota
  end.

(** A node of positive weight has a reason of the list, and a reason that
    says nested only at a positive level. *)
Lemma cs_recorded_reason (src : string) (ctx : Path) (k : Z) (n : SyntaxNode) :
  0 < CSharp.getComplexityIncrement src ctx k n ->
  In (CSharp.getComplexityReason src ctx n) CSharp.recordedReasons /\
  (In (CSharp.getComplexityReason src ctx n) CSharp.nestedReasons -> 0 < k).
Proof.
  unfold CSharp.getComplexityIncrement, CSharp.getComplexityReason, isOneOf, hasType.
  cbn [existsb].
  do 8 (kind n; [listed|]).
  kind n.
  { unfold CSharp.isLogical.
    destruct (CSharp.getBinaryOperator src n) as [op|]; [|lia].
    destruct (String.eqb_spec op "&&") as [->|_]; [listed|].
    destruct (String.eqb_spec op "||") as [->|_]; [listed|].
    simpl; lia. }
  kind n; [listed|].
  do 4 (kind n;
        [destruct (0 <? k) eqn:E; [|lia]; apply Z.ltb_lt in E;
         intros _; split; [in_list|intros _; exact E]|]).
  kind n; [listed|].
  kind n.
  { intros H. destruct (cs_error_reason src ctx n H) as [H1 H2].
    split; [exact H1|intros H3; now apply H2 in H3]. }
  kind n.
  { intros H. destruct (cs_declaration_reason src ctx n H) as [H1 H2].
    split; [exact H1|intros H3; now apply H2 in H3]. }
  kind n.
  { intros H. destruct (cs_declaration_reason src ctx n H) as [H1 H2].
    split; [exact H1|intros H3; now apply H2 in H3]. }
  lia.
Qed.

Lemma go_findOperator_logical (src : string) (cs : list SyntaxNode) (op : string) :
  Go.findOperator src cs = Some op -> op = "&&" \/ op = "||".
Proof.
  induction cs as [|c cs IH]; simpl; [discriminate|].
  destruct (String.eqb_spec (text src c) "&&") as [E|_]; simpl.
  - intros H; injection H as <-. now left.
  - destruct (String.eqb_spec (text src c) "||") as [E|_]; [|exact IH].
    intros H; injection H as <-. now right.
Qed.

Lemma go_recorded_reason (src : string) (k : Z) (n : SyntaxNode) :
  0 < Go.getComplexityIncrement src k n ->
  In (Go.getComplexityReason src n) Go.recordedReasons /\
  (In (Go.getComplexityReason src n) Go.nestedReasons -> 0 < k).
Proof.
  unfold Go.getComplexityIncrement, Go.getComplexityReason, isOneOf, hasType.
  cbn [existsb].
  do 5 (kind n; [listed|]).
  kind n.
  { unfold Go.isLogical, Go.getBinaryOperator.
    destruct (Go.findOperator src (children n)) as [op|] eqn:E; [|lia].
    apply go_findOperator_logical in E as [-> | ->]; listed. }
  kind n.
  { destruct (0 <? k) eqn:E; [|lia]. apply Z.ltb_lt in E.
    intros _; split; [in_list|intros _; exact E]. }
  kind n.
  { destruct (Go.hasLabel n); [listed|].
    destruct (0 <? k) eqn:E; [|lia]. apply Z.ltb_lt in E.
    intros _; split; [in_list|intros _; exact E]. }
  kind n.
  { destruct (Go.hasLabel n); [listed|].
    destruct (0 <? k) eqn:E; [|lia]. apply Z.ltb_lt in E.
    intros _; split; [in_list|intros _; exact E]. }
  kind n; [listed|].
  kind n.
  { destruct (Go.isRecoverCall src n); [listed|lia]. }
  lia.
Qed.

End ReasonFacts.

Module BodyFacts.

(** [find] returns the first child that satisfies the predicate. *)
Lemma findFrom_Some (p : SyntaxNode -> bool) (cs : list SyntaxNode) :
  forall i k c,
    findFrom p i cs = Some (k, c) <->
    exists n,
      k = (i + n)%nat /\
      nth_error cs n = Some c /\
      p c = true /\
      forall j c', (j < n)%nat -> nth_error cs j = Some c' -> p c' = false.
Proof.
  induction cs as [|c0 cs IH]; intros i k c; simpl.
  - split; [discriminate|]. intros (n & _ & H & _). destruct n; discriminate.
  - destruct (p c0) eqn:E.
    + split.
      * intros H; injection H as <- <-. exists 0%nat.
        split; [lia|]. split; [reflexivity|]. split; [exact E|].
        intros j c' Hj; lia.
      * intros ([|n] & -> & Hn & Hp & Hlt).
        -- simpl in Hn. injection Hn as <-. now rewrite Nat.add_0_r.
        -- specialize (Hlt 0%nat c0 ltac:(lia) eq_refl). congruence.
    + rewrite IH. split.
      * intros (n & -> & Hn & Hp & Hlt). exists (S n).
        split; [lia|]. split; [exact Hn|]. split; [exact Hp|].
        intros [|j] c' Hj Hc'; simpl in Hc'.
        -- now injection Hc' as <-.
        -- apply (Hlt j); [lia|exact Hc'].
      * intros ([|n] & -> & Hn & Hp & Hlt); simpl in Hn.
        -- injection Hn as <-. congruence.
        -- exists n. split; [lia|]. split; [exact Hn|]. split; [exact Hp|].
           intros j c' Hj Hc'. apply (Hlt (S j)); [lia|exact Hc'].
Qed.

Lemma findFrom_None (p : SyntaxNode -> bool) (cs : list SyntaxNode) :
  forall i, findFrom p i cs = None <-> forall c, In c cs -> p c = false.
Proof.
  induction cs as [|c0 cs IH]; intros i; simpl.
  - split; [intros _ c []|reflexivity].
  - destruct (p c0) eqn:E.
    + split; [discriminate|]. intros H. specialize (H c0 (or_introl eq_refl)). congruence.
    + rewrite IH. split.
      * intros H c [<-|Hc]; auto.
      * intros H c Hc. apply H. now right.
Qed.

(** The search over the siblings stops at the first preprocessor block,
    unless a declaration comes first. *)
Lemma searchSiblings_Some (up : Path) (parentNode : SyntaxNode)
      (siblings : list SyntaxNode) :
  forall i bodyCtx body,
    CSharp.searchSiblings up parentNode i siblings = Some (bodyCtx, body) <->
    exists n,
      bodyCtx = (parentNode, (i + n)%nat) :: up /\
      nth_error siblings n = Some body /\
      hasType body "preproc_if" = true /\
      forall j s, (j < n)%nat -> nth_error siblings j = Some s ->
                  hasType s "preproc_if" = false /\ CSharp.isBoundary s = false.
Proof.
  induction siblings as [|s0 siblings IH]; intros i bodyCtx body; simpl.
  - split; [discriminate|]. intros (n & _ & H & _). destruct n; discriminate.
  - fold (CSharp.isBoundary s0).
    destruct (hasType s0 "preproc_if") eqn:E.
    + unfold CSharp.createSyntheticBodyFromPreprocessor. split.
      * intros H; injection H as <- <-. exists 0%nat. rewrite Nat.add_0_r.
        split; [reflexivity|]. split; [reflexivity|]. split; [exact E|].
        intros j s Hj; lia.
      * intros ([|n] & -> & Hn & Hp & Hlt).
        -- simpl in Hn. injection Hn as <-. now rewrite Nat.add_0_r.
        -- destruct (Hlt 0%nat s0 ltac:(lia) eq_refl). congruence.
    + destruct (CSharp.isBoundary s0) eqn:B.
      * split; [discriminate|].
        intros ([|n] & -> & Hn & Hp & Hlt); simpl in Hn.
        -- injection Hn as <-. congruence.
        -- destruct (Hlt 0%nat s0 ltac:(lia) eq_refl). congruence.
      * rewrite IH. split.
        -- intros (n & -> & Hn & Hp & Hlt). exists (S n).
           split; [f_equal; f_equal; lia|]. split; [exact Hn|]. split; [exact Hp|].
           intros [|j] s Hj Hs; simpl in Hs.
           ++ injection Hs as <-. now split.
           ++ apply (Hlt j s); [lia|exact Hs].
        -- intros ([|n] & -> & Hn & Hp & Hlt); simpl in Hn.
           ++ injection Hn as <-. congruence.
           ++ exists n. split; [f_equal; f_equal; lia|].
              split; [exact Hn|]. split; [exact Hp|].
              intros j s Hj Hs. apply (Hlt (S j) s); [lia|exact Hs].
Qed.

(** The last element of a list, by position and by shape. *)
Lemma last_child (l : list SyntaxNode) (x : SyntaxNode) :
  nth_error l (List.length l - 1) = Some x <-> exists init, l = (init ++ [x])%list.
Proof.
  split.
  - intros H. destruct (exists_last (l := l)) as (init & y & ->).
    { intros ->. discriminate. }
    rewrite length_app in H. simpl in H.
    replace (List.length init + 1 - 1)%nat with (List.length init) in H by lia.
    rewrite nth_error_app2, Nat.sub_diag in H by lia.
    injection H as ->. now exists init.
  - intros (init & ->). rewrite length_app. simpl.
    replace (List.length init + 1 - 1)%nat with (List.length init) by lia.
    now rewrite nth_error_app2, Nat.sub_diag by lia.
Qed.

End BodyFacts.

Module NormalizeFacts.
Import Factory.

Lemma shift_injective (ds ds' : list Metrics.Detail) :
  map (fun detail =>
         {| Metrics.increment := Metrics.increment detail;
            Metrics.reason := Metrics.reason detail;
            Metrics.line := Metrics.line detail + 1;
            Metrics.column := Metrics.column detail + 1;
            Metrics.nesting := Metrics.nesting detail |}) ds =
  map (fun detail =>
         {| Metrics.increment := Metrics.increment detail;
            Metrics.reason := Metrics.reason detail;
            Metrics.line := Metrics.line detail + 1;
            Metrics.column := Metrics.column detail + 1;
            Metrics.nesting := Metrics.nesting detail |}) ds' ->
  ds = ds'.
Proof.
  revert ds'. induction ds as [|d ds IH]; intros [|d' ds']; simpl; try discriminate.
  - reflexivity.
  - intros H. injection H as Hi Hr Hl Hc Hn Ht.
    f_equal; [|now apply IH].
    destruct d, d'; simpl in *. f_equal; auto; lia.
Qed.

Lemma normalize_injective (f g : Metrics.FunctionMetrics) :
  normalize f = normalize g -> f = g.
Proof.
  unfold normalize. intros H. injection H as Hn Hc Hd Hsl Hel Hsc Hec.
  apply shift_injective in Hd. destruct f, g; simpl in *. now subst.
Qed.

Lemma map_normalize_injective (fs gs : list Metrics.FunctionMetrics) :
  map normalize fs = map normalize gs -> fs = gs.
Proof.
  revert gs. induction fs as [|f fs IH]; intros [|g gs] H; try discriminate H.
  - reflexivity.
  - apply TreeFacts.map_cons_inv in H as [Hf Ht].
    f_equal; [now apply normalize_injective|now apply IH].
Qed.

End NormalizeFacts.

Module NameFacts.

Lemma find_after {A : Type} (p : A -> bool) (inner : list A) (x : A) (up : list A) :
  Forall (fun a => p a = false) inner ->
  p x = true ->
  find p (inner ++ x :: up) = Some x.
Proof.
  induction 1 as [|a inner Ha _ IH]; intros Hx; simpl.
  - now rewrite Hx.
  - rewrite Ha. now apply IH.
Qed.

End NameFacts.

Module LevelFacts.
Import TreeFacts.

(** A loop that appends images appends the image of what the other loop
    appends. *)
Lemma forEachFrom_images {A B : Type} (g : A -> B)
      (f : nat -> SyntaxNode -> list A) (f' : nat -> SyntaxNode -> list B)
      (cs : list SyntaxNode) :
  Forall (fun c => forall i, f' i c = map g (f i c)) cs ->
  forall i,
    forEachFrom (fun i c a => (a ++ f' i c)%list) i cs [] =
    map g (forEachFrom (fun i c a => (a ++ f i c)%list) i cs []).
Proof.
  induction 1 as [|c cs Hc _ IH]; intros i; simpl; [reflexivity|].
  rewrite (forEachFrom_acc f' cs (S i)), (forEachFrom_acc f cs (S i)).
  now rewrite map_app, Hc, IH.
Qed.

Lemma flat_map_images {A B : Type} (g : A -> A) (h : B -> B) (f : A -> list B)
      (l : list A) :
  Forall (fun a => f (g a) = map h (f a)) l ->
  flat_map f (map g l) = map h (flat_map f l).
Proof.
  induction 1 as [|a l Ha _ IH]; simpl; [reflexivity|].
  now rewrite map_app, Ha, IH.
Qed.

Lemma cs_spec_visits_deeper (body : SyntaxNode) :
  forall ctx k,
    CSharp.spec_visits ctx body (k + 1) = map CSharp.deeper (CSharp.spec_visits ctx body k).
Proof.
  induction body as [t i j p q cs IH] using SyntaxNode_forall_ind.
  intros ctx k. set (body := Node t i j p q cs) in *.
  rewrite (CSharpFacts.cs_spec_visits_children ctx body (k + 1)),
    (CSharpFacts.cs_spec_visits_children ctx body k). cbn zeta.
  change (children body) with cs. cbn [map]. apply f_equal2; [reflexivity|].
  apply forEachFrom_images.
  eapply Forall_impl; [|exact IH]. intros c Hc n.
  destruct (negb (CSharp.isFunctionDeclaration c)); [|reflexivity].
  rewrite <- Hc. destruct (CSharp.increasesNesting body); reflexivity.
Qed.

Lemma cs_weight_above (src : string) (c : Path) (n : SyntaxNode) (l l' : Z) :
  1 <= l -> 1 <= l' ->
  CSharp.getComplexityIncrement src c l n = CSharp.getComplexityIncrement src c l' n.
Proof.
  intros H H'. unfold CSharp.getComplexityIncrement.
  assert (E : (0 <? l) = true) by (apply Z.ltb_lt; lia).
  assert (E' : (0 <? l') = true) by (apply Z.ltb_lt; lia).
  now rewrite E, E'.
Qed.

Lemma cs_details_deeper (src : string) (vs : list CSharp.Visit) :
  Forall (fun v => 1 <= CSharp.level v) vs ->
  flat_map (CSharp.spec_detail src) (map CSharp.deeper vs) =
  map (Metrics.raise 1 1) (flat_map (CSharp.spec_detail src) vs).
Proof.
  intros H. apply flat_map_images.
  eapply Forall_impl; [|exact H]. intros [[c n] l] Hl.
  unfold CSharp.level in Hl; simpl in Hl.
  unfold CSharp.deeper, CSharp.spec_detail; cbn [fst snd].
  rewrite (cs_weight_above src c n (l + 1) l) by lia.
  destruct (0 <? _); [|reflexivity].
  simpl. unfold Metrics.raise; simpl. do 2 f_equal. lia.
Qed.

Lemma total_raise (di dn : Z) (ds : list Metrics.Detail) :
  Metrics.total (map (Metrics.raise di dn) ds) =
  Metrics.total ds + di * Z.of_nat (List.length ds).
Proof.
  induction ds as [|d ds IH]; [simpl; lia|].
  cbn [map Metrics.total fold_right List.length].
  change (fold_right (fun d acc => Metrics.increment d + acc) 0
                     (map (Metrics.raise di dn) ds))
    with (Metrics.total (map (Metrics.raise di dn) ds)).
  change (fold_right (fun d acc => Metrics.increment d + acc) 0 ds)
    with (Metrics.total ds).
  rewrite IH. unfold Metrics.raise at 1; simpl Metrics.increment. lia.
Qed.

Lemma go_spec_visits_deeper (body : SyntaxNode) :
  forall k, Go.spec_visits body (k + 1) = map Go.deeper (Go.spec_visits body k).
Proof.
  induction body as [t i j p q cs IH] using SyntaxNode_forall_ind.
  intros k. set (body := Node t i j p q cs) in *.
  rewrite (GoFacts.go_spec_visits_unfold body (k + 1)),
    (GoFacts.go_spec_visits_unfold body k).
  change (children body) with cs. cbn [map]. apply f_equal2; [reflexivity|].
  apply (forEachFrom_images Go.deeper
           (fun (_ : nat) child =>
              if negb (Go.isFunctionDeclaration child)
              then Go.spec_visits child (if Go.increasesNesting body then k + 1 else k)
              else [])
           (fun (_ : nat) child =>
              if negb (Go.isFunctionDeclaration child)
              then Go.spec_visits child
                     (if Go.increasesNesting body then k + 1 + 1 else k + 1)
              else [])).
  eapply Forall_impl; [|exact IH]. intros c Hc n.
  destruct (negb (Go.isFunctionDeclaration c)); [|reflexivity].
  rewrite <- Hc. destruct (Go.increasesNesting body); reflexivity.
Qed.

Lemma go_weight_above (src : string) (n : SyntaxNode) (l l' : Z) :
  1 <= l -> 1 <= l' ->
  Go.getComplexityIncrement src l n = Go.getComplexityIncrement src l' n.
Proof.
  intros H H'. unfold Go.getComplexityIncrement.
  assert (E : (0 <? l) = true) by (apply Z.ltb_lt; lia).
  assert (E' : (0 <? l') = true) by (apply Z.ltb_lt; lia).
  now rewrite E, E'.
Qed.

Lemma go_details_deeper (src : string) (vs : list Go.Visit) :
  Forall (fun v => 1 <= Go.level v) vs ->
  flat_map (Go.spec_detail src) (map Go.deeper vs) =
  map (Metrics.raise 0 1) (flat_map (Go.spec_detail src) vs).
Proof.
  intros H. apply flat_map_images.
  eapply Forall_impl; [|exact H]. intros [n l] Hl.
  unfold Go.level in Hl; simpl in Hl.
  unfold Go.deeper, Go.spec_detail; cbn [fst snd].
  rewrite (go_weight_above src n (l + 1) l) by lia.
  destruct (0 <? _); [|reflexivity].
  simpl. unfold Metrics.raise; simpl. do 2 f_equal. lia.
Qed.

End LevelFacts.

Module RegexFacts.

Lemma units_all (a : ascii) : In a Js.units.
Proof.
  unfold Js.units. rewrite <- (ascii_nat_embedding a).
  apply in_map, in_seq. pose proof (nat_ascii_bounded a). lia.
Qed.

Lemma requires_class (c : ascii) (p : ascii -> bool) (a : ascii) :
  Js.requires c (Js.Cls p) = true -> p a = true -> a = c.
Proof.
  cbn [Js.requires]. rewrite forallb_forall. intros H Hp.
  specialize (H a (units_all a)). rewrite Hp in H. simpl in H.
  now apply Ascii.eqb_eq.
Qed.

Lemma requires_not_nullable (c : ascii) (r : Js.regex) :
  Js.requires c r = true -> Js.nullable r = false.
Proof.
  induction r as [| |p|r1 IH1 r2 IH2|r1 IH1 r2 IH2|r IH];
    cbn [Js.requires Js.nullable]; try discriminate; auto.
  - intros H. apply orb_true_iff in H as [H|H].
    + now rewrite (IH1 H).
    + rewrite (IH2 H). apply andb_false_r.
  - intros H. apply andb_true_iff in H as [H1 H2].
    now rewrite (IH1 H1), (IH2 H2).
Qed.

Lemma requires_deriv (c a : ascii) (r : Js.regex) :
  a <> c -> Js.requires c r = true -> Js.requires c (Js.deriv a r) = true.
Proof.
  intros Ha.
  induction r as [| |p|r1 IH1 r2 IH2|r1 IH1 r2 IH2|r IH]; try discriminate; auto.
  - intros H. cbn [Js.deriv]. destruct (p a) eqn:Hp; [|reflexivity].
    contradiction Ha. exact (requires_class c p a H Hp).
  - intros H. cbn [Js.requires] in H. cbn [Js.deriv].
    apply orb_true_iff in H as [H|H].
    + rewrite (requires_not_nullable c r1 H). cbn [Js.requires].
      now rewrite (IH1 H).
    + destruct (Js.nullable r1); cbn [Js.requires]; rewrite H, ?(IH2 H);
        now rewrite ?orb_true_r.
  - intros H. cbn [Js.requires] in H. cbn [Js.deriv Js.requires].
    apply andb_true_iff in H as [H1 H2]. now rewrite (IH1 H1), (IH2 H2).
Qed.

(** No prefix of a string without [c] matches an expression that requires
    [c]. *)
Lemma requires_prefix (c : ascii) (s : string) :
  Js.occurs c s = false ->
  forall r, Js.requires c r = true -> Js.matches_prefix r s = false.
Proof.
  induction s as [|a s IH]; simpl; intros Ho r Hr.
  - now rewrite (requires_not_nullable c r Hr).
  - apply orb_false_elim in Ho as [Ha Ho].
    rewrite (requires_not_nullable c r Hr). simpl.
    apply IH; [exact Ho|]. apply requires_deriv; [|exact Hr].
    intros ->. now rewrite Ascii.eqb_refl in Ha.
Qed.

Lemma requires_test (c : ascii) (r : Js.regex) (s : string) :
  Js.requires c r = true -> Js.occurs c s = false -> Js.test r s = false.
Proof.
  intros Hr. induction s as [|a s IH]; intros Ho.
  - simpl. now rewrite (requires_not_nullable c r Hr).
  - cbn [Js.test]. rewrite (requires_prefix c _ Ho r Hr). simpl.
    simpl in Ho. apply orb_false_elim in Ho as [_ Ho]. now apply IH.
Qed.

Lemma requires_test_wb_from (c : ascii) (r : Js.regex) (s : string) :
  Js.requires c r = true -> Js.occurs c s = false ->
  forall prev, Js.test_wb_from prev r s = false.
Proof.
  intros Hr. induction s as [|a s IH]; intros Ho prev.
  - cbn [Js.test_wb_from]. rewrite (requires_prefix c _ Ho r Hr).
    now rewrite andb_false_r.
  - cbn [Js.test_wb_from]. rewrite (requires_prefix c _ Ho r Hr).
    rewrite andb_false_r. simpl.
    simpl in Ho. apply orb_false_elim in Ho as [_ Ho]. now apply IH.
Qed.

Lemma requires_test_wb (c : ascii) (r : Js.regex) (s : string) :
  Js.requires c r = true -> Js.occurs c s = false -> Js.test_wb r s = false.
Proof. intros Hr Ho. now apply (requires_test_wb_from c). Qed.

(** Without an ampersand and without a bar there is no logical operator. *)
Lemma no_logical_ops_aux (s : string) :
  Js.occurs "&" s = false -> Js.occurs "|" s = false ->
  Js.match_logical_ops s = [] /\
  forall a, Ascii.eqb a "&" = false -> Ascii.eqb a "|" = false ->
            Js.match_logical_ops (String a s) = [].
Proof.
  induction s as [|b s IH]; intros Ha Hb.
  - split; [reflexivity|]. intros a _ _. reflexivity.
  - simpl in Ha, Hb.
    apply orb_false_elim in Ha as [Ha1 Ha2]. apply orb_false_elim in Hb as [Hb1 Hb2].
    destruct (IH Ha2 Hb2) as [IH1 IH2].
    assert (E : Js.match_logical_ops (String b s) = []) by (apply IH2; assumption).
    split; [exact E|].
    intros a Ea Eb.
    change (Js.match_logical_ops (String a (String b s)))
      with (if (Ascii.eqb a "&" && Ascii.eqb b "&")%bool
            then "&&" :: Js.match_logical_ops s
            else if (Ascii.eqb a "|" && Ascii.eqb b "|")%bool
                 then "||" :: Js.match_logical_ops s
                 else Js.match_logical_ops (String b s)).
    rewrite Ea, Eb. simpl. exact E.
Qed.

Lemma no_logical_ops (s : string) :
  Js.occurs "&" s = false -> Js.occurs "|" s = false ->
  Js.match_logical_ops s = [].
Proof. intros Ha Hb. now apply no_logical_ops_aux. Qed.

End RegexFacts.

Module DeclarationFacts.

Lemma prefix_two (x y a b : ascii) (s : string) :
  String.prefix (String x (String y EmptyString)) (String a (String b s)) = true ->
  a = x /\ b = y.
Proof.
  simpl. destruct (ascii_dec x a) as [->|]; [|discriminate].
  destruct (ascii_dec y b) as [->|]; [|discriminate]. auto.
Qed.

Lemma prefix_two_short (x y a : ascii) :
  String.prefix (String x (String y EmptyString)) (String a EmptyString) = false.
Proof. simpl. destruct (ascii_dec x a); reflexivity. Qed.

(** The global match finds an operator wherever one is included. *)
Lemma includes_logical_ops_aux (s : string) :
  (Js.includes s "&&" = true \/ Js.includes s "||" = true ->
   Js.match_logical_ops s <> []) /\
  (forall a,
      Js.includes (String a s) "&&" = true \/ Js.includes (String a s) "||" = true ->
      Js.match_logical_ops (String a s) <> []).
Proof.
  induction s as [|b s [IH1 IH2]].
  - split.
    + intros [H|H]; discriminate H.
    + intros a [H|H]; cbn [Js.includes] in H; rewrite prefix_two_short in H;
        discriminate H.
  - split; [apply IH2|].
    intros a H.
    change (Js.match_logical_ops (String a (String b s)))
      with (if (Ascii.eqb a "&" && Ascii.eqb b "&")%bool
            then "&&" :: Js.match_logical_ops s
            else if (Ascii.eqb a "|" && Ascii.eqb b "|")%bool
                 then "||" :: Js.match_logical_ops s
                 else Js.match_logical_ops (String b s)).
    destruct (Ascii.eqb a "&" && Ascii.eqb b "&")%bool eqn:Ea; [discriminate|].
    destruct (Ascii.eqb a "|" && Ascii.eqb b "|")%bool eqn:Eb; [discriminate|].
    apply IH2.
    change (Js.includes (String a (String b s)) "&&")
      with (String.prefix "&&" (String a (String b s)) ||
            Js.includes (String b s) "&&") in H.
    change (Js.includes (String a (String b s)) "||")
      with (String.prefix "||" (String a (String b s)) ||
            Js.includes (String b s) "||") in H.
    assert (Pa : String.prefix "&&" (String a (String b s)) = false).
    { destruct (String.prefix "&&" (String a (String b s))) eqn:P; [|reflexivity].
      apply prefix_two in P as [-> ->]. discriminate Ea. }
    assert (Pb : String.prefix "||" (String a (String b s)) = false).
    { destruct (String.prefix "||" (String a (String b s))) eqn:P; [|reflexivity].
      apply prefix_two in P as [-> ->]. discriminate Eb. }
    rewrite Pa, Pb in H. exact H.
Qed.

Lemma includes_logical_ops (s : string) :
  Js.includes s "&&" = true \/ Js.includes s "||" = true ->
  Js.match_logical_ops s <> [].
Proof. apply includes_logical_ops_aux. Qed.

(** The weight of a declaration is that of the recovery heuristic. *)
Lemma cs_declaration_increment (src : string) (ctx : Path) (k : Z) (node : SyntaxNode) :
  isOneOf node ["field_declaration"; "variable_declaration"] = true ->
  CSharp.getComplexityIncrement src ctx k node =
  CSharp.getComplexityFromMalformedDeclaration src ctx node.
Proof.
  unfold CSharp.getComplexityIncrement, isOneOf, hasType. cbn [existsb].
  intros H. apply orb_true_iff in H as [H|H].
  - apply String.eqb_eq in H. rewrite H. reflexivity.
  - apply orb_true_iff in H as [H|H]; [|discriminate].
    apply String.eqb_eq in H. rewrite H. reflexivity.
Qed.

End DeclarationFacts.

(* ===================================================================== *)
(** ** Further properties of the analyzers                                *)
(* ===================================================================== *)

(** X1. In C#, the details that a walk adds are those of the nodes that a path
    leads to from the walked node without entering a function declaration
    and whose base weight is positive; the nesting level of such a detail
    is the level at which the walk started plus the number of
    nesting-increasing nodes on the path, and its increment is the base
    weight plus that level. *)
Theorem cs_details_follow_paths :
  forall (src : string) (ctx : Path) (body : SyntaxNode) (st : CSharp.State)
         (d : Metrics.Detail),
    In d (CSharp.details (CSharp.visit src ctx body st)) <->
    In d (CSharp.details st) \/
    exists frames node,
      CSharp.walkable body frames node /\
      let k := CSharp.nesting st + Z.of_nat (CSharp.enclosing frames) in
      let weight := CSharp.getComplexityIncrement src (frames ++ ctx)%list k node in
      0 < weight /\
      d = {| Metrics.increment := weight + k;
             Metrics.reason := CSharp.getComplexityReason src (frames ++ ctx)%list node;
             Metrics.line := Z.of_nat (row (startPosition node));
             Metrics.column := Z.of_nat (column (startPosition node));
             Metrics.nesting := k |}.
Proof.
  intros src ctx body st d.
  rewrite CSharpFacts.cs_visit_refines. simpl CSharp.details.
  rewrite in_app_iff, in_flat_map. cbn zeta.
  split; (intros [H|H]; [now left|right]).
  - destruct H as ([[c n] k'] & Hv & Hd).
    apply WalkFacts.cs_spec_visits_paths in Hv as (frames & -> & Hw & ->).
    exists frames, n. split; [exact Hw|].
    unfold CSharp.spec_detail in Hd.
    destruct (0 <? _) eqn:E; [|contradiction].
    destruct Hd as [<-|[]]. split; [now apply Z.ltb_lt|reflexivity].
  - destruct H as (frames & n & Hw & Hp & ->).
    exists ((frames ++ ctx)%list, n, CSharp.nesting st + Z.of_nat (CSharp.enclosing frames)).
    split.
    + apply WalkFacts.cs_spec_visits_paths. exists frames. auto.
    + unfold CSharp.spec_detail. apply Z.ltb_lt in Hp. rewrite Hp. now left.
Qed.

(** X2. In Go, the details that a walk adds are those of the nodes that a path
    leads to from the walked node without entering a function declaration
    and whose weight is positive; the nesting level of such a detail is the
    level at which the walk started plus the number of nesting-increasing
    nodes on the path, and its increment is the weight alone. *)
Theorem go_details_follow_paths :
  forall (src : string) (body : SyntaxNode) (st : Go.State) (d : Metrics.Detail),
    In d (Go.details (Go.visit src body st)) <->
    In d (Go.details st) \/
    exists frames node,
      Go.walkable body frames node /\
      let k := Go.nesting st + Z.of_nat (Go.enclosing frames) in
      let weight := Go.getComplexityIncrement src k node in
      0 < weight /\
      d = {| Metrics.increment := weight;
             Metrics.reason := Go.getComplexityReason src node;
             Metrics.line := Z.of_nat (row (startPosition node));
             Metrics.column := Z.of_nat (column (startPosition node));
             Metrics.nesting := k |}.
Proof.
  intros src body st d.
  rewrite GoFacts.go_visit_refines. simpl Go.details.
  rewrite in_app_iff, in_flat_map. cbn zeta.
  split; (intros [H|H]; [now left|right]).
  - destruct H as ([n k'] & Hv & Hd).
    apply GoWalkFacts.go_spec_visits_paths in Hv as (frames & Hw & ->).
    exists frames, n. split; [exact Hw|].
    unfold Go.spec_detail in Hd.
    destruct (0 <? _) eqn:E; [|contradiction].
    destruct Hd as [<-|[]]. split; [now apply Z.ltb_lt|reflexivity].
  - destruct H as (frames & n & Hw & Hp & ->).
    exists (n, Go.nesting st + Z.of_nat (Go.enclosing frames)).
    split.
    + apply GoWalkFacts.go_spec_visits_paths. exists frames. auto.
    + unfold Go.spec_detail. apply Z.ltb_lt in Hp. rewrite Hp. now left.
Qed.

(** X3. The C# walk leaves the nesting counter as it found it, keeps the
    details that were there as a prefix, and adds to the complexity the
    sum of the increments of the details it appends. *)
Theorem cs_visit_keeps_counters :
  forall (src : string) (ctx : Path) (body : SyntaxNode) (st : CSharp.State),
    let st' := CSharp.visit src ctx body st in
    CSharp.nesting st' = CSharp.nesting st /\
    firstn (List.length (CSharp.details st)) (CSharp.details st') = CSharp.details st /\
    CSharp.complexity st' =
    CSharp.complexity st +
    Metrics.total (skipn (List.length (CSharp.details st)) (CSharp.details st')).
Proof.
  intros src ctx body st. cbn zeta.
  rewrite CSharpFacts.cs_visit_refines. simpl.
  split; [reflexivity|].
  rewrite firstn_app, Nat.sub_diag, firstn_all, skipn_app, Nat.sub_diag, skipn_all.
  simpl. rewrite app_nil_r. split; reflexivity.
Qed.

(** X4. The Go walk leaves the nesting counter as it found it, keeps the
    details that were there as a prefix, and adds to the complexity the
    number of details it appends. *)
Theorem go_visit_keeps_counters :
  forall (src : string) (body : SyntaxNode) (st : Go.State),
    let st' := Go.visit src body st in
    Go.nesting st' = Go.nesting st /\
    firstn (List.length (Go.details st)) (Go.details st') = Go.details st /\
    Go.complexity st' =
    Go.complexity st +
    Z.of_nat (List.length (Go.details st') - List.length (Go.details st)).
Proof.
  intros src body st. cbn zeta.
  rewrite GoFacts.go_visit_refines. simpl.
  split; [reflexivity|].
  rewrite firstn_app, Nat.sub_diag, firstn_all. simpl. rewrite app_nil_r.
  split; [reflexivity|].
  rewrite length_app, Nat.add_comm, Nat.add_sub.
  f_equal. apply CountFacts.total_ones, CountFacts.go_spec_details_ones.
Qed.

(** X5. In C#, a walk that starts one level deeper, from a level of at least
    1, records the same constructs in the same order, each with one more
    level of nesting and an increment one higher; the complexity it
    computes is higher by the number of details. *)
Theorem cs_deeper_costs_one_more :
  forall (src : string) (ctx : Path) (body : SyntaxNode) (k : Z),
    1 <= k ->
    let outer := CSharp.visit src ctx body (CSharp.mkState k 0 []) in
    let inner := CSharp.visit src ctx body (CSharp.mkState (k + 1) 0 []) in
    CSharp.details inner = map (Metrics.raise 1 1) (CSharp.details outer) /\
    CSharp.complexity inner =
    CSharp.complexity outer + Z.of_nat (List.length (CSharp.details outer)).
Proof.
  intros src ctx body k Hk. cbn zeta.
  rewrite !CSharpFacts.cs_visit_refines. simpl.
  rewrite LevelFacts.cs_spec_visits_deeper, LevelFacts.cs_details_deeper.
  - split; [reflexivity|]. rewrite LevelFacts.total_raise. lia.
  - eapply Forall_impl; [|apply CSharpFacts.cs_spec_visits_level].
    simpl. intros v Hv. lia.
Qed.

(** The theorem at [{if(a){if(b){}}}], walked from level 1 and from
    level 2. *)
Lemma cs_deeper_costs_one_more_witness :
  CSharp.details
    (CSharp.visit Samples.nestedIfText [] Samples.nestedIfBody (CSharp.mkState 2 0 [])) =
  [ Metrics.mkDetail 3 "if statement" 0 1 2;
    Metrics.mkDetail 4 "if statement" 0 7 3 ].
Proof.
  exact (proj1 (cs_deeper_costs_one_more
                  Samples.nestedIfText [] Samples.nestedIfBody 1 ltac:(lia))).
Defined.

(** X6. In Go, a walk that starts one level deeper, from a level of at least 1,
    records the same constructs in the same order, each with one more level
    of nesting and the same increment; the complexity it computes is the
    same. *)
Theorem go_deeper_costs_the_same :
  forall (src : string) (body : SyntaxNode) (k : Z),
    1 <= k ->
    let outer := Go.visit src body (Go.mkState k 0 []) in
    let inner := Go.visit src body (Go.mkState (k + 1) 0 []) in
    Go.details inner = map (Metrics.raise 0 1) (Go.details outer) /\
    Go.complexity inner = Go.complexity outer.
Proof.
  intros src body k Hk. cbn zeta.
  rewrite !GoFacts.go_visit_refines. simpl.
  rewrite LevelFacts.go_spec_visits_deeper, LevelFacts.go_details_deeper.
  - split; [reflexivity|]. rewrite LevelFacts.total_raise. lia.
  - eapply Forall_impl; [|apply GoFacts.go_spec_visits_level].
    simpl. intros v Hv. lia.
Qed.

(** The theorem at the body of [Samples.goFunction], walked from level 1
    and from level 2. *)
Lemma go_deeper_costs_the_same_witness :
  Go.complexity (Go.visit Samples.goText Samples.goBody (Go.mkState 2 0 [])) = 3.
Proof.
  exact (proj2 (go_deeper_costs_the_same Samples.goText Samples.goBody 1 ltac:(lia))).
Defined.

(** X7. In C#, every node that deepens the nesting of what it contains is
    itself recorded, with base weight 1, except a lambda expression or an
    anonymous method met at level 0, which deepens the nesting without
    being recorded. *)
Theorem cs_nesting_kinds_are_recorded :
  forall (src : string) (ctx : Path) (k : Z) (node : SyntaxNode),
    CSharp.increasesNesting node = true ->
    CSharp.getComplexityIncrement src ctx k node =
    if isOneOf node ["lambda_expression"; "anonymous_method_expression"] &&
       negb (0 <? k)
    then 0 else 1.
Proof.
  intros src ctx k node.
  unfold CSharp.increasesNesting, CSharp.getComplexityIncrement, isOneOf, hasType.
  cbn [existsb].
  repeat match goal with
         | |- context [String.eqb (type node) ?s] =>
             destruct (String.eqb_spec (type node) s) as [->|?];
             [ cbn; intros _; destruct (0 <? k); reflexivity | cbn [orb andb negb]; cbv iota ]
         end.
  discriminate.
Qed.

(** The theorem at the outer conditional of [{if(a){if(b){}}}], at
    level 0. *)
Lemma cs_nesting_kinds_are_recorded_witness :
  CSharp.getComplexityIncrement Samples.nestedIfText Samples.outerIfPath 0
                                Samples.outerIf = 1.
Proof.
  exact (cs_nesting_kinds_are_recorded
           Samples.nestedIfText Samples.outerIfPath 0 Samples.outerIf eq_refl).
Defined.

(** X8. In Go, every node that deepens the nesting of what it contains is
    itself recorded, with weight 1, except a function literal met at
    level 0, which deepens the nesting without being recorded. *)
Theorem go_nesting_kinds_are_recorded :
  forall (src : string) (k : Z) (node : SyntaxNode),
    Go.increasesNesting node = true ->
    Go.getComplexityIncrement src k node =
    if hasType node "func_literal" && negb (0 <? k) then 0 else 1.
Proof.
  intros src k node.
  unfold Go.increasesNesting, Go.getComplexityIncrement, isOneOf, hasType.
  cbn [existsb].
  repeat match goal with
         | |- context [String.eqb (type node) ?s] =>
             destruct (String.eqb_spec (type node) s) as [->|?];
             [ cbn; intros _; destruct (0 <? k); reflexivity | cbn [orb andb negb]; cbv iota ]
         end.
  discriminate.
Qed.

(** The theorem at the conditional of [Samples.goBody], at level 1. *)
Lemma go_nesting_kinds_are_recorded_witness :
  Go.getComplexityIncrement Samples.goText 1 Samples.goIf = 1.
Proof.
  exact (go_nesting_kinds_are_recorded Samples.goText 1 Samples.goIf eq_refl).
Defined.

(** X9. Every detail that the C# analyzer of the factory reports carries one of
    the reasons of the rule table or of the recovery heuristics, never a
    fallback text, and a reason that says nested only at a nesting level of
    at least 1. *)
Theorem cs_reported_reasons :
  forall (parse : string -> SyntaxNode) (src : string)
         (f : Metrics.FunctionMetrics) (d : Metrics.Detail),
    In f (Factory.createCSharpAnalyzer parse src) ->
    In d (Metrics.details f) ->
    In (Metrics.reason d) CSharp.recordedReasons /\
    (In (Metrics.reason d) CSharp.nestedReasons -> 1 <= Metrics.nesting d).
Proof.
  intros parse src f d Hf Hd.
  destruct (ResultFacts.cs_result_detail parse src f d Hf Hd)
    as (c & n & k & _ & Hp & _ & -> & ->).
  destruct (ReasonFacts.cs_recorded_reason src c k n Hp) as [H1 H2].
  split; [exact H1|]. intros H. apply H2 in H. lia.
Qed.

(** The theorem at the first detail reported for
    [class C{void M(){try{}catch(T e){}catch(U e){}}}]. *)
Lemma cs_reported_reasons_witness :
  In "try statement" CSharp.recordedReasons.
Proof.
  exact (proj1 (cs_reported_reasons
                  (fun _ => Samples.tryCatchFile) Samples.tryCatchFileText
                  (hd (Metrics.mkFunctionMetrics EmptyString 0 [] 0 0 0 0)
                      Samples.tryCatchReport)
                  (Metrics.mkDetail 1 "try statement" 1 18 0)
                  (or_introl eq_refl) (or_introl eq_refl))).
Defined.

(** X10. Every detail that the Go analyzer of the factory reports carries one of
    the reasons of the rule table, never a fallback text, and a reason that
    says nested only at a nesting level of at least 1. *)
Theorem go_reported_reasons :
  forall (parse : string -> SyntaxNode) (src : string)
         (f : Metrics.FunctionMetrics) (d : Metrics.Detail),
    In f (Factory.createGoAnalyzer parse src) ->
    In d (Metrics.details f) ->
    In (Metrics.reason d) Go.recordedReasons /\
    (In (Metrics.reason d) Go.nestedReasons -> 1 <= Metrics.nesting d).
Proof.
  intros parse src f d Hf Hd.
  destruct (ResultFacts.go_result_detail parse src f d Hf Hd)
    as (n & k & _ & Hp & _ & -> & ->).
  assert (Hp' : 0 < Go.getComplexityIncrement src k n) by lia.
  destruct (ReasonFacts.go_recorded_reason src k n Hp') as [H1 H2].
  split; [exact H1|]. intros H. apply H2 in H. lia.
Qed.

(** The theorem at the second detail reported for the Go function
    [Samples.goFunction]. *)
Lemma go_reported_reasons_witness :
  In "if statement" Go.recordedReasons.
Proof.
  exact (proj1 (go_reported_reasons
                  (fun _ => Samples.goFile) Samples.goText
                  (hd (Metrics.mkFunctionMetrics EmptyString 0 [] 0 0 0 0)
                      (Factory.createGoAnalyzer (fun _ => Samples.goFile) Samples.goText))
                  (Metrics.mkDetail 1 "if statement" 1 26 1)
                  (or_introl eq_refl) (or_intror (or_introl eq_refl)))).
Defined.

(** X11. In the results of the C# analyzer of the factory every detail costs at
    least one more than its nesting level, so the complexity of a function
    is at least the number of its details, and it is 0 exactly when there
    is no detail. *)
Theorem cs_complexity_bounds :
  forall (parse : string -> SyntaxNode) (src : string) (f : Metrics.FunctionMetrics),
    In f (Factory.createCSharpAnalyzer parse src) ->
    Forall (fun d => Metrics.nesting d + 1 <= Metrics.increment d) (Metrics.details f) /\
    Z.of_nat (List.length (Metrics.details f)) <= Metrics.complexity f /\
    (Metrics.complexity f = 0 <-> Metrics.details f = []).
Proof.
  intros parse src f Hf.
  assert (H1 : Forall (fun d => 0 <= Metrics.nesting d /\
                                Metrics.nesting d + 1 <= Metrics.increment d)
                      (Metrics.details f)).
  { apply Forall_forall. intros d Hd.
    destruct (ResultFacts.cs_result_detail parse src f d Hf Hd)
      as (c & n & k & Hk & Hp & Hi & _ & Hn). lia. }
  pose proof (FactoryFacts.createCSharpAnalyzer_ok parse src) as Hok.
  rewrite Forall_forall in Hok. destruct (Hok f Hf) as [E _].
  assert (H2 : Z.of_nat (List.length (Metrics.details f)) <= Metrics.complexity f).
  { rewrite E. apply CountFacts.total_at_least.
    eapply Forall_impl; [|exact H1]. simpl. intros d Hd. lia. }
  split; [|split].
  - eapply Forall_impl; [|exact H1]. simpl. intros d Hd. lia.
  - exact H2.
  - split.
    + intros Z0. rewrite Z0 in H2.
      destruct (Metrics.details f); [reflexivity|simpl in H2; lia].
    + intros N. rewrite E, N. reflexivity.
Qed.

(** The theorem at [class C{void M(){try{}catch(T e){}catch(U e){}}}]:
    three details, complexity 5. *)
Lemma cs_complexity_bounds_witness :
  3 <= Metrics.complexity
         (hd (Metrics.mkFunctionMetrics EmptyString 0 [] 0 0 0 0)
             Samples.tryCatchReport).
Proof.
  exact (proj1 (proj2 (cs_complexity_bounds
                         (fun _ => Samples.tryCatchFile) Samples.tryCatchFileText
                         (hd (Metrics.mkFunctionMetrics EmptyString 0 [] 0 0 0 0)
                             Samples.tryCatchReport)
                         (or_introl eq_refl)))).
Defined.

(** X12. The complexity that the Go analyzer of the factory reports for a
    function is the number of its details, each of increment 1. *)
Theorem go_complexity_counts_details :
  forall (parse : string -> SyntaxNode) (src : string) (f : Metrics.FunctionMetrics),
    In f (Factory.createGoAnalyzer parse src) ->
    Metrics.complexity f = Z.of_nat (List.length (Metrics.details f)) /\
    Forall (fun d => Metrics.increment d = 1) (Metrics.details f).
Proof.
  intros parse src f Hf.
  assert (H1 : Forall (fun d => Metrics.increment d = 1) (Metrics.details f)).
  { apply Forall_forall. intros d Hd.
    destruct (ResultFacts.go_result_detail parse src f d Hf Hd)
      as (n & k & _ & _ & Hi & _). exact Hi. }
  split; [|exact H1].
  pose proof (FactoryFacts.createGoAnalyzer_ok parse src) as Hok.
  rewrite Forall_forall in Hok. destruct (Hok f Hf) as [-> _].
  now apply CountFacts.total_ones.
Qed.

(** The theorem at [Samples.goFile]: three details, complexity 3. *)
Lemma go_complexity_counts_details_witness :
  Metrics.complexity
    (hd (Metrics.mkFunctionMetrics EmptyString 0 [] 0 0 0 0)
        (Factory.createGoAnalyzer (fun _ => Samples.goFile) Samples.goText)) = 3.
Proof.
  exact (proj1 (go_complexity_counts_details
                  (fun _ => Samples.goFile) Samples.goText
                  (hd (Metrics.mkFunctionMetrics EmptyString 0 [] 0 0 0 0)
                      (Factory.createGoAnalyzer (fun _ => Samples.goFile) Samples.goText))
                  (or_introl eq_refl))).
Defined.

(** X13. An ERROR node whose text contains none of the characters [(], [{],
    [&], [|] and [?] matches none of the recovery patterns: its weight is
    0, so nothing is recorded for it. *)
Theorem cs_error_needs_punctuation :
  forall (src : string) (ctx : Path) (k : Z) (node : SyntaxNode),
    hasType node "ERROR" = true ->
    Js.occurs "(" (text src node) = false ->
    Js.occurs "{" (text src node) = false ->
    Js.occurs "&" (text src node) = false ->
    Js.occurs "|" (text src node) = false ->
    Js.occurs "?" (text src node) = false ->
    CSharp.getComplexityFromErrorNode src ctx node = 0 /\
    CSharp.getComplexityIncrement src ctx k node = 0 /\
    forall st, CSharp.record src ctx node st = st.
Proof.
  intros src ctx k node Ht Hp Hb Ha Ho Hq.
  assert (E : CSharp.getComplexityFromErrorNode src ctx node = 0).
  { unfold CSharp.getComplexityFromErrorNode. cbn zeta.
    rewrite (RegexFacts.requires_test_wb "(" CSharp.re_if _ eq_refl Hp).
    rewrite (RegexFacts.requires_test_wb "(" CSharp.re_while _ eq_refl Hp).
    rewrite (RegexFacts.requires_test_wb "(" CSharp.re_for _ eq_refl Hp).
    rewrite (RegexFacts.requires_test_wb "(" CSharp.re_foreach _ eq_refl Hp).
    rewrite (RegexFacts.requires_test_wb "{" CSharp.re_try _ eq_refl Hb).
    rewrite (RegexFacts.requires_test_wb "(" CSharp.re_catch _ eq_refl Hp).
    rewrite (RegexFacts.requires_test "?" CSharp.re_ternary _ eq_refl Hq).
    rewrite (RegexFacts.requires_test "?" CSharp.re_question _ eq_refl Hq).
    rewrite (RegexFacts.no_logical_ops _ Ha Ho). reflexivity. }
  assert (I : forall l, CSharp.getComplexityIncrement src ctx l node = 0).
  { intros l. unfold CSharp.getComplexityIncrement, isOneOf, hasType in *.
    apply String.eqb_eq in Ht. rewrite Ht. simpl. exact E. }
  split; [exact E|]. split; [apply I|].
  intros st. unfold CSharp.record. cbn zeta. now rewrite I.
Qed.

(** The theorem at an ERROR node that spans the word [class]. *)
Lemma cs_error_needs_punctuation_witness :
  CSharp.getComplexityFromErrorNode Samples.tryCatchFileText []
    (Samples.tk 0 "ERROR" 0 5) = 0.
Proof.
  exact (proj1 (cs_error_needs_punctuation
                  Samples.tryCatchFileText [] 0 (Samples.tk 0 "ERROR" 0 5)
                  eq_refl eq_refl eq_refl eq_refl eq_refl eq_refl)).
Defined.

(** X14. A field or variable declaration has a positive weight only under an
    ancestor of a preprocessor kind and only when its text contains a
    question mark, an ampersand or a bar. Under such an ancestor, a
    declaration whose text includes [&&] or [||] has a positive weight: it
    is recorded for the operator, besides what the walk records for the
    expressions inside the declaration. *)
Theorem cs_declarations_scored_in_preprocessor_blocks :
  forall (src : string) (ctx : Path) (k : Z) (node : SyntaxNode),
    isOneOf node ["field_declaration"; "variable_declaration"] = true ->
    (0 < CSharp.getComplexityIncrement src ctx k node ->
     CSharp.isInPreprocessorBlock ctx = true /\
     (Js.occurs "?" (text src node) = true \/
      Js.occurs "&" (text src node) = true \/
      Js.occurs "|" (text src node) = true)) /\
    (CSharp.isInPreprocessorBlock ctx = true ->
     Js.includes (text src node) "&&" = true \/
     Js.includes (text src node) "||" = true ->
     0 < CSharp.getComplexityIncrement src ctx k node).
Proof.
  intros src ctx k node Hk.
  rewrite (DeclarationFacts.cs_declaration_increment src ctx k node Hk).
  unfold CSharp.getComplexityFromMalformedDeclaration. cbn zeta. split.
  - destruct (CSharp.isInPreprocessorBlock ctx); simpl; [|lia].
    intros H. split; [reflexivity|].
    destruct (Js.occurs "?" (text src node)) eqn:Hq; [now left|].
    destruct (Js.occurs "&" (text src node)) eqn:Ha; [right; now left|].
    destruct (Js.occurs "|" (text src node)) eqn:Ho; [right; now right|].
    rewrite (RegexFacts.requires_test "?" CSharp.re_declared_ternary _ eq_refl Hq) in H.
    rewrite (RegexFacts.no_logical_ops _ Ha Ho) in H. simpl in H. lia.
  - intros -> H. simpl negb. cbv iota.
    apply DeclarationFacts.includes_logical_ops in H.
    destruct (Js.match_logical_ops (text src node)) as [|o os]; [now contradiction H|].
    destruct (Js.test CSharp.re_declared_ternary (text src node));
      cbn [CSharp.count List.length]; lia.
Qed.

(** The theorem at the declaration [bool f=a&&b] of [Samples.flaggedFile],
    which stands in a preprocessor block. *)
Lemma cs_declarations_scored_in_preprocessor_blocks_witness :
  0 < CSharp.getComplexityIncrement Samples.flaggedText Samples.flaggedDeclarationPath 0
                                    Samples.flaggedDeclaration.
Proof.
  exact (proj2 (cs_declarations_scored_in_preprocessor_blocks
                  Samples.flaggedText Samples.flaggedDeclarationPath 0
                  Samples.flaggedDeclaration eq_refl)
               eq_refl (or_introl eq_refl)).
Defined.

(** The method of [Samples.flaggedFile]: the one operator of the
    declaration in the preprocessor block is reported twice, for the
    declaration and for the binary expression. *)
Example cs_flagged_method_report :
  Factory.createCSharpAnalyzer (fun _ => Samples.flaggedFile) Samples.flaggedText =
  [ {| Metrics.name := "M";
       Metrics.complexity := 2;
       Metrics.details :=
         [ Metrics.mkDetail 1 "logical operator (in preprocessor block)" 3 1 0;
           Metrics.mkDetail 1 "binary && operator" 3 8 0 ];
       Metrics.startLine := 0;
       Metrics.endLine := 4;
       Metrics.startColumn := 0;
       Metrics.endColumn := 1 |} ].
Proof.
  reflexivity.
Qed.

(** X15. The body of a C# declaration is its first child that is a block or an
    expression body. Failing that, and only when the last child of the
    declaration is a [;] token, it is the first [preproc_if] among the
    siblings that follow the declaration under its parent, provided that no
    function, class or interface declaration stands between the two. In no
    other case is a body found. *)
Theorem cs_function_body_found :
  forall (ctx : Path) (node : SyntaxNode) (bodyCtx : Path) (body : SyntaxNode),
    CSharp.getFunctionBody ctx node = Some (bodyCtx, body) <->
    (exists i,
        bodyCtx = (node, i) :: ctx /\
        nth_error (children node) i = Some body /\
        CSharp.isDirectBody body = true /\
        forall j c, (j < i)%nat -> nth_error (children node) j = Some c ->
                    CSharp.isDirectBody c = false) \/
    ((forall c, In c (children node) -> CSharp.isDirectBody c = false) /\
     (exists init lastChild,
         children node = (init ++ [lastChild])%list /\
         hasType lastChild ";" = true) /\
     exists parentNode methodIndex up j,
       ctx = (parentNode, methodIndex) :: up /\
       bodyCtx = (parentNode, j) :: up /\
       (methodIndex < j)%nat /\
       nth_error (children parentNode) j = Some body /\
       hasType body "preproc_if" = true /\
       forall l s, (methodIndex < l < j)%nat ->
                   nth_error (children parentNode) l = Some s ->
                   hasType s "preproc_if" = false /\ CSharp.isBoundary s = false).
Proof.
  intros ctx node bodyCtx body. unfold CSharp.getFunctionBody, findChild.
  fold CSharp.isDirectBody.
  change (fun child => hasType child "block" || hasType child "arrow_expression_clause")
    with CSharp.isDirectBody.
  destruct (findFrom CSharp.isDirectBody 0 (children node)) as [[i0 b0]|] eqn:F.
  - apply BodyFacts.findFrom_Some in F as (n & -> & Hn & Hp & Hlt). simpl. split.
    + intros H; injection H as <- <-. left. exists n. auto.
    + intros [(i & -> & Hi & Hpi & Hlti)|(Hno & _)].
      * destruct (Nat.lt_trichotomy i n) as [L|[E|L]].
        -- specialize (Hlt i body L Hi). congruence.
        -- subst i. rewrite Hn in Hi. now injection Hi as ->.
        -- specialize (Hlti n b0 L Hn). congruence.
      * specialize (Hno b0 (nth_error_In _ _ Hn)). congruence.
  - pose proof (proj1 (BodyFacts.findFrom_None _ _ _) F) as F'. clear F.
    rename F' into F. split.
    + intros H. right. split; [exact F|].
      destruct (nth_error (children node) (List.length (children node) - 1))
        as [lastChild|] eqn:L; [|discriminate].
      destruct (hasType lastChild ";") eqn:Hsemi; [|discriminate].
      apply BodyFacts.last_child in L as (init & L).
      split; [exists init, lastChild; auto|].
      destruct ctx as [|[parentNode methodIndex] up]; [discriminate|].
      apply BodyFacts.searchSiblings_Some in H as (n & -> & Hn & Hp & Hlt).
      rewrite nth_error_skipn in Hn.
      exists parentNode, methodIndex, up, (S methodIndex + n)%nat.
      split; [reflexivity|]. split; [reflexivity|]. split; [lia|].
      split; [exact Hn|]. split; [exact Hp|].
      intros l s Hl Hs.
      apply (Hlt (l - S methodIndex)%nat s); [lia|].
      rewrite nth_error_skipn.
      now replace (S methodIndex + (l - S methodIndex))%nat with l by lia.
    + intros [(i & _ & Hi & Hp & _)|(_ & (init & lastChild & L & Hsemi) & H)].
      { specialize (F body (nth_error_In _ _ Hi)). congruence. }
      destruct H as (parentNode & methodIndex & up & j & -> & -> & Hj & Hn & Hp & Hlt).
      assert (L' : nth_error (children node) (List.length (children node) - 1) =
                   Some lastChild)
        by (apply BodyFacts.last_child; now exists init).
      rewrite L', Hsemi.
      apply BodyFacts.searchSiblings_Some. exists (j - S methodIndex)%nat.
      split; [f_equal; f_equal; lia|].
      rewrite nth_error_skipn.
      replace (S methodIndex + (j - S methodIndex))%nat with j by lia.
      split; [exact Hn|]. split; [exact Hp|].
      intros l s Hl Hs. rewrite nth_error_skipn in Hs.
      apply (Hlt _ s) in Hs; [exact Hs|lia].
Qed.

(** X16. The body of a Go declaration is its first child that is a block, and
    no body is found exactly when no child is a block. *)
Theorem go_function_body_found :
  forall (node : SyntaxNode),
    (forall body,
        Go.getFunctionBody node = Some body <->
        exists i,
          nth_error (children node) i = Some body /\
          hasType body "block" = true /\
          forall j c, (j < i)%nat -> nth_error (children node) j = Some c ->
                      hasType c "block" = false) /\
    (Go.getFunctionBody node = None <->
     forall c, In c (children node) -> hasType c "block" = false).
Proof.
  intros node. unfold Go.getFunctionBody, findChild. split.
  - intros body.
    destruct (findFrom _ 0 (children node)) as [[i0 b0]|] eqn:F.
    + pose proof (proj1 (BodyFacts.findFrom_Some _ _ _ _ _) F)
        as (n & -> & Hn & Hp & Hlt).
      split.
      * intros H; injection H as <-. exists n. auto.
      * intros (i & Hi & Hpi & Hlti). f_equal.
        destruct (Nat.lt_trichotomy i n) as [L|[E|L]].
        -- specialize (Hlt i body L Hi). simpl in Hlt. congruence.
        -- subst i. congruence.
        -- specialize (Hlti n b0 L Hn). congruence.
    + split; [discriminate|].
      intros (i & Hi & Hp & _).
      pose proof (proj1 (BodyFacts.findFrom_None _ _ _) F body (nth_error_In _ _ Hi)).
      simpl in H. congruence.
  - destruct (findFrom _ 0 (children node)) as [[i0 b0]|] eqn:F.
    + split; [discriminate|]. intros H.
      pose proof (proj1 (BodyFacts.findFrom_Some _ _ _ _ _) F)
        as (n & _ & Hn & Hp & _).
      specialize (H b0 (nth_error_In _ _ Hn)). simpl in Hp. congruence.
    + split; [|reflexivity]. intros _.
      exact (proj1 (BodyFacts.findFrom_None _ _ _) F).
Qed.

(** X17. A C# constructor is named after the nearest class declaration among
    its ancestors, whatever stands between the two and whatever identifier
    the constructor itself carries; with no class declaration among the
    ancestors its name is the placeholder. *)
Theorem cs_constructor_named_after_class :
  forall (src : string) (inner : Path) (cls : SyntaxNode) (i : nat) (up : Path)
         (node : SyntaxNode),
    hasType node "constructor_declaration" = true ->
    Forall (fun frame => hasType (fst frame) "class_declaration" = false) inner ->
    (hasType cls "class_declaration" = true ->
     CSharp.getFunctionName src (inner ++ (cls, i) :: up)%list node =
     match findChild (fun child => hasType child "identifier") cls with
     | Some (_, classNameNode) => text src classNameNode ++ " (constructor)"
     | None => "<constructor>"
     end) /\
    CSharp.getFunctionName src inner node = "<constructor>".
Proof.
  intros src inner cls i up node Hc Hin. unfold CSharp.getFunctionName. rewrite Hc.
  split.
  - intros Hcls.
    rewrite (NameFacts.find_after
               (fun a => hasType (fst a) "class_declaration") inner (cls, i) up Hin Hcls).
    reflexivity.
  - assert (E : find (fun a => hasType (fst a) "class_declaration") inner = None).
    { induction Hin as [|a inner Ha _ IH]; simpl; [reflexivity|]. now rewrite Ha. }
    now rewrite E.
Qed.

(** The theorem at the constructor of the struct [S] declared in the class
    [A] of [class A{struct S{S(){}}}]: it is reported as a constructor of
    [A]. *)
Lemma cs_constructor_named_after_class_witness :
  CSharp.getFunctionName Samples.structText
    [ (Samples.structMembers, 1%nat); (Samples.structDeclaration, 2%nat);
      (Samples.structOwnerMembers, 1%nat); (Samples.structOwner, 0%nat) ]
    Samples.structConstructor = "A (constructor)".
Proof.
  refine (proj1 (cs_constructor_named_after_class
                   Samples.structText
                   [ (Samples.structMembers, 1%nat); (Samples.structDeclaration, 2%nat);
                     (Samples.structOwnerMembers, 1%nat) ]
                   Samples.structOwner 0%nat [] Samples.structConstructor
                   eq_refl _)
                eq_refl).
  repeat constructor.
Defined.

(** X18. The C# analyzer of the factory reports one function for every function
    declaration of the tree for which a body is found, in the pre-order of
    the tree, under the name computed for the declaration and with the
    rows and columns of the declaration itself, which are not shifted. *)
Theorem cs_results_follow_declarations :
  forall (parse : string -> SyntaxNode) (src : string),
    Forall2
      (fun loc f =>
         Metrics.name f = CSharp.getFunctionName src (fst loc) (snd loc) /\
         Metrics.startLine f = Z.of_nat (row (startPosition (snd loc))) /\
         Metrics.endLine f = Z.of_nat (row (endPosition (snd loc))) /\
         Metrics.startColumn f = Z.of_nat (column (startPosition (snd loc))) /\
         Metrics.endColumn f = Z.of_nat (column (endPosition (snd loc))))
      (filter CSharp.reported (preorder [] (parse src)))
      (Factory.createCSharpAnalyzer parse src).
Proof.
  intros parse src.
  rewrite FactoryFacts.createCSharpAnalyzer_map, CSharpFacts.cs_analyzeFile_spec.
  induction (preorder [] (parse src)) as [|[ctx node] l IH]; simpl; [constructor|].
  rewrite map_app. unfold CSharp.reported at 1, CSharp.report at 1.
  simpl fst; simpl snd.
  destruct (CSharp.isFunctionDeclaration node); simpl; [|exact IH].
  rewrite CSharpFacts.cs_analyzeFunction_unfold.
  destruct (CSharp.getFunctionBody ctx node) as [[bodyCtx body]|]; simpl; [|exact IH].
  constructor; [|exact IH]. simpl. repeat split; reflexivity.
Qed.

(** X19. The Go analyzer of the factory reports one function for every function
    declaration of the tree that has a block, in the pre-order of the tree,
    under the name computed for the declaration and with the rows and
    columns of the declaration itself, which are not shifted. *)
Theorem go_results_follow_declarations :
  forall (parse : string -> SyntaxNode) (src : string),
    Forall2
      (fun node f =>
         Metrics.name f = Go.getFunctionName src node /\
         Metrics.startLine f = Z.of_nat (row (startPosition node)) /\
         Metrics.endLine f = Z.of_nat (row (endPosition node)) /\
         Metrics.startColumn f = Z.of_nat (column (startPosition node)) /\
         Metrics.endColumn f = Z.of_nat (column (endPosition node)))
      (filter Go.reported (map snd (preorder [] (parse src))))
      (Factory.createGoAnalyzer parse src).
Proof.
  intros parse src.
  rewrite FactoryFacts.createGoAnalyzer_map, GoFacts.go_analyzeFile_spec.
  unfold Go.nodes.
  induction (map snd (preorder [] (parse src))) as [|node l IH]; simpl; [constructor|].
  rewrite map_app. unfold Go.reported at 1, Go.report at 1.
  destruct (Go.isFunctionDeclaration node); simpl; [|exact IH].
  rewrite GoFacts.go_analyzeFunction_unfold.
  destruct (Go.getFunctionBody node) as [body|]; simpl; [|exact IH].
  constructor; [|exact IH]. simpl. repeat split; reflexivity.
Qed.

(** X20. What [analyzeFunctions] returns does not depend on the values that
    the fields of the analyzer hold when it is called: an instance that has
    analyzed one source gives for the next source what a new instance
    gives. *)
Theorem analyzer_instance_reusable :
  forall (parse : string -> SyntaxNode) (src : string),
    (forall st : CSharp.State,
        CSharp.analyzeFunctions parse src st = CSharp.analyzeFile parse src) /\
    (forall st : Go.State,
        Go.analyzeFunctions parse src st = Go.analyzeFile parse src).
Proof.
  intros parse src. split; intros st.
  - unfold CSharp.analyzeFile, CSharp.analyzeFunctions. cbn zeta.
    now rewrite !CSharpFacts.cs_visit_collects.
  - unfold Go.analyzeFile, Go.analyzeFunctions. cbn zeta.
    now rewrite !(GoFacts.go_visit_collects src (parse src) []).
Qed.

(** X21. The wrappers of the factory lose nothing: results that are equal after
    the normalization were equal as the analyzers returned them. *)
Theorem normalization_is_injective :
  forall (parse parse' : string -> SyntaxNode) (src src' : string),
    (Factory.createCSharpAnalyzer parse src = Factory.createCSharpAnalyzer parse' src' ->
     CSharp.analyzeFile parse src = CSharp.analyzeFile parse' src') /\
    (Factory.createGoAnalyzer parse src = Factory.createGoAnalyzer parse' src' ->
     Go.analyzeFile parse src = Go.analyzeFile parse' src').
Proof.
  intros parse parse' src src'. split.
  - rewrite !FactoryFacts.createCSharpAnalyzer_map.
    apply NormalizeFacts.map_normalize_injective.
  - rewrite !FactoryFacts.createGoAnalyzer_map.
    apply NormalizeFacts.map_normalize_injective.
Qed.

(** The wrappers at [class C{void M(){try{}catch(T e){}catch(U e){}}}] and
    at [Samples.goFile]. *)
Lemma normalization_is_injective_witness :
  CSharp.analyzeFile (fun _ => Samples.tryCatchFile) Samples.tryCatchFileText =
  CSharp.analyzeFile (fun _ => Samples.tryCatchFile) Samples.tryCatchFileText /\
  Go.analyzeFile (fun _ => Samples.goFile) Samples.goText =
  Go.analyzeFile (fun _ => Samples.goFile) Samples.goText.
Proof.
  split.
  - exact (proj1 (normalization_is_injective
                    (fun _ => Samples.tryCatchFile) (fun _ => Samples.tryCatchFile)
                    Samples.tryCatchFileText Samples.tryCatchFileText) eq_refl).
  - exact (proj2 (normalization_is_injective
                    (fun _ => Samples.goFile) (fun _ => Samples.goFile)
                    Samples.goText Samples.goText) eq_refl).
Defined.

(** X22. For an identifier that [getSupportedLanguages] does not list,
    [analyzeFile] consults no parser: its outcome is the same whatever the
    parsers are. It is the empty array when the identifier names no
    property of [Object.prototype], and it is not an array when the
    identifier names one. None of these names is listed. *)
Theorem unlisted_identifiers_reach_no_parser :
  (forall (parseCSharp parseGo parseCSharp' parseGo' : string -> SyntaxNode)
          (src : string) (languageId : Factory.LanguageId),
      ~ In (Factory.toPropertyKey languageId)
           (Factory.getSupportedLanguages parseCSharp parseGo) ->
      Factory.analyzeFile parseCSharp parseGo src languageId =
      Factory.analyzeFile parseCSharp' parseGo' src languageId /\
      (Factory.inheritedName (Factory.toPropertyKey languageId) = false ->
       Factory.analyzeFile parseCSharp parseGo src languageId = Factory.Returns []) /\
      (Factory.inheritedName (Factory.toPropertyKey languageId) = true ->
       forall fs,
         Factory.analyzeFile parseCSharp parseGo src languageId <> Factory.Returns fs)) /\
  (forall (parseCSharp parseGo : string -> SyntaxNode) (key : string),
      Factory.inheritedName key = true ->
      ~ In key (Factory.getSupportedLanguages parseCSharp parseGo)).
Proof.
  split.
  - intros pc pg pc' pg' src languageId Hn. unfold Factory.analyzeFile.
    destruct (FactoryFacts.getProperty_cases pc pg languageId)
      as [[K _]|[[K _]|[(N1 & N2 & I & p & E)|(N1 & N2 & I & E)]]].
    + contradiction Hn. rewrite K. simpl. auto.
    + contradiction Hn. rewrite K. simpl. auto.
    + destruct (FactoryFacts.getProperty_cases pc' pg' languageId)
        as [[K' _]|[[K' _]|[(_ & _ & _ & p' & E')|(_ & _ & I' & _)]]];
        try congruence.
      assert (Ep : p = p').
      { unfold Factory.getProperty in E, E'. cbn zeta in E, E'.
        unfold Factory.languageAnalyzers in E, E'. cbn [Factory.assoc] in E, E'.
        destruct (String.eqb "csharp" (Factory.toPropertyKey languageId));
          [discriminate E|].
        destruct (String.eqb "go" (Factory.toPropertyKey languageId));
          [discriminate E|].
        destruct (Factory.assoc (Factory.toPropertyKey languageId)
                                Factory.objectPrototype); congruence. }
      rewrite E, E', Ep. split; [reflexivity|]. split; [congruence|].
      intros _ fs. destruct p'; discriminate.
    + destruct (FactoryFacts.getProperty_cases pc' pg' languageId)
        as [[K' _]|[[K' _]|[(_ & _ & I' & _)|(_ & _ & _ & E')]]];
        try congruence.
      rewrite E, E'. split; [reflexivity|]. split; [reflexivity|congruence].
  - intros pc pg key I. simpl. intros [E|[E|[]]]; subst key; discriminate I.
Qed.

(** The theorem at the identifiers [python] and [valueOf]. *)
Lemma unlisted_identifiers_reach_no_parser_witness :
  Factory.analyzeFile (fun _ => Samples.tryCatchFile) (fun _ => Samples.goFile)
                      Samples.goText (Factory.Str "python") = Factory.Returns [] /\
  (forall fs,
      Factory.analyzeFile (fun _ => Samples.tryCatchFile) (fun _ => Samples.goFile)
                          Samples.goText (Factory.Str "valueOf") <> Factory.Returns fs).
Proof.
  assert (N : forall key,
             key <> "csharp" -> key <> "go" ->
             ~ In key (Factory.getSupportedLanguages (fun _ => Samples.tryCatchFile)
                                                     (fun _ => Samples.goFile))).
  { intros key N1 N2. simpl. intros [E|[E|[]]]; congruence. }
  split.
  - apply (proj1 (proj2 (proj1 unlisted_identifiers_reach_no_parser
                           (fun _ => Samples.tryCatchFile) (fun _ => Samples.goFile)
                           (fun _ => Samples.tryCatchFile) (fun _ => Samples.goFile)
                           Samples.goText (Factory.Str "python")
                           (N "python" ltac:(discriminate) ltac:(discriminate))))).
    reflexivity.
  - apply (proj2 (proj2 (proj1 unlisted_identifiers_reach_no_parser
                           (fun _ => Samples.tryCatchFile) (fun _ => Samples.goFile)
                           (fun _ => Samples.tryCatchFile) (fun _ => Samples.goFile)
                           Samples.goText (Factory.Str "valueOf")
                           (N "valueOf" ltac:(discriminate) ltac:(discriminate))))).
    reflexivity.
Defined.
